(** * The chat client of rag/llm/chat_model.py

    A shallow embedding of [Base] (and of the two methods of [LiteLLMBase]
    that differ from it) of [rag/llm/chat_model.py]: error classification,
    the retry policy, the clean-up of the generation options, the plain,
    streamed and tool-enabled chat operations and the sizing of the context
    window, followed by the properties the specification states about them.

    Conventions of the embedding.
    - A Python [str] is the list of its code points.
    - Python list objects that are shared and updated in place (the caller's
      [history], its copy [hist]) live in a store of list objects and are
      named by their location; [history = hist] copies a location,
      [deepcopy] allocates a new object.
    - A method runs in a state and exception monad. The state holds the
      store, the requests sent to the provider so far, the items a generator
      has yielded, the number of back-off sleeps and the local variables
      that a [try] block updates and its handler reads.
    - Library functions that are not part of the repository
      ([str.lower], [json_repair.loads], [json.dumps],
      [total_token_count_from_response], [num_tokens_from_string],
      [is_chinese]) are the fields of [Imports]; the provider's client and
      the tool session are fields of [Self]. *)

From Stdlib Require Import ZArith NArith List String Ascii Bool Lia DecimalString.
From stdpp Require Import gmap strings list fin_maps.

(** ** Text *)

(** A Python [str]: the sequence of its code points. *)
Abbreviation str := (list N).

(** An ASCII literal as a [str]. *)
Definition u (s : string) : str := map N_of_ascii (list_ascii_of_string s).
Arguments u s%_string : simpl never.

(** The double quote, which literals below splice in. *)
Definition dq : str := [34%N].

(** [s.startswith(w)] *)
Fixpoint startswith (w s : str) : bool :=
  match w, s with
  | [], _ => true
  | _ :: _, [] => false
  | a :: w', b :: s' => N.eqb a b && startswith w' s'
  end.

(** [s.endswith(w)] *)
Definition endswith (w s : str) : bool := startswith (rev w) (rev s).

(** [w in s] for two strings: [w] occurs in [s] as a substring. *)
Fixpoint contains (w s : str) : bool :=
  startswith w s || match s with [] => false | _ :: s' => contains w s' end.

(** [ch.isspace()], the characters [str.strip] removes. *)
Definition isspace (c : N) : bool :=
  ((9 <=? c) && (c <=? 13) || (28 <=? c) && (c <=? 32) || (c =? 133) || (c =? 160)
   || (c =? 5760) || (8192 <=? c) && (c <=? 8202) || (c =? 8232) || (c =? 8233)
   || (c =? 8239) || (c =? 8287) || (c =? 12288))%N.

Fixpoint lstrip (s : str) : str :=
  match s with
  | c :: s' => if isspace c then lstrip s' else s
  | [] => []
  end.

(** [s.strip()] *)
Definition strip (s : str) : str := rev (lstrip (rev (lstrip s))).

(** [str.lower] on text that is ASCII only; the section below takes
    [str.lower] itself as a variable. *)
Definition ascii_lower (s : str) : str :=
  map (fun c => if ((65 <=? c) && (c <=? 90))%N then (c + 32)%N else c) s.

(** [str(n)] for a non-negative integer. *)
Definition str_of_nat (n : nat) : str := u (NilZero.string_of_uint (Nat.to_uint n)).

(** Truthiness of an optional string: [None] and [""] are false. *)
Definition truthy (o : option str) : bool :=
  match o with Some (_ :: _) => true | _ => false end.

(** ** Constants *)

Inductive LLMErrorCode :=
| ERROR_RATE_LIMIT
| ERROR_AUTHENTICATION
| ERROR_INVALID_REQUEST
| ERROR_SERVER
| ERROR_TIMEOUT
| ERROR_CONNECTION
| ERROR_MODEL
| ERROR_MAX_ROUNDS
| ERROR_CONTENT_FILTER
| ERROR_QUOTA
| ERROR_MAX_RETRIES
| ERROR_GENERIC.

(** The value of a member of the [StrEnum], which is what an f-string
    prints. *)
Definition code_value (c : LLMErrorCode) : str :=
  match c with
  | ERROR_RATE_LIMIT => u "RATE_LIMIT_EXCEEDED"
  | ERROR_AUTHENTICATION => u "AUTH_ERROR"
  | ERROR_INVALID_REQUEST => u "INVALID_REQUEST"
  | ERROR_SERVER => u "SERVER_ERROR"
  | ERROR_TIMEOUT => u "TIMEOUT"
  | ERROR_CONNECTION => u "CONNECTION_ERROR"
  | ERROR_MODEL => u "MODEL_ERROR"
  | ERROR_MAX_ROUNDS => u "ERROR_MAX_ROUNDS"
  | ERROR_CONTENT_FILTER => u "CONTENT_FILTERED"
  | ERROR_QUOTA => u "QUOTA_EXCEEDED"
  | ERROR_MAX_RETRIES => u "MAX_RETRIES_EXCEEDED"
  | ERROR_GENERIC => u "GENERIC_ERROR"
  end.

Definition code_eqb (a b : LLMErrorCode) : bool :=
  match a, b with
  | ERROR_RATE_LIMIT, ERROR_RATE_LIMIT | ERROR_AUTHENTICATION, ERROR_AUTHENTICATION
  | ERROR_INVALID_REQUEST, ERROR_INVALID_REQUEST | ERROR_SERVER, ERROR_SERVER
  | ERROR_TIMEOUT, ERROR_TIMEOUT | ERROR_CONNECTION, ERROR_CONNECTION
  | ERROR_MODEL, ERROR_MODEL | ERROR_MAX_ROUNDS, ERROR_MAX_ROUNDS
  | ERROR_CONTENT_FILTER, ERROR_CONTENT_FILTER | ERROR_QUOTA, ERROR_QUOTA
  | ERROR_MAX_RETRIES, ERROR_MAX_RETRIES | ERROR_GENERIC, ERROR_GENERIC => true
  | _, _ => false
  end.

Definition ERROR_PREFIX : str := u "**ERROR**".

Definition LENGTH_NOTIFICATION_CN : str :=
  [183; 183; 183; 183; 183; 183; 10; 30001; 20110; 22823; 27169; 22411; 30340;
   19978; 19979; 25991; 31383; 21475; 22823; 23567; 38480; 21046; 65292; 22238;
   31572; 24050; 32463; 34987; 22823; 27169; 22411; 25130; 26029; 12290]%N.

Definition LENGTH_NOTIFICATION_EN : str :=
  u "..." ++ [10%N]
  ++ u "The answer is truncated by your chosen LLM due to its limitation on context length.".

(** The groups of [keywords_mapping] in [_classify_error], in the order of
    the source. None of the words holds a character that is special in a
    regular expression. *)
Definition quota_words : list str :=
  [u "quota"; u "capacity"; u "credit"; u "billing"; u "balance"; [27424; 36153]%N].
Definition rate_limit_words : list str :=
  [u "rate limit"; u "429"; u "tpm limit"; u "too many requests"; u "requests per minute"].

Definition keywords_mapping : list (list str * LLMErrorCode) :=
  [ (quota_words, ERROR_QUOTA);
    (rate_limit_words, ERROR_RATE_LIMIT);
    ([u "auth"; u "key"; u "apikey"; u "401"; u "forbidden"; u "permission"], ERROR_AUTHENTICATION);
    ([u "invalid"; u "bad request"; u "400"; u "format"; u "malformed"; u "parameter"], ERROR_INVALID_REQUEST);
    ([u "server"; u "503"; u "502"; u "504"; u "500"; u "unavailable"], ERROR_SERVER);
    ([u "timeout"; u "timed out"], ERROR_TIMEOUT);
    ([u "connect"; u "network"; u "unreachable"; u "dns"], ERROR_CONNECTION);
    ([u "filter"; u "content"; u "policy"; u "blocked"; u "safety"; u "inappropriate"], ERROR_CONTENT_FILTER);
    ([u "model"; u "not found"; u "does not exist"; u "not available"], ERROR_MODEL);
    ([u "max rounds"], ERROR_MODEL) ].

(** [re.search("(w1|w2|...)", s)] for literal words: one of them occurs
    in [s]. *)
Definition re_search (words : list str) (s : str) : bool :=
  existsb (fun w => contains w s) words.

(** The loop over [keywords_mapping]: the code of the first group with a
    word in [error_str], [ERROR_GENERIC] when there is none. *)
Fixpoint first_matching_group (mapping : list (list str * LLMErrorCode)) (error_str : str)
  : LLMErrorCode :=
  match mapping with
  | [] => ERROR_GENERIC
  | (words, code) :: rest =>
      if re_search words error_str then code else first_matching_group rest error_str
  end.

(** [_retryable_errors] *)
Definition _retryable_errors : list LLMErrorCode := [ERROR_RATE_LIMIT; ERROR_SERVER].

(** [_should_retry] *)
Definition _should_retry (error_code : LLMErrorCode) : bool :=
  existsb (code_eqb error_code) _retryable_errors.

(** The allow-list of [Base._clean_conf]. *)
Definition allowed_conf : list str :=
  [ u "temperature"; u "max_completion_tokens"; u "top_p"; u "stream"; u "stream_options";
    u "stop"; u "n"; u "presence_penalty"; u "frequency_penalty"; u "functions";
    u "function_call"; u "logit_bias"; u "user"; u "response_format"; u "seed"; u "tools";
    u "tool_choice"; u "logprobs"; u "top_logprobs"; u "extra_headers" ].

(** ** Python values *)

(** The values that travel through the tool layer and the generation
    options: what JSON can hold, and [PyObject] for any other object, which
    [json.dumps] rejects. *)
#[warnings="-register-all"]
Inductive pyobj :=
| PyNone
| PyBool (b : bool)
| PyInt (z : Z)
| PyFloat (repr : str)
| PyStr (s : str)
| PyList (l : list pyobj)
| PyDict (d : list (str * pyobj))
| PyObject (type_name : str).

(** The type name of the first object inside [o] that [json.dumps] cannot
    serialise. *)
Fixpoint unserializable (o : pyobj) : option str :=
  match o with
  | PyList l =>
      (fix go (l : list pyobj) : option str :=
         match l with
         | [] => None
         | x :: l' => match unserializable x with Some t => Some t | None => go l' end
         end) l
  | PyDict d =>
      (fix go (d : list (str * pyobj)) : option str :=
         match d with
         | [] => None
         | (_, x) :: d' => match unserializable x with Some t => Some t | None => go d' end
         end) d
  | PyObject t => Some t
  | _ => None
  end.

(** A raised exception: its [str(e)] and whether it is an
    [openai.APIError]. Only subclasses of [Exception] are modelled. *)
Record exn := { exn_str : str; exn_api : bool }.

Definition Exception (s : str) : exn := {| exn_str := s; exn_api := false |}.
Definition APIError (s : str) : exn := {| exn_str := s; exn_api := true |}.
Definition IndexError : exn := Exception (u "list index out of range").
Definition TypeError_concat_None : exn :=
  Exception (u "can only concatenate str (not " ++ dq ++ u "NoneType" ++ dq ++ u ") to str").
Definition TypeError_not_serializable (type_name : str) : exn :=
  Exception (u "Object of type " ++ type_name ++ u " is not JSON serializable").
Definition AssertionError : exn := Exception (u "Shouldn't be here.").
Definition TypeError_not_iterable : exn :=
  Exception (u "'NoneType' object is not iterable").

(** ** Messages, responses and requests *)

(** A tool call of a response, or a fragment of one in a streamed chunk
    ([index], [id], [function.name], [function.arguments]). *)
Record ToolCall := {
  tc_index : Z;
  tc_id : option str;
  tc_name : option str;
  tc_arguments : option str }.

(** An entry of a conversation: a dict with the keys [role], [content],
    [tool_calls] and [tool_call_id]; [None] is a key that is not there. *)
Record Message := {
  role : option str;
  content : option str;
  tool_calls : option (list ToolCall);
  tool_call_id : option str }.

(** [response.choices[0].message]; an attribute that is missing or [None]
    is [None], a [tool_calls] that is missing, [None] or empty is []. *)
Record completion_message := {
  msg_content : option str;
  msg_reasoning_content : option str;
  msg_tool_calls : list ToolCall }.

Record choice := {
  choice_message : option completion_message;
  finish_reason : option str }.

Record response := {
  choices : list choice;
  usage_total_tokens : option Z }.

(** [resp.choices[0].delta] of a streamed chunk. *)
Record delta := {
  delta_content : option str;
  delta_reasoning_content : option str;
  delta_tool_calls : list ToolCall }.

Record chunk_choice := {
  choice_delta : delta;
  chunk_finish_reason : option str }.

Record chunk := {
  chunk_choices : list chunk_choice;
  chunk_usage : option Z }.

(** A streamed reply: the chunks the iterator delivers and the exception
    it raises after them, if any. *)
Record stream := {
  stream_chunks : list chunk;
  stream_error : option exn }.

(** One call of [client.chat.completions.create]: [messages], whether
    [stream=True], whether [tools=self.tools, tool_choice="auto"], whether
    a [stop=] keyword and [extra_body={"enable_thinking": False}] are
    passed, and the options passed as [**gen_conf]. *)
Record request := {
  r_messages : list Message;
  r_stream : bool;
  r_tools : bool;
  r_stop : bool;
  r_extra_body : bool;
  r_conf : gmap str pyobj }.

(** What a generator yields: text, or the token count. *)
Inductive item :=
| Text (s : str)
| Count (n : Z).

(** ** State *)

Record state := {
  heap : list (list Message);   (* the list objects, by location *)
  requests : list request;   (* calls of [create] so far, oldest first *)
  tool_runs : nat;   (* calls of the tool session so far *)
  yielded : list item;   (* items yielded so far, oldest first *)
  sleeps : nat;   (* back-off sleeps so far *)
  v_history : nat;   (* the local [history], a location *)
  v_hist : nat;   (* the local [hist], a location *)
  v_ans : str;   (* the local [ans] *)
  v_tk_count : Z;   (* the local [tk_count] *)
  v_total_tokens : Z }.   (* the local [total_tokens] *)

Definition set_heap (x : list (list Message)) (s : state) : state :=
  {| heap := x; requests := requests s; tool_runs := tool_runs s;
     yielded := yielded s; sleeps := sleeps s; v_history := v_history s;
     v_hist := v_hist s; v_ans := v_ans s; v_tk_count := v_tk_count s;
     v_total_tokens := v_total_tokens s |}.
Definition set_requests (x : list request) (s : state) : state :=
  {| heap := heap s; requests := x; tool_runs := tool_runs s; yielded := yielded s;
     sleeps := sleeps s; v_history := v_history s; v_hist := v_hist s;
     v_ans := v_ans s; v_tk_count := v_tk_count s; v_total_tokens := v_total_tokens s |}.
Definition set_tool_runs (x : nat) (s : state) : state :=
  {| heap := heap s; requests := requests s; tool_runs := x; yielded := yielded s;
     sleeps := sleeps s; v_history := v_history s; v_hist := v_hist s;
     v_ans := v_ans s; v_tk_count := v_tk_count s; v_total_tokens := v_total_tokens s |}.
Definition set_yielded (x : list item) (s : state) : state :=
  {| heap := heap s; requests := requests s; tool_runs := tool_runs s; yielded := x;
     sleeps := sleeps s; v_history := v_history s; v_hist := v_hist s;
     v_ans := v_ans s; v_tk_count := v_tk_count s; v_total_tokens := v_total_tokens s |}.
Definition set_sleeps (x : nat) (s : state) : state :=
  {| heap := heap s; requests := requests s; tool_runs := tool_runs s;
     yielded := yielded s; sleeps := x; v_history := v_history s; v_hist := v_hist s;
     v_ans := v_ans s; v_tk_count := v_tk_count s; v_total_tokens := v_total_tokens s |}.
Definition set_history (x : nat) (s : state) : state :=
  {| heap := heap s; requests := requests s; tool_runs := tool_runs s;
     yielded := yielded s; sleeps := sleeps s; v_history := x; v_hist := v_hist s;
     v_ans := v_ans s; v_tk_count := v_tk_count s; v_total_tokens := v_total_tokens s |}.
Definition set_hist (x : nat) (s : state) : state :=
  {| heap := heap s; requests := requests s; tool_runs := tool_runs s;
     yielded := yielded s; sleeps := sleeps s; v_history := v_history s; v_hist := x;
     v_ans := v_ans s; v_tk_count := v_tk_count s; v_total_tokens := v_total_tokens s |}.
Definition set_ans (x : str) (s : state) : state :=
  {| heap := heap s; requests := requests s; tool_runs := tool_runs s;
     yielded := yielded s; sleeps := sleeps s; v_history := v_history s;
     v_hist := v_hist s; v_ans := x; v_tk_count := v_tk_count s;
     v_total_tokens := v_total_tokens s |}.
Definition set_tk_count (x : Z) (s : state) : state :=
  {| heap := heap s; requests := requests s; tool_runs := tool_runs s;
     yielded := yielded s; sleeps := sleeps s; v_history := v_history s;
     v_hist := v_hist s; v_ans := v_ans s; v_tk_count := x;
     v_total_tokens := v_total_tokens s |}.
Definition set_total_tokens (x : Z) (s : state) : state :=
  {| heap := heap s; requests := requests s; tool_runs := tool_runs s;
     yielded := yielded s; sleeps := sleeps s; v_history := v_history s;
     v_hist := v_hist s; v_ans := v_ans s; v_tk_count := v_tk_count s;
     v_total_tokens := x |}.

(** The state a call starts in: the caller's lists in the store, nothing
    sent, yielded or slept. *)
Definition initial (objects : list (list Message)) : state :=
  {| heap := objects; requests := []; tool_runs := 0; yielded := []; sleeps := 0;
     v_history := 0; v_hist := 0; v_ans := []; v_tk_count := 0%Z; v_total_tokens := 0%Z |}.

(** ** The monad *)

Inductive result (A : Type) :=
| Ok (a : A)
| Raise (e : exn).
Arguments Ok {A} a.
Arguments Raise {A} e.

Definition M (A : Type) : Type := state -> result A * state.

Definition ret {A} (a : A) : M A := fun s => (Ok a, s).
Definition raise {A} (e : exn) : M A := fun s => (Raise e, s).
Definition bind {A B} (m : M A) (k : A -> M B) : M B :=
  fun s => match m s with
           | (Ok a, s') => k a s'
           | (Raise e, s') => (Raise e, s')
           end.
(** [try: m except Exception as e: ...]: the outcome of [m] as a value;
    what [m] did to the state before it raised stays done. *)
Definition try_except {A} (m : M A) : M (result A) :=
  fun s => let (r, s') := m s in (Ok r, s').
Definition gets {A} (f : state -> A) : M A := fun s => (Ok (f s), s).
Definition modify (f : state -> state) : M unit := fun s => (Ok tt, f s).
(** A library call that returns or raises. *)
Definition lift {A} (r : exn + A) : M A :=
  match r with inl e => raise e | inr a => ret a end.

Declare Scope py_scope.
Delimit Scope py_scope with py.
Notation "x <- c1 ;; c2" := (bind c1 (fun x => c2))
  (at level 100, c1 at next level, right associativity) : py_scope.
Notation "c1 ;; c2" := (bind c1 (fun _ => c2))
  (at level 100, right associativity) : py_scope.
Open Scope py_scope.

(** *** List objects *)

(** The contents of the list at [l]. *)
Definition list_read (l : nat) : M (list Message) :=
  gets (fun s => default [] (heap s !! l)).
(** [lst.append(m)] *)
Definition list_append (l : nat) (m : Message) : M unit :=
  modify (fun s => set_heap (<[l := default [] (heap s !! l) ++ [m]]> (heap s)) s).
(** [lst.insert(0, m)] *)
Definition list_insert0 (l : nat) (m : Message) : M unit :=
  modify (fun s => set_heap (<[l := m :: default [] (heap s !! l)]> (heap s)) s).
(** [deepcopy(lst)]: a new list object with the same entries. The entries
    are dicts that are never updated once they are built, so copying the
    list of them is a deep copy. *)
Definition deepcopy (l : nat) : M nat :=
  fun s => (Ok (length (heap s)), set_heap (heap s ++ [default [] (heap s !! l)]) s).

(** [yield x] *)
Definition yield (x : item) : M unit :=
  modify (fun s => set_yielded (yielded s ++ [x]) s).

(** [for x in l: body(x)] *)
Fixpoint for_each {A} (l : list A) (body : A -> M unit) : M unit :=
  match l with
  | [] => ret tt
  | x :: l' => body x ;; for_each l' body
  end.

(** [for _ in range(n): body], where [body] may [return] a value from the
    method ([Some]) or fall through to the next iteration ([None]). *)
Fixpoint for_range {R} (n : nat) (body : M (option R)) : M (option R) :=
  match n with
  | O => ret None
  | S n' => r <- body ;;
            match r with
            | Some v => ret (Some v)
            | None => for_range n' body
            end
  end.

(** [time.sleep(delay)]: the length of the delay is random and is not
    modelled, the sleep is counted. *)
Definition sleep : M unit := modify (fun s => set_sleeps (S (sleeps s)) s).

(** [if system and history and history[0].get("role") != "system":
       history.insert(0, {"role": "system", "content": system})],
    the statement every chat method opens with. [history] is the caller's
    list object, which is updated in place. *)
Definition insert_system (system : str) (history : nat) : M unit :=
  h <- list_read history ;;
  match system, h with
  | _ :: _, m :: _ =>
      if bool_decide (role m = Some (u "system")) then ret tt
      else list_insert0 history
             {| role := Some (u "system"); content := Some system;
                tool_calls := None; tool_call_id := None |}
  | _, _ => ret tt
  end.

(** [LiteLLMBase._clean_conf]. (The [del] also removes the key from the
    caller's dict; the claims are about the returned options.) *)
Definition LiteLLMBase_clean_conf (gen_conf : gmap str pyobj) : gmap str pyobj :=
  delete (u "max_tokens") gen_conf.

(** [json.dumps(o, ...)]: raises [TypeError] on an object it cannot
    serialise, else returns the text, which [text] computes. *)
Definition dumps (text : pyobj -> str) (o : pyobj) : M str :=
  match unserializable o with
  | Some t => raise (TypeError_not_serializable t)
  | None => ret (text o)
  end.

(** ** What the module imports *)

(** Functions of the Python library and of other modules that the code
    calls. *)
Class Imports := {
  (** [str.lower] *)
  lower : str -> str;
  (** [rag.nlp.is_chinese], applied to a string and to a list of strings *)
  is_chinese : str -> bool;
  is_chinese_list : list str -> bool;
  (** [common.token_utils] *)
  num_tokens_from_string : str -> Z;
  total_token_count_from_response : response -> Z;
  total_token_count_from_chunk : chunk -> Z;
  (** [json_repair.loads] *)
  json_repair_loads : option str -> exn + pyobj;
  (** the text [json.dumps(o, ensure_ascii=False)] returns, without and
      with [indent=2], for an [o] it can serialise *)
  json_dumps : pyobj -> str;
  json_dumps_indent : pyobj -> str;
  (** [repr] of a value that is not a string, of a tool call and of a
      response *)
  py_repr : pyobj -> str;
  tool_call_repr : ToolCall -> str;
  response_repr : response -> str }.

(** ** The attributes of [self] *)

Class Self := {
  (** [self.client.chat.completions.create(...)], without and with
      [stream=True], as a whole: binding the keyword arguments (an option
      of [gen_conf] that repeats an explicit keyword is a [TypeError] of
      the call), sending the request and reading the reply. The first
      argument is the number of calls made before this one, so that the
      reply may differ from call to call. *)
  completions_create : nat -> request -> exn + response;
  completions_create_stream : nat -> request -> exn + stream;
  (** [self.toolcall_session.tool_call(name, args)]; the first argument
      is the number of tool calls made before this one *)
  toolcall_session : nat -> option str -> pyobj -> exn + pyobj;
  model_name : str;
  (** [max_retries] and [max_rounds] are counts; negative values are not
      modelled. *)
  max_retries : nat;
  max_rounds : nat }.

(** ** The class [Base] *)

Section Base.

Context {lib : Imports} {self : Self}.

(** [str(o)] *)
Definition py_str (o : pyobj) : str :=
  match o with
  | PyStr s => s
  | _ => py_repr o
  end.

(** A call of [create] without [stream=True]: recorded, then answered. *)
Definition create (r : request) : M response :=
  fun s =>
    let s' := set_requests (requests s ++ [r]) s in
    match completions_create (length (requests s)) r with
    | inl e => (Raise e, s')
    | inr resp => (Ok resp, s')
    end.

(** A call of [create] with [stream=True]. *)
Definition create_stream (r : request) : M stream :=
  fun s =>
    let s' := set_requests (requests s ++ [r]) s in
    match completions_create_stream (length (requests s)) r with
    | inl e => (Raise e, s')
    | inr st => (Ok st, s')
    end.

(** A call of the tool session: counted, then answered. *)
Definition session_tool_call (name : option str) (args : pyobj) : M pyobj :=
  fun s =>
    let s' := set_tool_runs (S (tool_runs s)) s in
    match toolcall_session (tool_runs s) name args with
    | inl e => (Raise e, s')
    | inr v => (Ok v, s')
    end.

(** [_classify_error] *)
Definition _classify_error (error : exn) : LLMErrorCode :=
  let error_str := lower (exn_str error) in
  first_matching_group keywords_mapping error_str.

(** [_clean_conf]. (The [del] also removes the key from the caller's dict;
    the claims are about the returned options.) *)
Definition _clean_conf (gen_conf : gmap str pyobj) : gmap str pyobj :=
  let gen_conf := delete (u "max_tokens") gen_conf in
  let gen_conf := filter (fun kv : str * pyobj => kv.1 ∈ allowed_conf) gen_conf in
  let model_name_lower := lower model_name in
  if contains (u "gpt-5") model_name_lower then ∅ else gen_conf.

(** [_length_stop] *)
Definition _length_stop (ans : str) : str :=
  if is_chinese_list [ans] then ans ++ LENGTH_NOTIFICATION_CN
  else ans ++ LENGTH_NOTIFICATION_EN.

(** [_exceptions]: [None] after a back-off sleep when the error is to be
    retried, else the error string. *)
Definition _exceptions (e : exn) (attempt : nat) : M (option str) :=
  let error_code := _classify_error e in
  let error_code := if Nat.eqb attempt max_retries then ERROR_MAX_RETRIES else error_code in
  if _should_retry error_code then
    sleep ;; ret None
  else
    let msg := ERROR_PREFIX ++ u ": " ++ code_value error_code ++ u " - " ++ exn_str e in
    ret (Some msg).

(** [_exceptions_async]: the same statements, with [await asyncio.sleep]
    for the sleep. *)
Definition _exceptions_async (e : exn) (attempt : nat) : M (option str) :=
  let error_code := _classify_error e in
  let error_code := if Nat.eqb attempt max_retries then ERROR_MAX_RETRIES else error_code in
  if _should_retry error_code then
    sleep ;; ret None
  else
    let msg := ERROR_PREFIX ++ u ": " ++ code_value error_code ++ u " - " ++ exn_str e in
    ret (Some msg).

(** The loop body of [_chat_streamly] over the chunks of a reply: the
    pairs [(ans, tol)] it yields. *)
Fixpoint stream_items (with_reasoning reasoning_start : bool) (chunks : list chunk)
  : list (str * Z) :=
  match chunks with
  | [] => []
  | resp :: rest =>
      match chunk_choices resp with
      | [] => stream_items with_reasoning reasoning_start rest
      | c :: _ =>
          let d := choice_delta c in
          let content := default [] (delta_content d) in
          let reasoning := with_reasoning && truthy (delta_reasoning_content d) in
          let ans :=
            if reasoning then
              (if reasoning_start then [] else u "<think>")
              ++ default [] (delta_reasoning_content d) ++ u "</think>"
            else content in
          let tol := total_token_count_from_chunk resp in
          let tol := if Z.eqb tol 0 then num_tokens_from_string content else tol in
          let ans :=
            if bool_decide (chunk_finish_reason c = Some (u "length")) then
              if is_chinese ans then ans ++ LENGTH_NOTIFICATION_CN
              else ans ++ LENGTH_NOTIFICATION_EN
            else ans in
          (ans, tol) :: stream_items with_reasoning reasoning rest
      end
  end.

(** [_chat_streamly], for a call without extra keyword arguments other
    than [with_reasoning]: the pairs the generator yields and the
    exception that ends it, if any. The request is sent when the consumer
    asks for the first item. *)
Definition _chat_streamly (history : nat) (gen_conf : gmap str pyobj) (with_reasoning : bool)
  : M (list (str * Z) * option exn) :=
  msgs <- list_read history ;;
  response <- create_stream
    {| r_messages := msgs; r_stream := true; r_tools := false;
       r_stop := bool_decide (is_Some (gen_conf !! u "stop"));
       r_extra_body := false; r_conf := gen_conf |} ;;
  ret (stream_items with_reasoning false (stream_chunks response), stream_error response).

(** [_chat], for a call without extra keyword arguments. *)
Definition _chat (history : nat) (gen_conf : gmap str pyobj) : M (str * Z) :=
  if contains (u "qwq") (lower model_name) then
    p <- _chat_streamly history gen_conf false ;;
    let acc :=
      fold_left
        (fun (acc : str * Z) (it : str * Z) =>
           if startswith (u "<think>") (fst it) || endswith (u "</think>") (fst it)
           then acc else (fst acc ++ fst it, snd it))
        (fst p) ([], 0%Z) in
    match snd p with
    | Some e => raise e
    | None =>
        let final_ans :=
          if Nat.eqb (length (strip (fst acc))) 0
          then u "**ERROR**: Empty response from reasoning model" else fst acc in
        ret (strip final_ans, snd acc)
    end
  else
    msgs <- list_read history ;;
    response <- create
      {| r_messages := msgs; r_stream := false; r_tools := false; r_stop := false;
         r_extra_body := contains (u "qwen3") (lower model_name); r_conf := gen_conf |} ;;
    match choices response with
    | [] => ret ([], 0%Z)
    | c :: _ =>
        match choice_message c with
        | None => ret ([], 0%Z)
        | Some m =>
            if negb (truthy (msg_content m)) then ret ([], 0%Z)
            else
              let ans := strip (default [] (msg_content m)) in
              let ans :=
                if bool_decide (finish_reason c = Some (u "length"))
                then _length_stop ans else ans in
              ret (ans, total_token_count_from_response response)
        end
    end.

(** [_async_chat_stream], for a call without extra keyword arguments
    other than [with_reasoning]: the loop over the chunks is that of
    [_chat_streamly]. The arguments of the request are put into one dict,
    [model], [messages] and [stream] first and the options of [gen_conf]
    after them, and [stop] is added only when the caller gives one: no
    keyword is repeated, and an option [stop] of [gen_conf] is an option
    like the others. *)
Definition _async_chat_stream (history : nat) (gen_conf : gmap str pyobj)
  (with_reasoning : bool) : M (list (str * Z) * option exn) :=
  msgs <- list_read history ;;
  response <- create_stream
    {| r_messages := msgs; r_stream := true; r_tools := false; r_stop := false;
       r_extra_body := false; r_conf := gen_conf |} ;;
  ret (stream_items with_reasoning false (stream_chunks response), stream_error response).

(** [_async_chat], for a call without extra keyword arguments: the
    statements of [_chat], with [_async_chat_stream] for a reasoning
    model, so that the request of that branch never repeats [stop]. *)
Definition _async_chat (history : nat) (gen_conf : gmap str pyobj) : M (str * Z) :=
  if contains (u "qwq") (lower model_name) then
    p <- _async_chat_stream history gen_conf false ;;
    let acc :=
      fold_left
        (fun (acc : str * Z) (it : str * Z) =>
           if startswith (u "<think>") (fst it) || endswith (u "</think>") (fst it)
           then acc else (fst acc ++ fst it, snd it))
        (fst p) ([], 0%Z) in
    match snd p with
    | Some e => raise e
    | None =>
        let final_ans :=
          if Nat.eqb (length (strip (fst acc))) 0
          then u "**ERROR**: Empty response from reasoning model" else fst acc in
        ret (strip final_ans, snd acc)
    end
  else
    msgs <- list_read history ;;
    response <- create
      {| r_messages := msgs; r_stream := false; r_tools := false; r_stop := false;
         r_extra_body := contains (u "qwen3") (lower model_name); r_conf := gen_conf |} ;;
    match choices response with
    | [] => ret ([], 0%Z)
    | c :: _ =>
        match choice_message c with
        | None => ret ([], 0%Z)
        | Some m =>
            if negb (truthy (msg_content m)) then ret ([], 0%Z)
            else
              let ans := strip (default [] (msg_content m)) in
              let ans :=
                if bool_decide (finish_reason c = Some (u "length"))
                then _length_stop ans else ans in
              ret (ans, total_token_count_from_response response)
        end
    end.

(** The retry loop of [chat] over [range(self.max_retries + 1)]. *)
Fixpoint chat_attempts (history : nat) (gen_conf : gmap str pyobj) (attempts : list nat)
  : M (str * Z) :=
  match attempts with
  | [] => raise AssertionError
  | attempt :: rest =>
      r <- try_except (_chat history gen_conf) ;;
      match r with
      | Ok v => ret v
      | Raise e =>
          e <- _exceptions e attempt ;;
          if truthy e then ret (default [] e, 0%Z)
          else chat_attempts history gen_conf rest
      end
  end.

(** [chat] *)
Definition chat (system : str) (history : nat) (gen_conf : gmap str pyobj) : M (str * Z) :=
  insert_system system history ;;
  let gen_conf := _clean_conf gen_conf in
  chat_attempts history gen_conf (seq 0 (max_retries + 1)).

(** [chat_streamly]: a generator; what it yields is appended to [yielded],
    an exception that leaves it is the [Raise] outcome. *)
Definition chat_streamly (system : str) (history : nat) (gen_conf : gmap str pyobj) : M unit :=
  insert_system system history ;;
  let gen_conf := _clean_conf gen_conf in
  let ans : str := [] in
  modify (set_total_tokens 0) ;;
  r <- try_except (
    p <- _chat_streamly history gen_conf true ;;
    for_each (fst p) (fun it =>
      yield (Text (fst it)) ;;
      modify (fun s => set_total_tokens (v_total_tokens s + snd it) s)) ;;
    match snd p with
    | Some e => raise e
    | None => ret tt
    end) ;;
  match r with
  | Ok _ => ret tt
  | Raise e =>
      if exn_api e then yield (Text (ans ++ [10%N] ++ u "**ERROR**: " ++ exn_str e))
      else raise e
  end ;;
  total_tokens <- gets v_total_tokens ;;
  yield (Count total_tokens).

(** *** Tool calls *)

(** [_verbose_tool_use] *)
Definition _verbose_tool_use (name : option str) (args res : pyobj) : M str :=
  let name_value := match name with Some n => PyStr n | None => PyNone end in
  d <- dumps json_dumps_indent
         (PyDict [(u "name", name_value); (u "args", args); (u "result", res)]) ;;
  ret (u "<tool_call>" ++ d ++ u "</tool_call>").

(** [_append_history]: appends to the list object [hist] and returns it. *)
Definition _append_history (hist : nat) (tool_call : ToolCall) (tool_res : pyobj) : M nat :=
  list_append hist
    {| role := Some (u "assistant"); content := None;
       tool_calls := Some [tool_call]; tool_call_id := None |} ;;
  r <- try_except (
    match tool_res with
    | PyDict _ => dumps json_dumps tool_res
    | _ => ret (py_str tool_res)
    end) ;;
  (* finally *)
  match r with
  | Ok text =>
      list_append hist
        {| role := Some (u "tool"); content := Some text;
           tool_calls := None; tool_call_id := tc_id tool_call |} ;;
      ret hist
  | Raise e =>
      list_append hist
        {| role := Some (u "tool"); content := Some (py_str tool_res);
           tool_calls := None; tool_call_id := tc_id tool_call |} ;;
      raise e
  end.

(** The entry the handler of a failed tool call appends. *)
Definition tool_error_message (tool_call : ToolCall) (e : exn) : Message :=
  {| role := Some (u "tool");
     content := Some (u "Tool call error: " ++ [10%N] ++ tool_call_repr tool_call ++ [10%N]
                      ++ u "Exception:" ++ [10%N] ++ exn_str e);
     tool_calls := None; tool_call_id := tc_id tool_call |}.

(** The body of [for tool_call in response.choices[0].message.tool_calls]
    in [chat_with_tools]. *)
Definition run_tool_call (tool_call : ToolCall) : M unit :=
  let name := tc_name tool_call in
  r <- try_except (
    args <- lift (json_repair_loads (tc_arguments tool_call)) ;;
    tool_response <- session_tool_call name args ;;
    history <- gets v_history ;;
    history <- _append_history history tool_call tool_response ;;
    modify (set_history history) ;;
    v <- _verbose_tool_use name args tool_response ;;
    modify (fun s => set_ans (v_ans s ++ v) s)) ;;
  match r with
  | Ok _ => ret tt
  | Raise e =>
      history <- gets v_history ;;
      list_append history (tool_error_message tool_call e) ;;
      v <- _verbose_tool_use name (PyDict []) (PyStr (exn_str e)) ;;
      modify (fun s => set_ans (v_ans s ++ v) s)
  end.

(** The body of [for _ in range(self.max_rounds + 1)] in
    [chat_with_tools]: one request with the tools attached. *)
Definition tool_round (gen_conf : gmap str pyobj) : M (option (str * Z)) :=
  history <- gets v_history ;;
  msgs <- list_read history ;;
  response <- create
    {| r_messages := msgs; r_stream := false; r_tools := true; r_stop := false;
       r_extra_body := false; r_conf := gen_conf |} ;;
  modify (fun s => set_tk_count (v_tk_count s + total_token_count_from_response response) s) ;;
  match choices response with
  | [] => raise IndexError   (* [response.choices[0]] inside [any([...])] *)
  | c :: _ =>
      match choice_message c with
      | None =>
          raise (Exception (u "500 response structure error. Response: "
                            ++ response_repr response))
      | Some message =>
          match msg_tool_calls message with
          | [] =>
              (if truthy (msg_reasoning_content message) then
                 modify (fun s => set_ans (v_ans s ++ u "<think>"
                                           ++ default [] (msg_reasoning_content message)
                                           ++ u "</think>") s)
               else ret tt) ;;
              match msg_content message with
              | None => raise TypeError_concat_None
              | Some text => modify (fun s => set_ans (v_ans s ++ text) s)
              end ;;
              (if bool_decide (finish_reason c = Some (u "length")) then
                 modify (fun s => set_ans (_length_stop (v_ans s)) s)
               else ret tt) ;;
              ans <- gets v_ans ;;
              tk_count <- gets v_tk_count ;;
              ret (Some (ans, tk_count))
          | tool_calls =>
              for_each tool_calls run_tool_call ;;
              ret None
          end
      end
  end.

(** The entry appended when the rounds are used up. *)
Definition exceed_message : Message :=
  {| role := Some (u "user");
     content := Some (u "Exceed max rounds: " ++ str_of_nat max_rounds);
     tool_calls := None; tool_call_id := None |}.

(** The [try] block of [chat_with_tools]. *)
Definition tool_rounds (gen_conf : gmap str pyobj) : M (str * Z) :=
  r <- for_range (max_rounds + 1) (tool_round gen_conf) ;;
  match r with
  | Some v => ret v
  | None =>
      history <- gets v_history ;;
      list_append history exceed_message ;;
      p <- _chat history gen_conf ;;
      modify (fun s => set_ans (v_ans s ++ fst p) s) ;;
      modify (fun s => set_tk_count (v_tk_count s + snd p) s) ;;
      ans <- gets v_ans ;;
      tk_count <- gets v_tk_count ;;
      ret (ans, tk_count)
  end.

(** [history = hist]: the two names denote one list object from here on. *)
Definition history_is_hist : M unit :=
  hist <- gets v_hist ;;
  modify (set_history hist).

(** [history = deepcopy(hist)] *)
Definition history_is_copy_of_hist : M unit :=
  hist <- gets v_hist ;;
  history <- deepcopy hist ;;
  modify (set_history history).

(** The retry loop of the tool-enabled methods over
    [range(self.max_retries + 1)]; [rebind] is its first statement, which
    binds [history] for the attempt. *)
Fixpoint tool_attempts (rebind : M unit) (gen_conf : gmap str pyobj) (attempts : list nat)
  : M (str * Z) :=
  match attempts with
  | [] => raise AssertionError
  | attempt :: rest =>
      rebind ;;
      r <- try_except (tool_rounds gen_conf) ;;
      match r with
      | Ok v => ret v
      | Raise e =>
          e <- _exceptions e attempt ;;
          if truthy e then
            tk_count <- gets v_tk_count ;;
            ret (default [] e, tk_count)
          else tool_attempts rebind gen_conf rest
      end
  end.

(** What [chat_with_tools] does before its retry loop. *)
Definition tools_prologue (system : str) (history : nat) : M unit :=
  modify (set_history history) ;;
  insert_system system history ;;
  modify (set_ans []) ;;
  modify (set_tk_count 0) ;;
  hist <- deepcopy history ;;
  modify (set_hist hist).

(** [chat_with_tools] *)
Definition chat_with_tools (system : str) (history : nat) (gen_conf : gmap str pyobj)
  : M (str * Z) :=
  let gen_conf := _clean_conf gen_conf in
  tools_prologue system history ;;
  tool_attempts history_is_hist gen_conf (seq 0 (max_retries + 1)).

(** The [try] block of [async_chat_with_tools]: the rounds are those of
    [chat_with_tools], with [await] at the request and at the tool call,
    and the request after the last round is that of [_async_chat]. *)
Definition async_tool_rounds (gen_conf : gmap str pyobj) : M (str * Z) :=
  r <- for_range (max_rounds + 1) (tool_round gen_conf) ;;
  match r with
  | Some v => ret v
  | None =>
      history <- gets v_history ;;
      list_append history exceed_message ;;
      p <- _async_chat history gen_conf ;;
      modify (fun s => set_ans (v_ans s ++ fst p) s) ;;
      modify (fun s => set_tk_count (v_tk_count s + snd p) s) ;;
      ans <- gets v_ans ;;
      tk_count <- gets v_tk_count ;;
      ret (ans, tk_count)
  end.

(** The retry loop of [async_chat_with_tools] over
    [range(self.max_retries + 1)]: every attempt starts with
    [history = deepcopy(hist)]. *)
Fixpoint async_tool_attempts (gen_conf : gmap str pyobj) (attempts : list nat)
  : M (str * Z) :=
  match attempts with
  | [] => raise AssertionError
  | attempt :: rest =>
      history_is_copy_of_hist ;;
      r <- try_except (async_tool_rounds gen_conf) ;;
      match r with
      | Ok v => ret v
      | Raise e =>
          e <- _exceptions_async e attempt ;;
          if truthy e then
            tk_count <- gets v_tk_count ;;
            ret (default [] e, tk_count)
          else async_tool_attempts gen_conf rest
      end
  end.

(** [async_chat_with_tools] *)
Definition async_chat_with_tools (system : str) (history : nat) (gen_conf : gmap str pyobj)
  : M (str * Z) :=
  let gen_conf := _clean_conf gen_conf in
  tools_prologue system history ;;
  async_tool_attempts gen_conf (seq 0 (max_retries + 1)).

(** *** Streaming with tools *)

(** [tool_call.function.arguments = ...] *)
Definition with_arguments (tool_call : ToolCall) (arguments : option str) : ToolCall :=
  {| tc_index := tc_index tool_call; tc_id := tc_id tool_call;
     tc_name := tc_name tool_call; tc_arguments := arguments |}.

(** [final_tool_calls] is a dict from index to tool call; a dict keeps its
    keys in the order they were first inserted, which is the order
    [final_tool_calls.values()] runs the calls in, so it is a list of
    pairs with distinct keys. *)
Fixpoint dict_get (index : Z) (d : list (Z * ToolCall)) : option ToolCall :=
  match d with
  | [] => None
  | (k, v) :: d' => if Z.eqb k index then Some v else dict_get index d'
  end.

Fixpoint dict_update (index : Z) (f : ToolCall -> ToolCall) (d : list (Z * ToolCall))
  : list (Z * ToolCall) :=
  match d with
  | [] => []
  | (k, v) :: d' => if Z.eqb k index then (k, f v) :: d' else (k, v) :: dict_update index f d'
  end.

(** The body of [for tool_call in resp.choices[0].delta.tool_calls] in
    [chat_streamly_with_tools]. The arguments of a stored call are a
    string, never [None]: the branch that stores it sees to that. *)
Definition accumulate (final_tool_calls : list (Z * ToolCall)) (tool_call : ToolCall)
  : list (Z * ToolCall) :=
  let index := tc_index tool_call in
  match dict_get index final_tool_calls with
  | None =>
      let tool_call :=
        if truthy (tc_arguments tool_call) then tool_call
        else with_arguments tool_call (Some []) in
      final_tool_calls ++ [(index, tool_call)]
  | Some _ =>
      dict_update index
        (fun stored =>
           with_arguments stored
             (Some (default [] (tc_arguments stored)
                    ++ (if truthy (tc_arguments tool_call)
                        then default [] (tc_arguments tool_call) else []))))
        final_tool_calls
  end.

(** The locals of one round of [chat_streamly_with_tools]. *)
Record round_locals := {
  final_tool_calls : list (Z * ToolCall);
  answer : str;
  reasoning_start : bool }.

(** The body of [for resp in response] in a round of
    [chat_streamly_with_tools]. *)
Definition on_chunk (resp : chunk) (L : round_locals) : M round_locals :=
  match chunk_choices resp with
  | [] => raise IndexError   (* [resp.choices[0]] *)
  | c :: _ =>
      let d := choice_delta c in
      match delta_tool_calls d with
      | _ :: _ =>
          (* [continue] after the fragments are stored *)
          ret {| final_tool_calls := fold_left accumulate (delta_tool_calls d) (final_tool_calls L);
                 answer := answer L; reasoning_start := reasoning_start L |}
      | [] =>
          let content := default [] (delta_content d) in
          L' <- (if truthy (delta_reasoning_content d) then
                   yield (Text ((if reasoning_start L then [] else u "<think>")
                                ++ default [] (delta_reasoning_content d) ++ u "</think>")) ;;
                   ret {| final_tool_calls := final_tool_calls L; answer := answer L;
                          reasoning_start := true |}
                 else
                   yield (Text content) ;;
                   ret {| final_tool_calls := final_tool_calls L;
                          answer := answer L ++ content; reasoning_start := false |}) ;;
          let tol := total_token_count_from_chunk resp in
          modify (fun s =>
            set_total_tokens
              (if Z.eqb tol 0 then v_total_tokens s + num_tokens_from_string content else tol) s) ;;
          (if bool_decide (chunk_finish_reason c = Some (u "length")) then
             yield (Text (_length_stop []))
           else ret tt) ;;
          ret L'
      end
  end.

(** [for resp in response] over the chunks of a reply. *)
Fixpoint consume (chunks : list chunk) (L : round_locals) : M round_locals :=
  match chunks with
  | [] => ret L
  | resp :: rest => L' <- on_chunk resp L ;; consume rest L'
  end.

(** The exception a streamed reply ends with, if any. *)
Definition stream_end (response : stream) : M unit :=
  match stream_error response with
  | Some e => raise e
  | None => ret tt
  end.

(** The body of [for tool_call in final_tool_calls.values()]. *)
Definition run_tool_call_streamly (tool_call : ToolCall) : M unit :=
  let name := tc_name tool_call in
  r <- try_except (
    args <- lift (json_repair_loads (tc_arguments tool_call)) ;;
    v <- _verbose_tool_use name args (PyStr (u "Begin to call...")) ;;
    yield (Text v) ;;
    tool_response <- session_tool_call name args ;;
    history <- gets v_history ;;
    history <- _append_history history tool_call tool_response ;;
    modify (set_history history) ;;
    v <- _verbose_tool_use name args tool_response ;;
    yield (Text v)) ;;
  match r with
  | Ok _ => ret tt
  | Raise e =>
      history <- gets v_history ;;
      list_append history (tool_error_message tool_call e) ;;
      v <- _verbose_tool_use name (PyDict []) (PyStr (exn_str e)) ;;
      yield (Text v)
  end.

(** The body of [for _ in range(self.max_rounds + 1)] in
    [chat_streamly_with_tools]; [Some tt] is the generator's [return]. *)
Definition stream_tool_round (gen_conf : gmap str pyobj) : M (option unit) :=
  history <- gets v_history ;;
  msgs <- list_read history ;;
  response <- create_stream
    {| r_messages := msgs; r_stream := true; r_tools := true; r_stop := false;
       r_extra_body := false; r_conf := gen_conf |} ;;
  L <- consume (stream_chunks response)
         {| final_tool_calls := []; answer := []; reasoning_start := false |} ;;
  stream_end response ;;
  match answer L with
  | _ :: _ =>
      total_tokens <- gets v_total_tokens ;;
      yield (Count total_tokens) ;;
      ret (Some tt)
  | [] =>
      for_each (map snd (final_tool_calls L)) run_tool_call_streamly ;;
      ret None
  end.

(** The body of the last [for resp in response], after the rounds are used
    up. *)
Definition on_final_chunk (resp : chunk) : M unit :=
  match chunk_choices resp with
  | [] => raise IndexError   (* [resp.choices[0]] inside [any([...])] *)
  | c :: _ =>
      if negb (truthy (delta_content (choice_delta c))) then ret tt
      else
        let content := default [] (delta_content (choice_delta c)) in
        let tol := total_token_count_from_chunk resp in
        modify (fun s =>
          set_total_tokens
            (if Z.eqb tol 0 then v_total_tokens s + num_tokens_from_string content else tol) s) ;;
        yield (Text content)
  end.

(** The [try] block of [chat_streamly_with_tools]. *)
Definition stream_tool_rounds (gen_conf : gmap str pyobj) : M unit :=
  r <- for_range (max_rounds + 1) (stream_tool_round gen_conf) ;;
  match r with
  | Some _ => ret tt
  | None =>
      history <- gets v_history ;;
      list_append history exceed_message ;;
      msgs <- list_read history ;;
      response <- create_stream
        {| r_messages := msgs; r_stream := true; r_tools := false; r_stop := false;
           r_extra_body := false; r_conf := gen_conf |} ;;
      for_each (stream_chunks response) on_final_chunk ;;
      stream_end response ;;
      total_tokens <- gets v_total_tokens ;;
      yield (Count total_tokens)
  end.

(** The retry loop of [chat_streamly_with_tools]. *)
Fixpoint stream_tool_attempts (rebind : M unit) (gen_conf : gmap str pyobj)
  (attempts : list nat) : M unit :=
  match attempts with
  | [] => raise AssertionError
  | attempt :: rest =>
      rebind ;;
      r <- try_except (stream_tool_rounds gen_conf) ;;
      match r with
      | Ok _ => ret tt
      | Raise e =>
          e <- _exceptions e attempt ;;
          if truthy e then
            yield (Text (default [] e)) ;;
            total_tokens <- gets v_total_tokens ;;
            yield (Count total_tokens)
          else stream_tool_attempts rebind gen_conf rest
      end
  end.

(** [chat_streamly_with_tools]: a generator, run until it ends. *)
Definition chat_streamly_with_tools (system : str) (history : nat)
  (gen_conf : gmap str pyobj) : M unit :=
  let gen_conf := _clean_conf gen_conf in
  modify (set_history history) ;;
  insert_system system history ;;
  modify (set_total_tokens 0) ;;
  hist <- deepcopy history ;;
  modify (set_hist hist) ;;
  stream_tool_attempts history_is_hist gen_conf (seq 0 (max_retries + 1)).

(** *** The context window *)

(** What the key [content] of a message holds when
    [_calculate_dynamic_ctx] reads it, the only key it reads. The history
    is the caller's, and in it the key may be missing, or hold [None], the
    null of the data model, or hold a text. ([Message] above has no
    [None] content: the chat methods hand the caller's entries on as they
    are, and the entries they add have a text or no such key.) *)
Inductive content_value :=
| ContentMissing
| ContentNone
| ContentText (text : str).

(** [message.get("content", "")]: the text, the default [""] when the key
    is missing, and [None] when that is what the key holds. *)
Definition get_content (message : content_value) : option str :=
  match message with
  | ContentMissing => Some []
  | ContentNone => None
  | ContentText text => Some text
  end.

(** [count_tokens], the helper inside [_calculate_dynamic_ctx];
    [for char in text] raises [TypeError] when [text] is [None]. *)
Definition count_tokens (text : option str) : exn + Z :=
  match text with
  | None => inl TypeError_not_iterable
  | Some text =>
      inr (fold_left (fun (total : Z) (char : N) =>
                        if (char <? 128)%N then (total + 1)%Z else (total + 2)%Z) text 0%Z)
  end.

(** [int(total_tokens * 1.2)]. The literal [1.2] is the double
    [0x3FF3333333333333], a little below 6/5; for a total below [2^49],
    the rounded product truncates to the integer part of
    [6 * total / 5], which is what this computes. *)
Definition with_buffer (total_tokens : Z) : Z := (total_tokens * 6 / 5)%Z.

(** The loop [for message in history] of [_calculate_dynamic_ctx]. *)
Fixpoint sum_tokens (history : list content_value) (total_tokens : Z) : exn + Z :=
  match history with
  | [] => inr total_tokens
  | message :: rest =>
      let content := get_content message in
      match count_tokens content with
      | inl e => inl e
      | inr content_tokens =>
          let role_tokens := 4%Z in
          sum_tokens rest (total_tokens + (content_tokens + role_tokens))%Z
      end
  end.

(** [_calculate_dynamic_ctx] *)
Definition _calculate_dynamic_ctx (history : list content_value) : exn + Z :=
  match sum_tokens history 0%Z with
  | inl e => inl e
  | inr total_tokens =>
      let total_tokens_with_buffer := with_buffer total_tokens in
      inr (if (total_tokens_with_buffer <=? 8192)%Z then 8192%Z
           else
             let ctx_multiplier := (total_tokens_with_buffer / 8192 + 1)%Z in
             (ctx_multiplier * 8192)%Z)
  end.

End Base.

(** ** Vocabulary of the statements *)

(** [w] occurs in [s]. *)
Definition occurs (w s : str) : Prop := exists a b, s = a ++ w ++ b.

(** [s] contains one of [words]. *)
Definition has_word (words : list str) (s : str) : Prop :=
  exists w, In w words /\ occurs w s.

(** The units [_calculate_dynamic_ctx] counts for a text: one per ASCII
    character, two per other character. *)
Definition text_units (text : str) : Z :=
  (Z.of_nat (length (filter (fun c => (c < 128)%N) text))
   + 2 * Z.of_nat (length (filter (fun c => ~ (c < 128)%N) text)))%Z.

(** The units it counts for one message: those of its content, which are
    none when the key is missing, and four for the role. *)
Definition message_units (message : content_value) : Z :=
  (match message with
   | ContentText text => text_units text
   | _ => 0
   end + 4)%Z.

Definition history_units (history : list content_value) : Z :=
  fold_right Z.add 0%Z (map message_units history).

(** What [_calculate_dynamic_ctx] reads of an entry of a conversation. *)
Definition content_of (m : Message) : content_value :=
  match content m with
  | None => ContentMissing
  | Some text => ContentText text
  end.

(** The string [_exceptions] returns for a code and an exception:
    [f"{ERROR_PREFIX}: {error_code} - {str(e)}"]. *)
Definition error_string (c : LLMErrorCode) (e : exn) : str :=
  ERROR_PREFIX ++ u ": " ++ code_value c ++ u " - " ++ exn_str e.

(** Between [st] and [st'] requests were sent, each with [msgs] as its
    messages. *)
Definition sent_with (msgs : list Message) (st st' : state) : Prop :=
  exists new, requests st' = requests st ++ new
              /\ Forall (fun r => r_messages r = msgs) new.

(** The sum of the token counts of the pairs a stream yields. *)
Definition sum_tols (items : list (str * Z)) : Z :=
  fold_right Z.add 0%Z (map snd items).

(** How a run of [chat_streamly] ends, given the pairs [items] that
    [_chat_streamly] yields and the exception [ending] that stops it, if
    any: [out] is the outcome of the run started in [st]. *)
Definition streamly_outcome (st : state) (items : list (str * Z)) (ending : option exn)
  (out : result unit * state) : Prop :=
  let texts := map (fun it : str * Z => Text (fst it)) items in
  match ending with
  | None =>
      fst out = Ok tt
      /\ yielded (snd out) = yielded st ++ texts ++ [Count (sum_tols items)]
  | Some e =>
      if exn_api e then
        fst out = Ok tt
        /\ yielded (snd out)
           = yielded st ++ texts
             ++ [Text ([10%N] ++ u "**ERROR**: " ++ exn_str e); Count (sum_tols items)]
      else
        fst out = Raise e
        /\ yielded (snd out) = yielded st ++ texts
  end.

(** A response is empty: no choices, no first message, or a content that
    is [None] or the empty string. *)
Definition empty_response (resp : response) : Prop :=
  match choices resp with
  | [] => True
  | c :: _ =>
      match choice_message c with
      | None => True
      | Some m => msg_content m = None \/ msg_content m = Some []
      end
  end.

(** The tool-call fragments a chunk carries. *)
Definition chunk_fragments (resp : chunk) : list ToolCall :=
  match chunk_choices resp with
  | c :: _ => delta_tool_calls (choice_delta c)
  | [] => []
  end.

(** The fragments of a stream, in the order they arrive. *)
Definition fragments (chunks : list chunk) : list ToolCall :=
  flat_map chunk_fragments chunks.

(** The arguments of a fragment as text: nothing when they are absent. *)
Definition fragment_text (f : ToolCall) : str := default [] (tc_arguments f).

(** The logical call at [index] that a sequence of fragments stands for:
    [id] and [name] of the first fragment at that index, and as arguments
    the texts of all fragments at that index, joined in their order. *)
Definition assembled (index : Z) (frs : list ToolCall) : option ToolCall :=
  match filter (fun f => tc_index f = index) frs with
  | [] => None
  | f :: fs =>
      Some {| tc_index := tc_index f; tc_id := tc_id f; tc_name := tc_name f;
              tc_arguments := Some (concat (map fragment_text (f :: fs))) |}
  end.

(** The dict [d] holds, at every index, the call that the fragments [frs]
    stand for. *)
Definition represents (d : list (Z * ToolCall)) (frs : list ToolCall) : Prop :=
  forall i, dict_get i d = assembled i frs.

(** A response carries tool calls. *)
Definition carries_tool_calls (resp : response) : Prop :=
  exists c cs m, choices resp = c :: cs /\ choice_message c = Some m
                 /\ msg_tool_calls m <> [].

(** What the tool layer leaves as it is: the sleeps, the yielded items,
    the bindings of [history] and [hist], and the number of list
    objects. *)
Definition frame (st st' : state) : Prop :=
  sleeps st' = sleeps st /\ yielded st' = yielded st
  /\ v_history st' = v_history st /\ v_hist st' = v_hist st
  /\ length (heap st') = length (heap st).

(** ** Examples of libraries, providers and conversations *)

(** A library for ASCII text. *)
Definition ascii_lib : Imports := {|
  lower := ascii_lower;
  is_chinese := fun _ => false;
  is_chinese_list := fun _ => false;
  num_tokens_from_string := fun s => Z.of_nat (length s);
  total_token_count_from_response := fun r => default 0%Z (usage_total_tokens r);
  total_token_count_from_chunk := fun c => default 0%Z (chunk_usage c);
  json_repair_loads := fun a =>
    match a with
    | Some s => inr (PyStr s)
    | None => inl (Exception (u "the JSON object must be str, not NoneType"))
    end;
  json_dumps := fun _ => u "{}";
  json_dumps_indent := fun _ => u "{}";
  py_repr := fun _ => u "object";
  tool_call_repr := fun _ => u "ChoiceDeltaToolCall";
  response_repr := fun _ => u "ChatCompletion" |}.

Definition user_says (s : str) : Message :=
  {| role := Some (u "user"); content := Some s; tool_calls := None; tool_call_id := None |}.

Definition system_says (s : str) : Message :=
  {| role := Some (u "system"); content := Some s; tool_calls := None; tool_call_id := None |}.

(** A client with the given model name, limits and replies; its tool
    session answers every call with "42". *)
Definition client (model : str) (retries rounds : nat)
  (reply : nat -> request -> exn + response)
  (reply_stream : nat -> request -> exn + stream) : Self := {|
  completions_create := reply;
  completions_create_stream := reply_stream;
  toolcall_session := fun _ _ _ => inr (PyStr (u "42"));
  model_name := model;
  max_retries := retries;
  max_rounds := rounds |}.

(** A client whose every request fails with [e]. *)
Definition failing (model : str) (retries : nat) (e : exn) : Self :=
  client model retries 5 (fun _ _ => inl e) (fun _ _ => inl e).

Definition a_chunk (choices : list chunk_choice) : chunk :=
  {| chunk_choices := choices; chunk_usage := None |}.

(** A client for a reasoning model whose streamed reply is one chunk
    without choices. *)
Definition silent_qwq : Self :=
  client (u "qwq-32b") 5 5 (fun _ _ => inl (Exception (u "unused")))
    (fun _ _ => inr {| stream_chunks := [a_chunk []]; stream_error := None |}).

(** A client whose reply has no choices. *)
Definition silent : Self :=
  client (u "gpt-4o") 5 5
    (fun _ _ => inr {| choices := []; usage_total_tokens := Some 9%Z |})
    (fun _ _ => inl (Exception (u "unused"))).

(** A chunk that carries tool-call fragments and nothing else. *)
Definition tool_chunk (frs : list ToolCall) : chunk :=
  a_chunk [ {| choice_delta := {| delta_content := None; delta_reasoning_content := None;
                                  delta_tool_calls := frs |};
               chunk_finish_reason := None |} ].

(** The client library as Python runs it: a call of [create] in which an
    option of [gen_conf] repeats an explicit keyword raises [TypeError]
    before anything is sent. *)
Definition repeated_keyword (r : request) : option str :=
  if r_stream r && bool_decide (is_Some (r_conf r !! u "stream")) then Some (u "stream")
  else if r_tools r && bool_decide (is_Some (r_conf r !! u "tools")) then Some (u "tools")
  else if r_tools r && bool_decide (is_Some (r_conf r !! u "tool_choice"))
       then Some (u "tool_choice")
  else if r_stop r && bool_decide (is_Some (r_conf r !! u "stop")) then Some (u "stop")
  else None.

Definition TypeError_repeated (keyword : str) : exn :=
  Exception (u "create() got multiple values for keyword argument '" ++ keyword ++ u "'").

Definition binding {A} (reply : nat -> request -> exn + A) (n : nat) (r : request) : exn + A :=
  match repeated_keyword r with
  | Some k => inl (TypeError_repeated k)
  | None => reply n r
  end.

(** A tool call, a response that asks for it and a response that is
    plain text. *)
Definition call_search : ToolCall :=
  {| tc_index := 0; tc_id := Some (u "call_1"); tc_name := Some (u "search");
     tc_arguments := Some (u "{}") |}.

Definition asks_tool : response :=
  {| choices := [ {| choice_message :=
                       Some {| msg_content := None; msg_reasoning_content := None;
                               msg_tool_calls := [call_search] |};
                     finish_reason := Some (u "tool_calls") |} ];
     usage_total_tokens := Some 7%Z |}.

Definition says (text : str) : response :=
  {| choices := [ {| choice_message :=
                       Some {| msg_content := Some text; msg_reasoning_content := None;
                               msg_tool_calls := [] |};
                     finish_reason := Some (u "stop") |} ];
     usage_total_tokens := Some 5%Z |}.

Definition text_chunk (text : str) : chunk :=
  a_chunk [ {| choice_delta := {| delta_content := Some text; delta_reasoning_content := None;
                                  delta_tool_calls := [] |};
               chunk_finish_reason := None |} ].

Definition streams (chunks : list chunk) : stream :=
  {| stream_chunks := chunks; stream_error := None |}.

(** A model that asks for a tool whenever the tools are attached. *)
Definition insists (rounds : nat) : Self :=
  client (u "gpt-4o") 5 rounds
    (fun _ r => if r_tools r then inr asks_tool else inr (says (u "Sorry.")))
    (fun _ _ => inr (streams [text_chunk (u "Sorry.")])).

(** A model that asks for a tool whenever the tools are attached, behind a
    provider that turns every request without tools down with a rate-limit
    error; one round and one retry are allowed. *)
Definition insists_limited : Self :=
  client (u "gpt-4o") 1 1
    (fun _ r => if r_tools r then inr asks_tool
                else inl (APIError (u "Error code: 429 - Rate limit reached")))
    (fun _ _ => inl (APIError (u "Error code: 429 - Rate limit reached"))).

(** A provider that asks for a tool, then fails the second request with a
    rate-limit error, then answers; one retry is allowed. *)
Definition flaky : Self :=
  client (u "gpt-4o") 1 5
    (fun n _ =>
       match n with
       | 0 => inr asks_tool
       | 1 => inl (APIError (u "Error code: 429 - Rate limit reached"))
       | _ => inr (says (u "Done."))
       end)
    (fun n _ =>
       match n with
       | 0 => inr (streams [tool_chunk [call_search]])
       | 1 => inl (APIError (u "Error code: 429 - Rate limit reached"))
       | _ => inr (streams [text_chunk (u "Done.")])
       end).

(** The entries the tool round of [flaky] appends. *)
Definition asked : Message :=
  {| role := Some (u "assistant"); content := None;
     tool_calls := Some [call_search]; tool_call_id := None |}.

Definition answered : Message :=
  {| role := Some (u "tool"); content := Some (u "42");
     tool_calls := None; tool_call_id := Some (u "call_1") |}.

Definition hi : list (list Message) := [[user_says (u "Hi")]].

(** ** More of the chat client *)

Section MoreBase.

Context {lib : Imports} {self : Self}.

(** [async_chat_streamly]: an asynchronous generator; [ans] is the local
    of that name, which holds the last delta. *)
Definition async_chat_streamly (system : str) (history : nat) (gen_conf : gmap str pyobj)
  : M unit :=
  insert_system system history ;;
  let gen_conf := _clean_conf gen_conf in
  modify (set_ans []) ;;
  modify (set_total_tokens 0) ;;
  r <- try_except (
    p <- _async_chat_stream history gen_conf true ;;
    for_each (fst p) (fun it =>
      modify (set_ans (fst it)) ;;
      modify (fun s => set_total_tokens (v_total_tokens s + snd it) s) ;;
      yield (Text (fst it))) ;;
    match snd p with
    | Some e => raise e
    | None => ret tt
    end) ;;
  match r with
  | Ok _ => ret tt
  | Raise e =>
      if exn_api e then
        ans <- gets v_ans ;;
        yield (Text (ans ++ [10%N] ++ u "**ERROR**: " ++ exn_str e))
      else raise e
  end ;;
  total_tokens <- gets v_total_tokens ;;
  yield (Count total_tokens).

End MoreBase.

(** [a += b] on the arguments of a tool call when one side is [None]. *)
Definition TypeError_iadd_None (right : str) : exn :=
  Exception (u "unsupported operand type(s) for +=: 'NoneType' and '" ++ right ++ u "'").

(** [stored.function.arguments += fragment.function.arguments] *)
Definition iadd_arguments (stored fragment : option str) : exn + option str :=
  match stored, fragment with
  | Some a, Some b => inr (Some (a ++ b))
  | Some _, None => inl TypeError_concat_None
  | None, Some _ => inl (TypeError_iadd_None (u "str"))
  | None, None => inl (TypeError_iadd_None (u "NoneType"))
  end.

(** The body of [for tool_call in chunk.choices[0].delta.tool_calls or []]
    in [_wrap_toolcall_message]. A call that is stored for the first time
    is the fragment itself, the same object, so the statement that follows
    adds its arguments to themselves. *)
Definition wrap_fragment (final_tool_calls : list (Z * ToolCall)) (tool_call : ToolCall)
  : exn + list (Z * ToolCall) :=
  let index := tc_index tool_call in
  let (final_tool_calls, stored) :=
    match dict_get index final_tool_calls with
    | None => (final_tool_calls ++ [(index, tool_call)], tool_call)
    | Some stored => (final_tool_calls, stored)
    end in
  match iadd_arguments (tc_arguments stored) (tc_arguments tool_call) with
  | inl e => inl e
  | inr arguments =>
      inr (dict_update index (fun stored => with_arguments stored arguments)
             final_tool_calls)
  end.

Fixpoint wrap_fragments (final_tool_calls : list (Z * ToolCall)) (tool_calls : list ToolCall)
  : exn + list (Z * ToolCall) :=
  match tool_calls with
  | [] => inr final_tool_calls
  | tool_call :: rest =>
      match wrap_fragment final_tool_calls tool_call with
      | inl e => inl e
      | inr final_tool_calls => wrap_fragments final_tool_calls rest
      end
  end.

(** [for chunk in stream] in [_wrap_toolcall_message]. *)
Fixpoint wrap_chunks (final_tool_calls : list (Z * ToolCall)) (chunks : list chunk)
  : exn + list (Z * ToolCall) :=
  match chunks with
  | [] => inr final_tool_calls
  | chunk :: rest =>
      match chunk_choices chunk with
      | [] => inl IndexError   (* [chunk.choices[0]] *)
      | c :: _ =>
          match wrap_fragments final_tool_calls (delta_tool_calls (choice_delta c)) with
          | inl e => inl e
          | inr final_tool_calls => wrap_chunks final_tool_calls rest
          end
      end
  end.

(** [_wrap_toolcall_message] *)
Definition _wrap_toolcall_message (stream : stream) : exn + list (Z * ToolCall) :=
  match wrap_chunks [] (stream_chunks stream) with
  | inl e => inl e
  | inr final_tool_calls =>
      match stream_error stream with
      | Some e => inl e
      | None => inr final_tool_calls
      end
  end.

(** ** The class [LiteLLMBase] *)

(** [s.split(sep)] for a separator of one character. *)
Fixpoint str_split (sep : N) (s : str) : list str :=
  match s with
  | [] => [[]]
  | c :: s' =>
      if N.eqb c sep then [] :: str_split sep s'
      else match str_split sep s' with
           | w :: ws => (c :: w) :: ws
           | [] => [[c]]
           end
  end.

(** Truthiness of a value that [json.loads] returns. *)
Definition py_truthy (o : pyobj) : bool :=
  match o with
  | PyNone => false
  | PyBool b => b
  | PyInt z => negb (Z.eqb z 0)
  | PyFloat repr => negb (bool_decide (repr = u "0.0" \/ repr = u "-0.0"))
  | PyStr s => negb (bool_decide (s = []))
  | PyList l => negb (bool_decide (l = []))
  | PyDict d => negb (bool_decide (d = []))
  | PyObject _ => true
  end.

(** A value of the dict [completion_args]. *)
Inductive arg :=
| ArgStr (s : str)
| ArgInt (n : nat)
| ArgBool (b : bool)
| ArgMessages (messages : list Message)
| ArgTools   (* [self.tools] *)
| ArgOption (value : pyobj)   (* an option of [gen_conf] *)
| ArgProvider (order : list str).
  (* [{"provider": {"order": order, "allow_fallbacks": False}}] *)

(** The attributes of a [LiteLLMBase] that [Base] has not, and
    [litellm.completion] on the items of [completion_args], [drop_params=True]
    and [timeout=...], without and with [stream] in the arguments, as a
    whole; [acompletion] is the same function. The first argument is the number of calls made
    before this one. *)
Class LiteLLM := {
  completion : nat -> gmap str arg -> exn + response;
  completion_stream : nat -> gmap str arg -> exn + stream;
  api_key : str;
  base_url : str;
  (** [self.provider in FACTORY_DEFAULT_BASE_URL] *)
  provider_has_base_url : bool;
  (** [self.provider == SupportedLiteLLMProvider.OpenRouter] *)
  provider_is_openrouter : bool;
  (** [json.loads(key).get("provider_order", "")] *)
  provider_order : pyobj;
  (** [self.tools] is not empty *)
  tools_bound : bool }.

Definition AttributeError_None (attribute : str) : exn :=
  Exception (u "'NoneType' object has no attribute '" ++ attribute ++ u "'").

Definition TypeError_multiple_values (function keyword : str) : exn :=
  Exception (function ++ u "() got multiple values for keyword argument '" ++ keyword ++ u "'").

(** What the log of requests keeps of a call of [litellm.completion]: the
    messages, whether it streams, whether the tools are attached, and the
    options that come from [gen_conf]. *)
Definition request_of (completion_args : gmap str arg) : request :=
  {| r_messages := match completion_args !! u "messages" with
                   | Some (ArgMessages messages) => messages
                   | _ => []
                   end;
     r_stream := match completion_args !! u "stream" with
                 | Some (ArgBool stream) => stream
                 | _ => false
                 end;
     r_tools := match completion_args !! u "tools" with
                | Some ArgTools => true
                | _ => false
                end;
     r_stop := false;
     r_extra_body := false;
     r_conf := omap (fun a => match a with ArgOption v => Some v | _ => None end)
                 completion_args |}.

Module LiteLLMBase.
Section LiteLLMBase.

(** [LiteLLMBase] has the attributes [model_name], [max_retries] and
    [max_rounds] of [Base], and under the same names the same code for
    [_classify_error], [_should_retry], [_exceptions], [_exceptions_async]
    and [_length_stop]. *)
Context {lib : Imports} {self : Self} {lite : LiteLLM}.

(** [_to_order_list], the function inside [_construct_completion_args];
    its argument is a value of [json.loads], so it is no tuple. *)
Definition _to_order_list (x : pyobj) : list str :=
  match x with
  | PyNone => []
  | PyStr x =>
      map strip (List.filter (fun s => negb (bool_decide (strip s = []))) (str_split 44 x))
  | PyList x =>
      map (fun s => strip (py_str s))
        (List.filter (fun s => negb (bool_decide (strip (py_str s) = []))) x)
  | _ => []
  end.

(** [_construct_completion_args]: the dict display, in which the options
    come last and so replace the keys before them, and the updates that
    follow it. *)
Definition _construct_completion_args (history : list Message) (stream tools : bool)
  (kwargs : gmap str pyobj) : gmap str arg :=
  let completion_args : gmap str arg :=
    (ArgOption <$> kwargs)
    ∪ <[u "model" := ArgStr model_name]>
        (<[u "messages" := ArgMessages history]>
           (<[u "api_key" := ArgStr api_key]>
              (<[u "num_retries" := ArgInt max_retries]> ∅))) in
  let completion_args :=
    if stream then <[u "stream" := ArgBool stream]> completion_args
    else completion_args in
  let completion_args :=
    if tools && tools_bound then
      <[u "tool_choice" := ArgStr (u "auto")]> (<[u "tools" := ArgTools]> completion_args)
    else completion_args in
  let completion_args :=
    if provider_has_base_url then <[u "api_base" := ArgStr base_url]> completion_args
    else completion_args in
  if provider_is_openrouter && py_truthy provider_order then
    <[u "extra_body" := ArgProvider (_to_order_list provider_order)]> completion_args
  else completion_args.

(** A call [self._construct_completion_args(history=..., stream=...,
    tools=..., **gen_conf)]: an option of [gen_conf] with the name of a
    parameter is a [TypeError] of the call. (When several options have
    such a name, the message names the first of them in the order of
    [gen_conf], which a map does not keep.) *)
Definition construct_completion_args (history : list Message) (stream tools : bool)
  (gen_conf : gmap str pyobj) : M (gmap str arg) :=
  match List.find (fun k => bool_decide (is_Some (gen_conf !! k)))
          [u "history"; u "stream"; u "tools"] with
  | Some keyword =>
      raise (TypeError_multiple_values (u "LiteLLMBase._construct_completion_args") keyword)
  | None => ret (_construct_completion_args history stream tools gen_conf)
  end.

(** A call of [litellm.completion] or [litellm.acompletion]: recorded,
    then answered. *)
Definition litellm_completion (completion_args : gmap str arg) : M response :=
  fun s =>
    let s' := set_requests (requests s ++ [request_of completion_args]) s in
    match completion (length (requests s)) completion_args with
    | inl e => (Raise e, s')
    | inr resp => (Ok resp, s')
    end.

Definition litellm_completion_stream (completion_args : gmap str arg) : M stream :=
  fun s =>
    let s' := set_requests (requests s ++ [request_of completion_args]) s in
    match completion_stream (length (requests s)) completion_args with
    | inl e => (Raise e, s')
    | inr st => (Ok st, s')
    end.

(** What [_chat] and [async_chat] make of a response. The three tests
    are the items of a list display that is built before [any] looks at
    it, so that [response.choices[0]] is evaluated when there are no
    choices, and [.content] when there is no message. *)
Definition answer_of (response : response) : M (str * Z) :=
  match choices response with
  | [] => raise IndexError
  | c :: _ =>
      match choice_message c with
      | None => raise (AttributeError_None (u "content"))
      | Some m =>
          if negb (truthy (msg_content m)) then ret ([], 0%Z)
          else
            let ans := strip (default [] (msg_content m)) in
            let ans :=
              if bool_decide (finish_reason c = Some (u "length"))
              then _length_stop ans else ans in
            ret (ans, total_token_count_from_response response)
      end
  end.

(** [_chat], for a call without extra keyword arguments. (For a "qwen3"
    model it puts [extra_body] into its [kwargs], which it does not use
    afterwards.) *)
Definition _chat (history : nat) (gen_conf : gmap str pyobj) : M (str * Z) :=
  msgs <- list_read history ;;
  completion_args <- construct_completion_args msgs false false gen_conf ;;
  response <- litellm_completion completion_args ;;
  answer_of response.

(** The retry loop of [chat]. *)
Fixpoint chat_attempts (history : nat) (gen_conf : gmap str pyobj) (attempts : list nat)
  : M (str * Z) :=
  match attempts with
  | [] => raise AssertionError
  | attempt :: rest =>
      r <- try_except (_chat history gen_conf) ;;
      match r with
      | Ok v => ret v
      | Raise e =>
          e <- _exceptions e attempt ;;
          if truthy e then ret (default [] e, 0%Z)
          else chat_attempts history gen_conf rest
      end
  end.

(** [chat] *)
Definition chat (system : str) (history : nat) (gen_conf : gmap str pyobj) : M (str * Z) :=
  insert_system system history ;;
  let gen_conf := LiteLLMBase_clean_conf gen_conf in
  chat_attempts history gen_conf (seq 0 (max_retries + 1)).

(** The retry loop of [async_chat]; the arguments are built once, before
    the loop. *)
Fixpoint async_chat_attempts (completion_args : gmap str arg) (attempts : list nat)
  : M (str * Z) :=
  match attempts with
  | [] => raise AssertionError
  | attempt :: rest =>
      r <- try_except (
        response <- litellm_completion completion_args ;;
        answer_of response) ;;
      match r with
      | Ok v => ret v
      | Raise e =>
          e <- _exceptions e attempt ;;
          if truthy e then ret (default [] e, 0%Z)
          else async_chat_attempts completion_args rest
      end
  end.

(** [async_chat]. [hist] is a list of its own, [list(history)], that no
    other name denotes: it is a value here. *)
Definition async_chat (system : str) (history : nat) (gen_conf : gmap str pyobj)
  : M (str * Z) :=
  hist <- list_read history ;;
  let hist :=
    match system with
    | [] => hist
    | _ :: _ =>
        match hist with
        | [] => [system_says system]
        | m :: _ =>
            if bool_decide (role m = Some (u "system")) then hist
            else system_says system :: hist
        end
    end in
  completion_args <- construct_completion_args hist false false gen_conf ;;
  async_chat_attempts completion_args (seq 0 (max_retries + 1)).

(** Whether a run of reasoning deltas is open after the chunks: the
    value of [reasoning_start] when the loop over them ends. *)
Fixpoint reasoning_after (with_reasoning reasoning_start : bool) (chunks : list chunk)
  : bool :=
  match chunks with
  | [] => reasoning_start
  | resp :: rest =>
      match chunk_choices resp with
      | [] => reasoning_after with_reasoning reasoning_start rest
      | c :: _ =>
          reasoning_after with_reasoning
            (with_reasoning && truthy (delta_reasoning_content (choice_delta c))) rest
      end
  end.

(** The retry loop of [async_chat_streamly]. Of the statements of its
    [try] block the call and the iteration of the stream can raise;
    [total_tokens] and [reasoning_start] are set before the loop and keep
    their values from one attempt to the next. The loop over the chunks
    is that of [Base._chat_streamly], with the counts added to
    [total_tokens]. *)
Fixpoint stream_attempts (completion_args : gmap str arg) (reasoning_start : bool)
  (attempts : list nat) : M unit :=
  match attempts with
  | [] => ret tt
  | attempt :: rest =>
      let handler (e : exn) (reasoning_start : bool) : M unit :=
        e <- _exceptions e attempt ;;
        if truthy e then
          yield (Text (default [] e)) ;;
          total_tokens <- gets v_total_tokens ;;
          yield (Count total_tokens)
        else stream_attempts completion_args reasoning_start rest in
      r <- try_except (litellm_completion_stream completion_args) ;;
      match r with
      | Raise e => handler e reasoning_start
      | Ok stream =>
          for_each (stream_items true reasoning_start (stream_chunks stream)) (fun it =>
            modify (fun s => set_total_tokens (v_total_tokens s + snd it) s) ;;
            yield (Text (fst it))) ;;
          match stream_error stream with
          | Some e =>
              handler e (reasoning_after true reasoning_start (stream_chunks stream))
          | None =>
              total_tokens <- gets v_total_tokens ;;
              yield (Count total_tokens)
          end
      end
  end.

(** [async_chat_streamly], for a call without extra keyword arguments:
    an asynchronous generator. *)
Definition async_chat_streamly (system : str) (history : nat) (gen_conf : gmap str pyobj)
  : M unit :=
  insert_system system history ;;
  let gen_conf := LiteLLMBase_clean_conf gen_conf in
  modify (set_total_tokens 0) ;;
  msgs <- list_read history ;;
  completion_args <- construct_completion_args msgs true false gen_conf ;;
  stream_attempts completion_args false (seq 0 (max_retries + 1)).

(** The body of [for _ in range(self.max_rounds + 1)] in
    [chat_with_tools]: one request with the tools asked for. The loop over
    the tool calls is that of [Base.chat_with_tools]. *)
Definition tool_round (gen_conf : gmap str pyobj) : M (option (str * Z)) :=
  history <- gets v_history ;;
  msgs <- list_read history ;;
  completion_args <- construct_completion_args msgs false true gen_conf ;;
  response <- litellm_completion completion_args ;;
  modify (fun s => set_tk_count (v_tk_count s + total_token_count_from_response response) s) ;;
  let structure_error :=
    Exception (u "500 response structure error. Response: " ++ response_repr response) in
  match choices response with
  | [] => raise structure_error
  | c :: _ =>
      match choice_message c with
      | None => raise structure_error
      | Some message =>
          match msg_tool_calls message with
          | [] =>
              (if truthy (msg_reasoning_content message) then
                 modify (fun s => set_ans (v_ans s ++ u "<think>"
                                           ++ default [] (msg_reasoning_content message)
                                           ++ u "</think>") s)
               else ret tt) ;;
              (* [message.content or ""] *)
              modify (fun s => set_ans (v_ans s ++ default [] (msg_content message)) s) ;;
              (if bool_decide (finish_reason c = Some (u "length")) then
                 modify (fun s => set_ans (_length_stop (v_ans s)) s)
               else ret tt) ;;
              ans <- gets v_ans ;;
              tk_count <- gets v_tk_count ;;
              ret (Some (ans, tk_count))
          | tool_calls =>
              for_each tool_calls run_tool_call ;;
              ret None
          end
      end
  end.

(** The [try] block of [chat_with_tools]. *)
Definition tool_rounds (gen_conf : gmap str pyobj) : M (str * Z) :=
  r <- for_range (max_rounds + 1) (tool_round gen_conf) ;;
  match r with
  | Some v => ret v
  | None =>
      history <- gets v_history ;;
      list_append history exceed_message ;;
      p <- _chat history gen_conf ;;
      modify (fun s => set_ans (v_ans s ++ fst p) s) ;;
      modify (fun s => set_tk_count (v_tk_count s + snd p) s) ;;
      ans <- gets v_ans ;;
      tk_count <- gets v_tk_count ;;
      ret (ans, tk_count)
  end.

(** The retry loop of [chat_with_tools]; every attempt begins with
    [history = deepcopy(hist)]. *)
Fixpoint tool_attempts (gen_conf : gmap str pyobj) (attempts : list nat) : M (str * Z) :=
  match attempts with
  | [] => raise AssertionError
  | attempt :: rest =>
      history_is_copy_of_hist ;;
      r <- try_except (tool_rounds gen_conf) ;;
      match r with
      | Ok v => ret v
      | Raise e =>
          e <- _exceptions e attempt ;;
          if truthy e then
            tk_count <- gets v_tk_count ;;
            ret (default [] e, tk_count)
          else tool_attempts gen_conf rest
      end
  end.

(** [chat_with_tools] *)
Definition chat_with_tools (system : str) (history : nat) (gen_conf : gmap str pyobj)
  : M (str * Z) :=
  let gen_conf := LiteLLMBase_clean_conf gen_conf in
  tools_prologue system history ;;
  tool_attempts gen_conf (seq 0 (max_retries + 1)).

End LiteLLMBase.
End LiteLLMBase.

(** ** The class [HuggingFaceChat] *)

(** [s.split(sep)[0]] for a separator that is not empty: the text before
    the first [sep] in [s], all of [s] when there is none. *)
Fixpoint split_first (sep s : str) {struct s} : str :=
  if startswith sep s then []
  else match s with
       | [] => []
       | c :: s' => c :: split_first sep s'
       end.

Section HuggingFaceChat.

(** [urllib.parse.urljoin] *)
Variable urljoin : str -> str -> str.

(** [HuggingFaceChat.__init__]: the [model_name] and the [base_url] it
    hands to [Base.__init__], which stores them. *)
Definition HuggingFaceChat_init (model_name base_url : str) : exn + (str * str) :=
  match base_url with
  | [] => inl (Exception (u "Local llm url cannot be None"))
  | _ :: _ =>
      let base_url := urljoin base_url (u "v1") in
      inr (split_first (u "___") model_name, base_url)
  end.

End HuggingFaceChat.

(** ** Further vocabulary *)

(** What [_chat] makes of the content [text] of a choice [c]: the content
    without the white space around it, followed by the truncation notice
    when the finish reason is [length]. *)
Definition plain_answer `{Imports} (c : choice) (text : str) : str :=
  if bool_decide (finish_reason c = Some (u "length")) then _length_stop (strip text)
  else strip text.

(** A run from [st] to [st'] has only added to what was yielded. *)
Definition grows (st st' : state) : Prop :=
  exists new, yielded st' = yielded st ++ new.

(** A run from [st] to [st'] has only added to what was yielded, and the
    last item it yielded is the token count. *)
Definition counted (st st' : state) : Prop :=
  exists items, yielded st' = yielded st ++ items ++ [Count (v_total_tokens st')].

(** A run from [st] to [st'] has kept the frame and has touched no list
    object other than the one [history] is bound to. *)
Definition keeps (st st' : state) : Prop :=
  frame st st'
  /\ forall l, l <> v_history st -> heap st' !! l = heap st !! l.

(** The requests of one attempt, the first of which carries [msgs]. *)
Definition starts_from (msgs : list Message) (block : list request) : Prop :=
  exists first rest, block = first :: rest /\ r_messages first = msgs.

(** An entry written for the tool call [tc]: the assistant entry that
    carries the call, or a tool entry that answers it. *)
Definition entry_of (tc : ToolCall) (m : Message) : Prop :=
  (role m = Some (u "assistant") /\ tool_calls m = Some [tc])
  \/ (role m = Some (u "tool") /\ tool_call_id m = tc_id tc).

(** The entries of [block] were written for [tc], and the last of them is
    a tool entry that answers it. *)
Definition answers (tc : ToolCall) (block : list Message) : Prop :=
  Forall (entry_of tc) block
  /\ exists m, last block = Some m
               /\ role m = Some (u "tool") /\ tool_call_id m = tc_id tc.

(** The caller's list after the statement every chat method opens with. *)
Definition with_system (system : str) (h : list Message) : list Message :=
  match system, h with
  | _ :: _, m :: _ =>
      if bool_decide (role m = Some (u "system")) then h else system_says system :: h
  | _, _ => h
  end.

(** The test of [_chat] on a delta of a reasoning model:
    [delta.startswith("<think>") or delta.endswith("</think>")]. *)
Definition thinking (delta : str) : bool :=
  startswith (u "<think>") delta || endswith (u "</think>") delta.

(** The deltas of a stream that [_chat] keeps. *)
Definition kept (items : list (str * Z)) : list (str * Z) :=
  List.filter (fun it => negb (thinking (fst it))) items.

(** How a run of [async_chat_streamly] ends, given the pairs [items] of
    the stream and the exception [ending] that stops it, if any: [out] is
    the outcome of the run started in [st]. *)
Definition async_streamly_outcome (st : state) (items : list (str * Z))
  (ending : option exn) (out : result unit * state) : Prop :=
  let texts := map (fun it : str * Z => Text (fst it)) items in
  match ending with
  | None =>
      fst out = Ok tt
      /\ yielded (snd out) = yielded st ++ texts ++ [Count (sum_tols items)]
  | Some e =>
      if exn_api e then
        fst out = Ok tt
        /\ yielded (snd out)
           = yielded st ++ texts
             ++ [Text (default [] (last (map fst items))
                       ++ [10%N] ++ u "**ERROR**: " ++ exn_str e);
                 Count (sum_tols items)]
      else
        fst out = Raise e
        /\ yielded (snd out) = yielded st ++ texts
  end.

(** What [_wrap_toolcall_message] holds at [index] after the fragments
    [frs]: [id] and [name] of the first fragment at that index, and as
    arguments the text of that first fragment followed by the texts of all
    fragments at that index, the first one included. *)
Definition wrapped (index : Z) (frs : list ToolCall) : option ToolCall :=
  match filter (fun f => tc_index f = index) frs with
  | [] => None
  | f :: fs =>
      Some {| tc_index := tc_index f; tc_id := tc_id f; tc_name := tc_name f;
              tc_arguments :=
                Some (fragment_text f ++ concat (map fragment_text (f :: fs))) |}
  end.

(** The messages [LiteLLMBase.async_chat] sends for the entries [h] of
    the caller's list: when [system] is not empty they begin with a system
    message, the one of [h] or a new one, also when [h] is empty. *)
Definition prompted (system : str) (h : list Message) : list Message :=
  match system, h with
  | [], _ => h
  | _ :: _, [] => [system_says system]
  | _ :: _, m :: _ =>
      if bool_decide (role m = Some (u "system")) then h else system_says system :: h
  end.

(** The keys of [completion_args] that [_construct_completion_args] sets
    after the options are in. *)
Definition set_after_options : list str :=
  [u "stream"; u "tools"; u "tool_choice"; u "api_base"; u "extra_body"].

(** [sep.join(xs)] for a separator of one character. *)
Definition str_join (sep : N) (xs : list str) : str :=
  match xs with
  | [] => []
  | x :: xs' => x ++ flat_map (fun y => sep :: y) xs'
  end.

(** ** Further examples *)

(** A provider that fails twice with a rate-limit error and then
    answers. *)
Definition recovering : Self :=
  client (u "gpt-4o") 5 5
    (fun n _ =>
       match n with
       | 0 | 1 => inl (APIError (u "Error code: 429 - Rate limit reached"))
       | _ => inr (says (u " Hello! "))
       end)
    (fun _ _ => inl (Exception (u "unused"))).

(** A provider that rejects the key. *)
Definition unauthorized : Self :=
  failing (u "gpt-4o") 5 (APIError (u "Error code: 401 - Incorrect API key provided")).

(** A [LiteLLMBase] for OpenRouter with the given replies. *)
Definition openrouter (reply : nat -> gmap str arg -> exn + response)
  (reply_stream : nat -> gmap str arg -> exn + stream) : LiteLLM := {|
  completion := reply;
  completion_stream := reply_stream;
  api_key := u "sk-or-test";
  base_url := u "https://openrouter.ai/api/v1";
  provider_has_base_url := true;
  provider_is_openrouter := true;
  provider_order := PyStr (u "groq, together");
  tools_bound := false |}.

(** A provider whose response has no choices. *)
Definition no_choices : LiteLLM :=
  openrouter (fun _ _ => inr {| choices := []; usage_total_tokens := None |})
    (fun _ _ => inl (Exception (u "unused"))).

(** A provider whose first stream breaks off after one text and whose
    second stream ends. *)
Definition stuttering : LiteLLM :=
  openrouter (fun _ _ => inl (Exception (u "unused")))
    (fun n _ =>
       match n with
       | 0 => inr {| stream_chunks := [text_chunk (u "Hel")];
                     stream_error :=
                       Some (APIError (u "Error code: 429 - Rate limit reached")) |}
       | _ => inr (streams [text_chunk (u "Hello")])
       end).

(** ** Properties *)

Section Classification.

Context {lib : Imports} {self : Self}.

(** *** Text *)

Lemma startswith_spec (w s : str) : startswith w s = true <-> exists b, s = w ++ b.
Proof.
  revert s. induction w as [|a w IH]; intros s; simpl.
  - split; eauto.
  - destruct s as [|b s].
    + split; [discriminate | intros [t Ht]; discriminate].
    + rewrite andb_true_iff, N.eqb_eq, IH. split.
      * intros [-> [t ->]]. eauto.
      * intros [t Ht]. injection Ht as -> ->. eauto.
Qed.

Lemma contains_spec (w s : str) : contains w s = true <-> occurs w s.
Proof.
  unfold occurs. induction s as [|c s IH].
  - simpl. rewrite orb_false_r, startswith_spec. split.
    + intros [b Hb]. exists [], b. exact Hb.
    + intros (a & b & H). destruct a as [|x a]; [|discriminate].
      simpl in H. exists b. exact H.
  - change (contains w (c :: s)) with (startswith w (c :: s) || contains w s).
    rewrite orb_true_iff, IH, startswith_spec. split.
    + intros [[b Hb] | (a & b & Hab)].
      * exists [], b. exact Hb.
      * exists (c :: a), b. simpl. now rewrite Hab.
    + intros (a & b & H). destruct a as [|x a].
      * left. exists b. exact H.
      * right. injection H as -> ->. eauto.
Qed.

Lemma re_search_spec (words : list str) (s : str) :
  re_search words s = true <-> has_word words s.
Proof.
  unfold re_search, has_word. rewrite existsb_exists.
  split; intros (w & Hin & H); exists w; split; auto; now apply contains_spec.
Qed.

Lemma re_search_false (words : list str) (s : str) :
  re_search words s = false <-> ~ has_word words s.
Proof.
  rewrite <- re_search_spec. destruct (re_search words s); split; congruence.
Qed.

(** The loop of [_classify_error] returns the code of the first group that
    matches. *)
Lemma first_matching_group_spec pre words code post (s : str) :
  Forall (fun g => ~ has_word (fst g) s) pre ->
  has_word words s ->
  first_matching_group (pre ++ (words, code) :: post) s = code.
Proof.
  intros Hpre Hw. induction Hpre as [|[ws c] pre Hg _ IH]; simpl.
  - apply re_search_spec in Hw. now rewrite Hw.
  - apply re_search_false in Hg. simpl in Hg. now rewrite Hg.
Qed.

(** *** C3: classification of rate-limit errors *)

(** C3 (as amended). For every error whose lower-cased text contains a
    rate-limit keyword and no quota keyword, [_classify_error] returns
    [ERROR_RATE_LIMIT], which [_should_retry] accepts. The groups are
    tested in the order they are declared and the first that matches wins:
    a quota keyword gives [ERROR_QUOTA] whatever else the text contains,
    and in general the code returned is that of the first matching
    group. *)
Theorem classify_rate_limit (error : exn) :
  has_word rate_limit_words (lower (exn_str error)) ->
  ~ has_word quota_words (lower (exn_str error)) ->
  _classify_error error = ERROR_RATE_LIMIT
  /\ _should_retry (_classify_error error) = true
  /\ (forall e, has_word quota_words (lower (exn_str e)) ->
                _classify_error e = ERROR_QUOTA)
  /\ (forall e pre words code post,
        keywords_mapping = pre ++ (words, code) :: post ->
        Forall (fun g => ~ has_word (fst g) (lower (exn_str e))) pre ->
        has_word words (lower (exn_str e)) ->
        _classify_error e = code).
Proof.
  intros Hrate Hquota.
  assert (Hfirst : forall e pre words code post,
             keywords_mapping = pre ++ (words, code) :: post ->
             Forall (fun g => ~ has_word (fst g) (lower (exn_str e))) pre ->
             has_word words (lower (exn_str e)) ->
             _classify_error e = code).
  { intros e pre words code post Hmap Hpre Hw. unfold _classify_error.
    rewrite Hmap. now apply first_matching_group_spec. }
  assert (Hcode : _classify_error error = ERROR_RATE_LIMIT).
  { apply (Hfirst error [(quota_words, ERROR_QUOTA)] rate_limit_words ERROR_RATE_LIMIT
             (skipn 2 keywords_mapping)); [reflexivity | | exact Hrate].
    constructor; [exact Hquota | constructor]. }
  split; [exact Hcode|]. split; [rewrite Hcode; reflexivity|]. split; [|exact Hfirst].
  intros e He.
  apply (Hfirst e [] quota_words ERROR_QUOTA (skipn 1 keywords_mapping));
    [reflexivity | constructor | exact He].
Qed.

End Classification.

(** C3, an instance: the text "429 too many requests". *)
Lemma classify_rate_limit_witness :
  @_classify_error ascii_lib (Exception (u "429 Too Many Requests")) = ERROR_RATE_LIMIT
  /\ _should_retry (@_classify_error ascii_lib (Exception (u "429 Too Many Requests"))) = true.
Proof.
  destruct (@classify_rate_limit ascii_lib (Exception (u "429 Too Many Requests")))
    as (H1 & H2 & _).
  - apply re_search_spec. vm_compute. reflexivity.
  - apply re_search_false. vm_compute. reflexivity.
  - split; [exact H1 | exact H2].
Defined.

(** C3 as stated fails: the text "429 - you exceeded your current quota"
    contains the rate-limit keyword "429", and is classified
    [ERROR_QUOTA], which is not retried. *)
Lemma classify_rate_limit_counterexample :
  ~ (forall (lib : Imports) (error : exn),
       has_word rate_limit_words (lower (exn_str error)) ->
       _classify_error error = ERROR_RATE_LIMIT
       /\ _should_retry (_classify_error error) = true).
Proof.
  intros H.
  destruct (H ascii_lib (Exception (u "Error code: 429 - You exceeded your current quota")))
    as [Hcode _].
  - apply re_search_spec. vm_compute. reflexivity.
  - vm_compute in Hcode. discriminate Hcode.
Qed.

Section CleanConf.

Context {lib : Imports} {self : Self}.

Lemma max_tokens_not_allowed : u "max_tokens" ∉ allowed_conf.
Proof.
  intros H. apply list_elem_of_In in H. vm_compute in H.
  repeat (destruct H as [H | H]; [discriminate H |]). exact H.
Qed.

(** *** C7: cleaning the generation options *)

(** C7 (as amended). [Base._clean_conf] returns options in which no key
    outside the allow-list is left, [max_tokens] is never left, every
    other option is left as it was unless the lower-cased model name
    contains "gpt-5", and then nothing is left at all.
    [LiteLLMBase._clean_conf] removes [max_tokens] and nothing else,
    whatever the model name. *)
Theorem clean_conf_spec (gen_conf : gmap str pyobj) :
  (forall k, k ∉ allowed_conf -> _clean_conf gen_conf !! k = None)
  /\ _clean_conf gen_conf !! u "max_tokens" = None
  /\ (occurs (u "gpt-5") (lower model_name) -> _clean_conf gen_conf = ∅)
  /\ (~ occurs (u "gpt-5") (lower model_name) ->
      forall k, k ∈ allowed_conf -> _clean_conf gen_conf !! k = gen_conf !! k)
  /\ LiteLLMBase_clean_conf gen_conf !! u "max_tokens" = None
  /\ (forall k, k <> u "max_tokens" -> LiteLLMBase_clean_conf gen_conf !! k = gen_conf !! k).
Proof.
  assert (Hout : forall k, k ∉ allowed_conf -> _clean_conf gen_conf !! k = None).
  { intros k Hk. unfold _clean_conf.
    destruct (contains (u "gpt-5") (lower model_name)); [apply lookup_empty|].
    apply map_lookup_filter_None. right. intros x _ HP. simpl in HP. exact (Hk HP). }
  split; [exact Hout|].
  split; [apply Hout, max_tokens_not_allowed|].
  split.
  { intros Hgpt. apply contains_spec in Hgpt. unfold _clean_conf. now rewrite Hgpt. }
  split.
  { intros Hgpt k Hk. unfold _clean_conf.
    destruct (contains (u "gpt-5") (lower model_name)) eqn:E.
    - exfalso. apply Hgpt, contains_spec, E.
    - assert (Hne : u "max_tokens" <> k).
      { intros <-. exact (max_tokens_not_allowed Hk). }
      destruct (gen_conf !! k) as [v|] eqn:Ek.
      + apply map_lookup_filter_Some. split; [|exact Hk].
        rewrite lookup_delete_ne; [exact Ek | exact Hne].
      + apply map_lookup_filter_None. left.
        rewrite lookup_delete_ne; [exact Ek | exact Hne]. }
  split.
  { unfold LiteLLMBase_clean_conf. apply lookup_delete_eq. }
  intros k Hk. unfold LiteLLMBase_clean_conf. apply lookup_delete_ne. congruence.
Qed.

End CleanConf.

(** C7, an instance: the options of a "GPT-5-mini" model are cleared. *)
Lemma clean_conf_spec_witness :
  @_clean_conf ascii_lib (client (u "GPT-5-mini") 5 5 (fun _ _ => inr (says []))
                            (fun _ _ => inr (streams [])))
    (<[u "temperature" := PyFloat (u "0.2")]> ∅) = ∅.
Proof.
  apply (@clean_conf_spec ascii_lib). apply contains_spec. vm_compute. reflexivity.
Defined.

(** C7 as stated fails for [LiteLLMBase]: its [_clean_conf] keeps a key
    that is in no allow-list, and what it returns is not empty; the model
    name plays no part in it, so this is also what a "gpt-5" model gets. *)
Lemma clean_conf_counterexample :
  let gen_conf : gmap str pyobj :=
    <[u "foo" := PyInt 1]> (<[u "temperature" := PyFloat (u "0.2")]> ∅) in
  (u "foo" ∉ allowed_conf)
  /\ LiteLLMBase_clean_conf gen_conf !! u "foo" = Some (PyInt 1)
  /\ LiteLLMBase_clean_conf gen_conf <> ∅.
Proof.
  assert (H : LiteLLMBase_clean_conf
                (<[u "foo" := PyInt 1]> (<[u "temperature" := PyFloat (u "0.2")]> ∅))
              !! u "foo" = Some (PyInt 1)).
  { unfold LiteLLMBase_clean_conf.
    rewrite lookup_delete_ne by (vm_compute; discriminate).
    apply lookup_insert_eq. }
  split; [|split; [exact H|]].
  - intros Hin. apply list_elem_of_In in Hin. vm_compute in Hin.
    repeat (destruct Hin as [Hin | Hin]; [discriminate Hin |]). exact Hin.
  - intros Hempty. rewrite Hempty, lookup_empty in H. discriminate H.
Qed.

Section DynamicCtx.

Lemma count_tokens_units (text : str) (acc : Z) :
  fold_left (fun (total : Z) (char : N) =>
               if (char <? 128)%N then (total + 1)%Z else (total + 2)%Z) text acc
  = (acc + text_units text)%Z.
Proof.
  unfold text_units. revert acc. induction text as [|c text IH]; intros acc; simpl.
  - lia.
  - rewrite IH, !filter_cons.
    destruct (N.ltb_spec c 128) as [Hlt | Hge].
    + rewrite decide_True by exact Hlt. rewrite decide_False by tauto.
      simpl length. lia.
    + rewrite decide_False by lia. rewrite decide_True by lia.
      simpl length. lia.
Qed.

(** The loop over the messages: it raises at a content that is [None],
    and else adds up the units. *)
Lemma sum_tokens_cases (history : list content_value) :
  forall acc,
    (In ContentNone history -> sum_tokens history acc = inl TypeError_not_iterable)
    /\ (~ In ContentNone history ->
        sum_tokens history acc = inr (acc + history_units history)%Z).
Proof.
  induction history as [|m history IH]; intros acc; cbn [sum_tokens].
  - split; [intros [] | intros _]. unfold history_units, message_units. simpl. f_equal. lia.
  - destruct m as [| |text]; cbn [get_content count_tokens].
    + cbn [fold_left]. split.
      * intros [H | H]; [discriminate | exact (proj1 (IH _) H)].
      * intros H. rewrite (proj2 (IH _)) by (intros Hin; apply H; right; exact Hin).
        unfold history_units, message_units. simpl. f_equal. lia.
    + split; [reflexivity | intros H; exfalso; apply H; left; reflexivity].
    + rewrite count_tokens_units. split.
      * intros [H | H]; [discriminate | exact (proj1 (IH _) H)].
      * intros H. rewrite (proj2 (IH _)) by (intros Hin; apply H; right; exact Hin).
        unfold history_units, message_units. simpl. f_equal. lia.
Qed.

(** The window as a function of the units of the history. *)
Lemma dynamic_ctx_cases (history : list content_value) :
  (In ContentNone history ->
   _calculate_dynamic_ctx history = inl TypeError_not_iterable)
  /\ (~ In ContentNone history ->
      let buffered := (history_units history * 6 / 5)%Z in
      _calculate_dynamic_ctx history
      = inr (if (buffered <=? 8192)%Z then 8192%Z
             else ((buffered / 8192 + 1) * 8192)%Z)).
Proof.
  unfold _calculate_dynamic_ctx, with_buffer.
  destruct (sum_tokens_cases history 0%Z) as [Hn Ht]. split.
  - intros H. rewrite (Hn H). reflexivity.
  - intros H. rewrite (Ht H). reflexivity.
Qed.

Lemma content_none_dec (history : list content_value) :
  In ContentNone history \/ ~ In ContentNone history.
Proof.
  induction history as [|m history [IH | IH]].
  - right. intros [].
  - left. right. exact IH.
  - destruct m as [| |text]; [right | left; left; reflexivity | right];
      (intros [H | H]; [discriminate | exact (IH H)]).
Qed.

(** *** C9: the size of the context window *)

(** C9 (as amended). Given a history in which every message has a text
    as its content or no content, [_calculate_dynamic_ctx] adds up, per
    message, one unit per ASCII character of its content, two per other
    character and four for the role, multiplies the total by 1.2 and
    truncates. A buffered total of at most 8192 gives 8192. A larger one
    gives [(buffered // 8192 + 1) * 8192], the least multiple of 8192
    that is strictly greater than it: an exact multiple of 8192 above 8192
    maps to the multiple after it. Given a history with a message whose
    content is [None], it raises [TypeError]; it raises in no other
    case. *)
Theorem dynamic_ctx_spec (history : list content_value) :
  let buffered := (history_units history * 6 / 5)%Z in
  match _calculate_dynamic_ctx history with
  | inl e => In ContentNone history /\ e = TypeError_not_iterable
  | inr ctx =>
      ~ In ContentNone history
      /\ ((buffered <= 8192 -> ctx = 8192)
          /\ (8192 < buffered ->
              ctx = (buffered / 8192 + 1) * 8192 /\ buffered < ctx <= buffered + 8192)
          /\ ctx mod 8192 = 0 /\ 8192 <= ctx)%Z
  end.
Proof.
  intros buffered.
  destruct (dynamic_ctx_cases history) as [Hnone Htext].
  destruct (content_none_dec history) as [H | H].
  - rewrite (Hnone H). split; [exact H | reflexivity].
  - rewrite (Htext H). fold buffered. split; [exact H|].
    destruct (Z.leb_spec buffered 8192) as [Hle | Hgt].
    + repeat split; first [lia | reflexivity].
    + pose proof (Z.div_mod buffered 8192 ltac:(lia)) as Hdm.
      pose proof (Z.mod_pos_bound buffered 8192 ltac:(lia)) as Hmod.
      assert (0 < buffered / 8192)%Z by (apply Z.div_str_pos; lia).
      repeat split; try lia.
      apply Z.mod_mul. lia.
Qed.

End DynamicCtx.

(** C9, an instance: a short history gets the base window, and a message
    whose content is [None] makes the method raise. *)
Lemma dynamic_ctx_spec_witness :
  _calculate_dynamic_ctx [content_of (user_says (u "Hi"))] = inr 8192%Z
  /\ _calculate_dynamic_ctx [content_of (user_says (u "Hi")); ContentNone]
     = inl TypeError_not_iterable.
Proof.
  split.
  - pose proof (dynamic_ctx_spec [content_of (user_says (u "Hi"))]) as H.
    cbv zeta in H.
    destruct (_calculate_dynamic_ctx [content_of (user_says (u "Hi"))]) as [e | ctx].
    + destruct H as [[H | []] _]. discriminate H.
    + destruct H as (_ & Hle & _). f_equal. apply Hle. vm_compute. discriminate.
  - pose proof (dynamic_ctx_spec [content_of (user_says (u "Hi")); ContentNone]) as H.
    cbv zeta in H.
    destruct (_calculate_dynamic_ctx [content_of (user_says (u "Hi")); ContentNone])
      as [e | ctx].
    + destruct H as [_ ->]. reflexivity.
    + destruct H as [H _]. exfalso. apply H. right. left. reflexivity.
Defined.

(** C9 as stated fails: one message of 13650 ASCII characters counts
    13654 units, 16384 with the buffer, which is twice 8192, and the
    window is 24576, not 16384. *)
Lemma dynamic_ctx_counterexample :
  let history := [content_of (user_says (repeat 97%N (N.to_nat 13650)))] in
  with_buffer (history_units history) = (2 * 8192)%Z
  /\ _calculate_dynamic_ctx history = inr 24576%Z
  /\ _calculate_dynamic_ctx history <> inr (2 * 8192)%Z.
Proof.
  vm_compute. repeat split; discriminate.
Qed.

Ltac run :=
  unfold bind, ret, raise, gets, modify, try_except, lift, list_read, list_append,
    list_insert0, yield, sleep; simpl.

Section Monad.

Lemma bind_ok {A B} (m : M A) (k : A -> M B) (s s' : state) (a : A) :
  m s = (Ok a, s') -> bind m k s = k a s'.
Proof. intros H. unfold bind. now rewrite H. Qed.

Lemma bind_raise {A B} (m : M A) (k : A -> M B) (s s' : state) (e : exn) :
  m s = (Raise e, s') -> bind m k s = (Raise e, s').
Proof. intros H. unfold bind. now rewrite H. Qed.

Lemma try_except_eq {A} (m : M A) (s s' : state) (r : result A) :
  m s = (r, s') -> try_except m s = (Ok r, s').
Proof. intros H. unfold try_except. now rewrite H. Qed.

End Monad.

Section PlainChat.

Context {lib : Imports} {self : Self}.

(** [_chat] sends one request, without tools, whose messages are the
    entries of [history]; it changes nothing else. *)
Lemma _chat_effect (history : nat) (gen_conf : gmap str pyobj) (st : state) :
  exists req res,
    _chat history gen_conf st = (res, set_requests (requests st ++ [req]) st)
    /\ r_messages req = default [] (heap st !! history)
    /\ r_tools req = false.
Proof.
  unfold _chat. destruct (contains (u "qwq") (lower model_name)).
  - unfold _chat_streamly, create_stream. run.
    eexists. destruct (completions_create_stream _ _) as [e | s]; simpl.
    + eexists. split; [reflexivity | split; reflexivity].
    + destruct (stream_error s); eexists; (split; [reflexivity | split; reflexivity]).
  - unfold create. run.
    eexists. destruct (completions_create _ _) as [e | resp]; simpl.
    + eexists. split; [reflexivity | split; reflexivity].
    + destruct (choices resp) as [|c cs]; simpl.
      { eexists. split; [reflexivity | split; reflexivity]. }
      destruct (choice_message c) as [m|]; simpl.
      2:{ eexists. split; [reflexivity | split; reflexivity]. }
      destruct (negb (truthy (msg_content m))); eexists;
        (split; [reflexivity | split; reflexivity]).
Qed.

(** The code [_exceptions] settles on for the error of an attempt. *)
Lemma _exceptions_cases (e : exn) (attempt : nat) (st : state) :
  let code := if Nat.eqb attempt max_retries then ERROR_MAX_RETRIES else _classify_error e in
  (_should_retry code = true
   /\ _exceptions e attempt st = (Ok None, set_sleeps (S (sleeps st)) st))
  \/ (_should_retry code = false
      /\ _exceptions e attempt st = (Ok (Some (error_string code e)), st)).
Proof.
  intros code. unfold _exceptions. fold code.
  destruct (_should_retry code); [left | right]; split; reflexivity.
Qed.

Lemma error_string_truthy (c : LLMErrorCode) (e : exn) :
  truthy (Some (error_string c e)) = true.
Proof. reflexivity. Qed.

(** One turn of the retry loop of [chat]. *)
Lemma chat_attempts_cons (history : nat) (gen_conf : gmap str pyobj) a rest st :
  chat_attempts history gen_conf (a :: rest) st =
  match _chat history gen_conf st with
  | (Ok v, st1) => (Ok v, st1)
  | (Raise e, st1) =>
      match _exceptions e a st1 with
      | (Ok m, st2) =>
          if truthy m then (Ok (default [] m, 0%Z), st2)
          else chat_attempts history gen_conf rest st2
      | (Raise e', st2) => (Raise e', st2)
      end
  end.
Proof.
  cbn [chat_attempts]. unfold bind at 1, try_except.
  destruct (_chat history gen_conf st) as [[v | e] st1]; [reflexivity|].
  unfold bind. destruct (_exceptions e a st1) as [[m | e'] st2]; [|reflexivity].
  destruct (truthy m); reflexivity.
Qed.

(** The retry loop of [chat] returns: what [_chat] returned, or the error
    string made from the exception of the last attempt. *)
Lemma chat_attempts_returns (history : nat) (gen_conf : gmap str pyobj) :
  forall k a st, a + k = max_retries ->
    exists v st',
      chat_attempts history gen_conf (seq a (S k)) st = (Ok v, st')
      /\ ((exists st1, _chat history gen_conf st1 = (Ok v, st'))
          \/ (exists e c st1, _chat history gen_conf st1 = (Raise e, st')
                              /\ v = (error_string c e, 0%Z))).
Proof.
  induction k as [|k IH]; intros a st Ha; cbn [seq]; rewrite chat_attempts_cons;
    destruct (_chat history gen_conf st) as [[v | e] st1] eqn:E;
    try (exists v, st1; split; [reflexivity | left; eauto]).
  - destruct (_exceptions_cases e a st1) as [[Hr He] | [Hr He]]; rewrite He.
    + replace a with max_retries in Hr by lia. rewrite Nat.eqb_refl in Hr. discriminate.
    + rewrite error_string_truthy. eexists _, st1. split; [reflexivity|].
      right. eauto.
  - destruct (_exceptions_cases e a st1) as [[Hr He] | [Hr He]]; rewrite He.
    + cbn [truthy]. apply IH. lia.
    + rewrite error_string_truthy. eexists _, st1. split; [reflexivity|].
      right. eauto.
Qed.

(** The retry loop of [chat] leaves the list objects as they are, and
    every request it sends carries the entries of [history]. *)
Lemma chat_attempts_frame (history : nat) (gen_conf : gmap str pyobj) :
  forall attempts st res st',
    chat_attempts history gen_conf attempts st = (res, st') ->
    heap st' = heap st
    /\ sent_with (default [] (heap st !! history)) st st'.
Proof.
  unfold sent_with.
  induction attempts as [|a attempts IH]; intros st res st' H.
  - injection H as _ <-. split; [reflexivity|]. exists []. rewrite app_nil_r.
    split; [reflexivity | constructor].
  - rewrite chat_attempts_cons in H.
    destruct (_chat_effect history gen_conf st) as (req & r & E & Hm & _).
    rewrite E in H. destruct r as [v | e].
    + injection H as _ <-. split; [reflexivity|]. exists [req].
      split; [reflexivity|]. repeat constructor. exact Hm.
    + destruct (_exceptions_cases e a (set_requests (requests st ++ [req]) st))
        as [[Hr He] | [Hr He]]; rewrite He in H.
      * cbn [truthy] in H. apply IH in H. destruct H as (Hh & new & Hn & Hall).
        simpl in *. split; [exact Hh|].
        exists (req :: new). rewrite Hn, <- app_assoc. split; [reflexivity|].
        constructor; [exact Hm | exact Hall].
      * rewrite error_string_truthy in H. injection H as _ <-.
        split; [reflexivity|].
        exists [req]. split; [reflexivity|]. repeat constructor. exact Hm.
Qed.

End PlainChat.

Section PlainChatClaims.

Context {lib : Imports} {self : Self}.

Lemma insert_system_cases (system : str) (history : nat) (st : state) :
  insert_system system history st =
  (Ok tt,
   match system, default [] (heap st !! history) with
   | _ :: _, m :: _ =>
       if bool_decide (role m = Some (u "system")) then st
       else set_heap (<[history := system_says system :: default [] (heap st !! history)]>
                        (heap st)) st
   | _, _ => st
   end).
Proof.
  unfold insert_system. run.
  destruct system as [|c system]; [reflexivity|].
  destruct (default [] (heap st !! history)) as [|m h] eqn:E; [reflexivity|].
  destruct (bool_decide (role m = Some (u "system"))); [reflexivity|].
  unfold list_insert0, modify. rewrite E. reflexivity.
Qed.

(** *** C10: an empty response *)

(** C10 (as amended). When the lower-cased model name does not contain
    "qwq" and the provider's response to the request of [_chat] has no
    choices, no first message, or a content that is [None] or empty,
    [_chat] returns the pair of the empty string and zero; it does not
    raise and returns no error string. *)
Theorem chat_empty_response (history : nat) (gen_conf : gmap str pyobj) (st : state)
  (resp : response) :
  ~ occurs (u "qwq") (lower model_name) ->
  (forall req, completions_create (length (requests st)) req = inr resp) ->
  empty_response resp ->
  exists req,
    _chat history gen_conf st = (Ok ([], 0%Z), set_requests (requests st ++ [req]) st).
Proof.
  intros Hq Hresp Hempty. unfold _chat.
  destruct (contains (u "qwq") (lower model_name)) eqn:E.
  { exfalso. apply Hq, contains_spec, E. }
  unfold create. run. eexists. rewrite Hresp. simpl.
  unfold empty_response in Hempty.
  destruct (choices resp) as [|c cs]; [reflexivity|]. simpl.
  destruct (choice_message c) as [m|]; [|reflexivity]. simpl.
  destruct Hempty as [-> | ->]; reflexivity.
Qed.

(** *** C8: the system message *)

(** C8. When the first entry of [history] has the role [system], [chat]
    leaves the caller's list as it is, whatever [system] is, and sends it
    as it is. When [system] is not empty and the first entry has another
    role, [chat] puts one system message in front of the entries, which
    keep their order, and sends that. *)
Theorem chat_system_once (system : str) (history : nat) (gen_conf : gmap str pyobj)
  (st : state) (h rest : list Message) (m : Message) :
  heap st !! history = Some h ->
  h = m :: rest ->
  let st' := snd (chat system history gen_conf st) in
  (role m = Some (u "system") ->
   heap st' !! history = Some h /\ sent_with h st st')
  /\ (system <> [] -> role m <> Some (u "system") ->
      heap st' !! history = Some (system_says system :: h)
      /\ sent_with (system_says system :: h) st st').
Proof.
  intros Hh -> st'. subst st'. unfold chat, bind.
  rewrite insert_system_cases, Hh. simpl.
  split.
  - intros Hrole. rewrite bool_decide_true by exact Hrole.
    assert (Hsame : (match system with [] => st | _ :: _ => st end) = st)
      by (destruct system; reflexivity).
    rewrite Hsame.
    destruct (chat_attempts history (_clean_conf gen_conf) (seq 0 (max_retries + 1)) st)
      as [res st'] eqn:E.
    apply chat_attempts_frame in E. destruct E as [Hheap Hsent]. simpl.
    rewrite Hheap, Hh in *. split; [reflexivity | exact Hsent].
  - intros Hsys Hrole. destruct system as [|c system]; [congruence|].
    rewrite bool_decide_false by exact Hrole.
    destruct (chat_attempts _ _ _ _) as [res st'] eqn:E.
    apply chat_attempts_frame in E. destruct E as [Hheap Hsent]. simpl in *.
    assert (Hl : <[history := system_says (c :: system) :: m :: rest]> (heap st) !! history
                 = Some (system_says (c :: system) :: m :: rest)).
    { apply list_lookup_insert_eq. eapply lookup_lt_Some, Hh. }
    rewrite Hl in Hsent. rewrite Hheap. split; [exact Hl | exact Hsent].
Qed.

(** Under a provider that fails every request with a retryable error,
    [_chat] raises such an error after one request. *)
Lemma _chat_fails (history : nat) (gen_conf : gmap str pyobj) (st : state) :
  (forall n req, exists e,
      completions_create n req = inl e /\ _should_retry (_classify_error e) = true) ->
  (forall n req, exists e,
      completions_create_stream n req = inl e /\ _should_retry (_classify_error e) = true) ->
  exists e req,
    _chat history gen_conf st = (Raise e, set_requests (requests st ++ [req]) st)
    /\ _should_retry (_classify_error e) = true.
Proof.
  intros Hc Hs. unfold _chat. destruct (contains (u "qwq") (lower model_name)).
  - unfold _chat_streamly, create_stream. run.
    match goal with
    | |- context [completions_create_stream ?n ?r] =>
        destruct (Hs n r) as (e & He & Hr); rewrite He
    end.
    eexists _, _. split; [reflexivity | exact Hr].
  - unfold create. run.
    match goal with
    | |- context [completions_create ?n ?r] =>
        destruct (Hc n r) as (e & He & Hr); rewrite He
    end.
    eexists _, _. split; [reflexivity | exact Hr].
Qed.

Lemma chat_attempts_exhaust (history : nat) (gen_conf : gmap str pyobj) :
  (forall n req, exists e,
      completions_create n req = inl e /\ _should_retry (_classify_error e) = true) ->
  (forall n req, exists e,
      completions_create_stream n req = inl e /\ _should_retry (_classify_error e) = true) ->
  forall k a st, a + k = max_retries ->
    exists e st',
      chat_attempts history gen_conf (seq a (S k)) st
      = (Ok (error_string ERROR_MAX_RETRIES e, 0%Z), st')
      /\ _should_retry (_classify_error e) = true
      /\ length (requests st') = length (requests st) + S k
      /\ sleeps st' = sleeps st + k
      /\ heap st' = heap st.
Proof.
  intros Hc Hs. induction k as [|k IH]; intros a st Ha; cbn [seq];
    rewrite chat_attempts_cons;
    destruct (_chat_fails history gen_conf st Hc Hs) as (e & req & E & Hr); rewrite E;
    unfold _exceptions.
  - replace a with max_retries by lia. rewrite Nat.eqb_refl. simpl.
    exists e. eexists. split; [reflexivity|]. split; [exact Hr|]. simpl.
    rewrite length_app. simpl. repeat split; lia.
  - replace (Nat.eqb a max_retries) with false by (symmetry; apply Nat.eqb_neq; lia).
    rewrite Hr. run.
    destruct (IH (S a) (set_sleeps (S (sleeps st)) (set_requests (requests st ++ [req]) st)))
      as (e' & st' & E' & Hr' & Hn & Hsl & Hheap); [lia|].
    exists e', st'. split; [exact E'|]. split; [exact Hr'|]. simpl in *.
    rewrite length_app in Hn. simpl in Hn. repeat split; [lia | lia | exact Hheap].
Qed.

(** *** C2: the retries run out *)

(** C2. When every request of the provider fails with an error that is
    classified as retryable, [chat] makes [max_retries + 1] attempts, one
    request each, sleeps between them, and returns the error string whose
    code is [MAX_RETRIES_EXCEEDED], whatever the classification was. *)
Theorem chat_retries_exhausted (system : str) (history : nat) (gen_conf : gmap str pyobj)
  (st : state) :
  (forall n req, exists e,
      completions_create n req = inl e /\ _should_retry (_classify_error e) = true) ->
  (forall n req, exists e,
      completions_create_stream n req = inl e /\ _should_retry (_classify_error e) = true) ->
  exists e st',
    chat system history gen_conf st
    = (Ok (ERROR_PREFIX ++ u ": " ++ u "MAX_RETRIES_EXCEEDED" ++ u " - " ++ exn_str e, 0%Z), st')
    /\ _should_retry (_classify_error e) = true
    /\ length (requests st') = length (requests st) + (max_retries + 1)
    /\ sleeps st' = sleeps st + max_retries.
Proof.
  intros Hc Hs. unfold chat, bind. rewrite insert_system_cases.
  replace (max_retries + 1) with (S max_retries) by lia.
  match goal with
  | |- context [chat_attempts ?h ?c (seq 0 (S max_retries)) ?s] =>
      destruct (chat_attempts_exhaust h c Hc Hs max_retries 0 s eq_refl)
        as (e & st' & E & Hr & Hn & Hsl & _);
      assert (Hreq : requests s = requests st /\ sleeps s = sleeps st)
  end.
  { destruct system as [|c system]; [split; reflexivity|].
    destruct (default [] (heap st !! history)) as [|m h]; [split; reflexivity|].
    destruct (bool_decide (role m = Some (u "system"))); split; reflexivity. }
  destruct Hreq as [Hreq Hsleep]. rewrite Hreq in Hn. rewrite Hsleep in Hsl.
  exists e, st'. split; [exact E|]. split; [exact Hr|]. split; [exact Hn | exact Hsl].
Qed.

End PlainChatClaims.

Section Streamly.

Context {lib : Imports} {self : Self}.

(** The loop of [chat_streamly] over the pairs of the stream: the texts
    are yielded in order and the counts are added up. *)
Lemma for_each_yields (items : list (str * Z)) (st : state) :
  for_each items (fun it =>
      yield (Text (fst it)) ;;
      modify (fun s => set_total_tokens (v_total_tokens s + snd it) s)) st
  = (Ok tt,
     set_total_tokens (v_total_tokens st + sum_tols items)
       (set_yielded (yielded st ++ map (fun it : str * Z => Text (fst it)) items) st)).
Proof.
  revert st. induction items as [|it items IH]; intros st.
  - destruct st. unfold ret, set_total_tokens, set_yielded, sum_tols. simpl.
    rewrite app_nil_r, Z.add_0_r. reflexivity.
  - cbn [for_each]. unfold bind at 1. unfold bind at 1. unfold yield, modify. simpl.
    rewrite IH. destruct st. unfold set_total_tokens, set_yielded, sum_tols. simpl.
    rewrite <- app_assoc. simpl. do 2 f_equal. lia.
Qed.

(** *** C6: errors in band *)

(** C6 (as amended). [chat] never raises: it returns what [_chat]
    returned, or, when the last attempt failed, the string
    [**ERROR**: <CODE> - <original message>] made from the exception of
    that attempt. [chat_streamly] yields the texts of the stream and,
    when the stream is not broken off, ends with the sum of their token
    counts. It handles only the provider's API errors: after one it
    yields a newline, [**ERROR**: ] and the original message, without a
    code, and then the sum; any other exception leaves the generator as
    a raised exception before a sum is yielded. *)
Theorem errors_in_band (system : str) (history : nat) (gen_conf : gmap str pyobj)
  (st : state) :
  (exists v st',
      chat system history gen_conf st = (Ok v, st')
      /\ ((exists st1, _chat history (_clean_conf gen_conf) st1 = (Ok v, st'))
          \/ (exists e c st1,
                 _chat history (_clean_conf gen_conf) st1 = (Raise e, st')
                 /\ v = (ERROR_PREFIX ++ u ": " ++ code_value c ++ u " - " ++ exn_str e, 0%Z))))
  /\ (exists req,
         let out := chat_streamly system history gen_conf st in
         requests (snd out) = requests st ++ [req]
         /\ match completions_create_stream (length (requests st)) req with
         | inl e => streamly_outcome st [] (Some e) out
         | inr s =>
             streamly_outcome st (stream_items true false (stream_chunks s))
               (stream_error s) out
         end).
Proof.
  split.
  - unfold chat, bind. rewrite insert_system_cases.
    replace (max_retries + 1) with (S max_retries) by lia.
    apply chat_attempts_returns. reflexivity.
  - unfold chat_streamly.
    erewrite bind_ok by apply insert_system_cases.
    set (st0 := match system with
                | [] => st
                | _ :: _ => _
                end).
    assert (Hreq : requests st0 = requests st /\ yielded st0 = yielded st).
    { subst st0. destruct system as [|c system]; [split; reflexivity|].
      destruct (default [] (heap st !! history)) as [|m h]; [split; reflexivity|].
      destruct (bool_decide (role m = Some (u "system"))); split; reflexivity. }
    destruct Hreq as [Hreq Hy].
    erewrite bind_ok by reflexivity.
    set (req := {| r_messages := default [] (heap (set_total_tokens 0 st0) !! history);
                   r_stream := true; r_tools := false;
                   r_stop := bool_decide (is_Some (_clean_conf gen_conf !! u "stop"));
                   r_extra_body := false; r_conf := _clean_conf gen_conf |}).
    exists req. cbv zeta.
    set (st1 := set_requests (requests st ++ [req]) (set_total_tokens 0 st0)).
    assert (Hcs : _chat_streamly history (_clean_conf gen_conf) true (set_total_tokens 0 st0)
                  = match completions_create_stream (length (requests st)) req with
                    | inl e => (Raise e, st1)
                    | inr s => (Ok (stream_items true false (stream_chunks s), stream_error s),
                                st1)
                    end).
    { unfold _chat_streamly. erewrite bind_ok by reflexivity.
      unfold bind, create_stream.
      change (requests (set_total_tokens 0 st0)) with (requests st0). rewrite Hreq.
      fold req. subst st1.
      destruct (completions_create_stream (length (requests st)) req); reflexivity. }
    destruct (completions_create_stream (length (requests st)) req) as [e | s].
    + erewrite bind_ok
        by (apply try_except_eq; erewrite bind_raise by exact Hcs; reflexivity).
      unfold streamly_outcome. subst st1. cbv beta iota.
      destruct (exn_api e); run; rewrite Hy; (split; [reflexivity|]);
        (split; [reflexivity | rewrite ?app_nil_r, <- ?app_assoc; reflexivity]).
    + unfold streamly_outcome. destruct (stream_error s) as [e|].
      * erewrite bind_ok
          by (apply try_except_eq; erewrite bind_ok by exact Hcs; cbn [fst snd];
              erewrite bind_ok by apply for_each_yields; reflexivity).
        subst st1. cbv beta iota.
        destruct (exn_api e); run; rewrite Hy; (split; [reflexivity|]);
          (split; [reflexivity | rewrite ?app_nil_r, <- ?app_assoc; reflexivity]).
      * erewrite bind_ok
          by (apply try_except_eq; erewrite bind_ok by exact Hcs; cbn [fst snd];
              erewrite bind_ok by apply for_each_yields; reflexivity).
        subst st1. run. rewrite Hy. split; [reflexivity|].
        split; [reflexivity|]. rewrite <- !app_assoc. reflexivity.
Qed.

End Streamly.

(** C10, an instance: a reply without choices. *)
Lemma chat_empty_response_witness :
  exists req,
    @_chat ascii_lib silent 0 ∅ (initial hi)
    = (Ok ([], 0%Z), set_requests (requests (initial hi) ++ [req]) (initial hi)).
Proof.
  apply (@chat_empty_response ascii_lib silent 0 ∅ (initial hi)
           {| choices := []; usage_total_tokens := Some 9%Z |}).
  - rewrite <- contains_spec. vm_compute. discriminate.
  - intros req. reflexivity.
  - simpl. exact I.
Defined.

(** C10 as stated fails for a reasoning model: the reply of a "qwq" model
    is streamed, and when its only chunk has no choices [_chat] returns an
    error string, not the empty string. *)
Lemma chat_empty_response_counterexample :
  fst (@_chat ascii_lib silent_qwq 0 ∅ (initial hi))
  = Ok (u "**ERROR**: Empty response from reasoning model", 0%Z)
  /\ fst (@_chat ascii_lib silent_qwq 0 ∅ (initial hi)) <> Ok ([], 0%Z).
Proof.
  split.
  - vm_compute. reflexivity.
  - vm_compute. discriminate.
Qed.

(** C8, an instance: a conversation that opens with a system message. *)
Lemma chat_system_once_witness :
  let before := [system_says (u "Be brief."); user_says (u "Hi")] in
  let st' := snd (@chat ascii_lib silent (u "You are helpful.") 0 ∅ (initial [before])) in
  heap st' !! 0 = Some before /\ sent_with before (initial [before]) st'.
Proof.
  intros before st'.
  exact (proj1 (@chat_system_once ascii_lib silent (u "You are helpful.") 0 ∅
                  (initial [before]) before [user_says (u "Hi")]
                  (system_says (u "Be brief.")) eq_refl eq_refl) eq_refl).
Defined.

(** C2, an instance: a provider that answers 429 every time, two
    retries. *)
Lemma chat_retries_exhausted_witness :
  let self := failing (u "gpt-4o") 2 (APIError (u "Error code: 429 - Rate limit reached")) in
  exists e st',
    @chat ascii_lib self [] 0 ∅ (initial hi)
    = (Ok (ERROR_PREFIX ++ u ": " ++ u "MAX_RETRIES_EXCEEDED" ++ u " - " ++ exn_str e, 0%Z), st')
    /\ _should_retry (@_classify_error ascii_lib e) = true
    /\ length (requests st') = length (requests (initial hi)) + (2 + 1)
    /\ sleeps st' = sleeps (initial hi) + 2.
Proof.
  intros self.
  apply (@chat_retries_exhausted ascii_lib self [] 0 ∅ (initial hi)).
  - intros n req. eexists. split; [reflexivity | vm_compute; reflexivity].
  - intros n req. eexists. split; [reflexivity | vm_compute; reflexivity].
Defined.

(** C6 as stated fails for [chat_streamly]. With the option [stop] in
    [gen_conf], the call of [create] in [_chat_streamly] repeats the
    keyword [stop]; the [TypeError] is not an API error, so it leaves the
    generator as a raised exception and no token count is yielded. And
    after an API error the string that is yielded has no code in it. *)
Lemma errors_in_band_counterexample :
  let gen_conf : gmap str pyobj := <[u "stop" := PyList [PyStr (u "Observation:")]]> ∅ in
  let empty_stream := {| stream_chunks := []; stream_error := None |} in
  let sdk := client (u "gpt-4o") 5 5 (binding (fun _ _ => inl (Exception (u "unused"))))
               (binding (fun _ _ => inr empty_stream)) in
  let api_error := APIError (u "Connection error.") in
  let raised := @chat_streamly ascii_lib sdk [] 0 gen_conf (initial hi) in
  let handled := @chat_streamly ascii_lib (failing (u "gpt-4o") 5 api_error) [] 0 ∅ (initial hi) in
  fst raised = Raise (TypeError_repeated (u "stop"))
  /\ yielded (snd raised) = []
  /\ fst handled = Ok tt
  /\ yielded (snd handled) = [Text ([10%N] ++ u "**ERROR**: Connection error."); Count 0]
  /\ forall c, [10%N] ++ u "**ERROR**: Connection error." <> error_string c api_error.
Proof.
  repeat split; try (vm_compute; reflexivity).
  intros c H. vm_compute in H. discriminate H.
Qed.

Section Fragments.

Context {lib : Imports}.

Lemma dict_get_app (d : list (Z * ToolCall)) (k i : Z) (v : ToolCall) :
  dict_get k d = None ->
  dict_get i (d ++ [(k, v)]) = if Z.eqb k i then Some v else dict_get i d.
Proof.
  induction d as [|[k' v'] d IH]; simpl; intros H.
  - reflexivity.
  - destruct (Z.eqb_spec k' k) as [-> | Hk]; [discriminate H|].
    destruct (Z.eqb_spec k' i) as [-> | Hi].
    + destruct (Z.eqb_spec k i); [congruence | reflexivity].
    + apply IH, H.
Qed.

Lemma dict_get_update (d : list (Z * ToolCall)) (k i : Z) (f : ToolCall -> ToolCall) :
  dict_get i (dict_update k f d) = if Z.eqb k i then f <$> dict_get i d else dict_get i d.
Proof.
  induction d as [|[k' v'] d IH]; simpl.
  - destruct (Z.eqb k i); reflexivity.
  - destruct (Z.eqb_spec k' k) as [-> | Hk]; simpl.
    + destruct (Z.eqb_spec k i); reflexivity.
    + destruct (Z.eqb_spec k' i) as [-> | Hi]; [|exact IH].
      destruct (Z.eqb_spec k i); [congruence | reflexivity].
Qed.

Lemma truthy_default (o : option str) :
  (if truthy o then default [] o else []) = default [] o.
Proof. destruct o as [[|c s]|]; reflexivity. Qed.

Lemma assembled_snoc (index : Z) (frs : list ToolCall) (tc : ToolCall) :
  assembled index (frs ++ [tc]) =
  if Z.eqb (tc_index tc) index then
    match assembled index frs with
    | None => Some (with_arguments tc (Some (fragment_text tc)))
    | Some a => Some (with_arguments a (Some (fragment_text a ++ fragment_text tc)))
    end
  else assembled index frs.
Proof.
  unfold assembled. rewrite filter_app, filter_cons, filter_nil.
  destruct (Z.eqb_spec (tc_index tc) index) as [He | Hne].
  - rewrite decide_True by exact He.
    destruct (filter (fun f => tc_index f = index) frs) as [|f fs]; simpl.
    + unfold with_arguments. now rewrite app_nil_r.
    + unfold with_arguments, fragment_text at 3. simpl.
      rewrite map_app, concat_app. simpl. now rewrite app_nil_r, app_assoc.
  - rewrite decide_False by exact Hne. now rewrite app_nil_r.
Qed.

Lemma accumulate_represents d frs tc :
  represents d frs -> represents (accumulate d tc) (frs ++ [tc]).
Proof.
  intros H i. unfold accumulate. rewrite assembled_snoc.
  destruct (dict_get (tc_index tc) d) as [stored|] eqn:E.
  - rewrite dict_get_update.
    destruct (Z.eqb_spec (tc_index tc) i) as [<- | Hne]; [|apply H].
    rewrite <- H, E. simpl. now rewrite truthy_default.
  - rewrite dict_get_app by exact E.
    destruct (Z.eqb_spec (tc_index tc) i) as [<- | Hne]; [|apply H].
    rewrite <- H, E. f_equal. unfold with_arguments, fragment_text.
    destruct tc as [ix id name [[|c s]|]]; reflexivity.
Qed.

Lemma fold_accumulate_represents frs :
  forall d frs0, represents d frs0 ->
                 represents (fold_left accumulate frs d) (frs0 ++ frs).
Proof.
  induction frs as [|tc frs IH]; intros d frs0 H; simpl.
  - now rewrite app_nil_r.
  - replace (frs0 ++ tc :: frs) with ((frs0 ++ [tc]) ++ frs)
      by now rewrite <- app_assoc.
    apply IH, accumulate_represents, H.
Qed.

(** What one turn of the loop over the chunks does to [final_tool_calls]. *)
Lemma on_chunk_calls (resp : chunk) (L L' : round_locals) (st st' : state) :
  on_chunk resp L st = (Ok L', st') ->
  final_tool_calls L'
  = fold_left accumulate (chunk_fragments resp) (final_tool_calls L).
Proof.
  unfold on_chunk, chunk_fragments.
  destruct (chunk_choices resp) as [|c cs]; [discriminate|].
  destruct (delta_tool_calls (choice_delta c)) as [|tc tcs].
  - destruct (truthy (delta_reasoning_content (choice_delta c)));
      destruct (bool_decide (chunk_finish_reason c = Some (u "length")));
      run; intros H; injection H as <- _; reflexivity.
  - unfold ret. intros H. injection H as <- _. reflexivity.
Qed.

Lemma consume_represents (chunks : list chunk) :
  forall L st L' st' frs0,
    represents (final_tool_calls L) frs0 ->
    consume chunks L st = (Ok L', st') ->
    represents (final_tool_calls L') (frs0 ++ fragments chunks).
Proof.
  induction chunks as [|resp chunks IH]; intros L st L' st' frs0 Hrep H.
  - injection H as <- _. unfold fragments. simpl. now rewrite app_nil_r.
  - cbn [consume] in H. unfold bind in H.
    destruct (on_chunk resp L st) as [[L1 | e] s1] eqn:E; [|discriminate H].
    unfold fragments. simpl. rewrite app_assoc.
    apply (IH L1 s1 L' st'); [|exact H].
    rewrite (on_chunk_calls _ _ _ _ _ E).
    apply fold_accumulate_represents, Hrep.
Qed.

(** *** C5: tool-call fragments of a stream *)

(** C5. In a round of [chat_streamly_with_tools], when the loop over the
    chunks of the reply ends, [final_tool_calls] holds at every index one
    call: [id] and [name] are those of the first fragment that arrived
    with that index, and the arguments are the texts of the fragments with
    that index, joined in the order they arrived, where a fragment
    without arguments counts as the empty string. A chunk that carries
    fragments changes nothing but [final_tool_calls]: it yields nothing.
    In particular two fragments at index 0 with the arguments [{"a"] and
    [:1}] give the arguments [{"a":1}]. *)
Theorem tool_fragments_assembled (chunks : list chunk) (L : round_locals) (st st' : state) :
  consume chunks {| final_tool_calls := []; answer := []; reasoning_start := false |} st
  = (Ok L, st') ->
  (forall index, dict_get index (final_tool_calls L) = assembled index (fragments chunks))
  /\ (forall resp c cs L0 st0,
         chunk_choices resp = c :: cs ->
         delta_tool_calls (choice_delta c) <> [] ->
         on_chunk resp L0 st0
         = (Ok {| final_tool_calls :=
                    fold_left accumulate (delta_tool_calls (choice_delta c)) (final_tool_calls L0);
                  answer := answer L0; reasoning_start := reasoning_start L0 |}, st0))
  /\ (forall f1 f2 st0,
         tc_index f1 = 0%Z -> tc_arguments f1 = Some (u "{" ++ dq ++ u "a" ++ dq) ->
         tc_index f2 = 0%Z -> tc_arguments f2 = Some (u ":1}") ->
         exists L1,
           consume [tool_chunk [f1]; tool_chunk [f2]]
             {| final_tool_calls := []; answer := []; reasoning_start := false |} st0
           = (Ok L1, st0)
           /\ dict_get 0 (final_tool_calls L1)
              = Some {| tc_index := 0; tc_id := tc_id f1; tc_name := tc_name f1;
                        tc_arguments := Some (u "{" ++ dq ++ u "a" ++ dq ++ u ":1}") |}).
Proof.
  intros H. split; [|split].
  - intros index.
    apply (consume_represents chunks
             {| final_tool_calls := []; answer := []; reasoning_start := false |}
             st L st' [] (fun i => eq_refl) H).
  - intros resp c cs L0 st0 Hc Hfr. unfold on_chunk. rewrite Hc.
    destruct (delta_tool_calls (choice_delta c)) as [|tc tcs]; [congruence | reflexivity].
  - intros f1 f2 st0 Hi1 Ha1 Hi2 Ha2.
    destruct f1 as [i1 id1 name1 a1], f2 as [i2 id2 name2 a2]. simpl in *. subst.
    eexists. split; reflexivity.
Qed.

End Fragments.

(** C5, an instance: the two fragments of the example, the second without
    [id] and [name]. *)
Lemma tool_fragments_assembled_witness :
  let f1 := {| tc_index := 0; tc_id := Some (u "call_1"); tc_name := Some (u "search");
               tc_arguments := Some (u "{" ++ dq ++ u "a" ++ dq) |} in
  let f2 := {| tc_index := 0; tc_id := None; tc_name := None;
               tc_arguments := Some (u ":1}") |} in
  dict_get 0 (fold_left accumulate [f2] (fold_left accumulate [f1] []))
  = assembled 0 (fragments [tool_chunk [f1]; tool_chunk [f2]]).
Proof.
  intros f1 f2.
  exact (proj1 (@tool_fragments_assembled ascii_lib [tool_chunk [f1]; tool_chunk [f2]]
                  _ (initial []) (initial []) eq_refl) 0%Z).
Defined.

Section ToolLoop.

Context {lib : Imports} {self : Self}.

Lemma frame_refl (st : state) : frame st st.
Proof. unfold frame. tauto. Qed.

Lemma frame_trans (a b c : state) : frame a b -> frame b c -> frame a c.
Proof. unfold frame. intuition congruence. Qed.

Lemma list_append_frame (l : nat) (m : Message) (st : state) :
  exists st', list_append l m st = (Ok tt, st')
              /\ frame st st' /\ requests st' = requests st
              /\ v_ans st' = v_ans st /\ v_tk_count st' = v_tk_count st.
Proof.
  eexists. split; [reflexivity|]. unfold frame. simpl.
  rewrite length_insert. tauto.
Qed.

Lemma session_tool_call_frame (name : option str) (args : pyobj) (st : state) :
  exists r st', session_tool_call name args st = (r, st')
                /\ frame st st' /\ requests st' = requests st
                /\ v_tk_count st' = v_tk_count st.
Proof.
  unfold session_tool_call.
  destruct (toolcall_session (tool_runs st) name args);
    eexists _, _; (split; [reflexivity|]); unfold frame; simpl; tauto.
Qed.

(** The trace of a failed tool call is always serialisable. *)
Lemma _verbose_tool_use_error (name : option str) (text : str) (st : state) :
  exists v, _verbose_tool_use name (PyDict []) (PyStr text) st = (Ok v, st).
Proof.
  unfold _verbose_tool_use, dumps. destruct name; run; eauto.
Qed.

Lemma _verbose_tool_use_state (name : option str) (args res : pyobj) (st : state) :
  exists r, _verbose_tool_use name args res st = (r, st).
Proof.
  unfold _verbose_tool_use, dumps.
  destruct (unserializable _); run; eauto.
Qed.

Lemma _append_history_frame (hist : nat) (tc : ToolCall) (res : pyobj) (st : state) :
  exists r st', _append_history hist tc res st = (r, st')
                /\ frame st st' /\ requests st' = requests st
                /\ v_ans st' = v_ans st /\ v_tk_count st' = v_tk_count st
                /\ (forall h, r = Ok h -> h = hist).
Proof.
  unfold _append_history, dumps.
  assert (Hdone : forall (o : result str) (s : state),
             frame st s -> requests s = requests st -> v_ans s = v_ans st ->
             v_tk_count s = v_tk_count st ->
             exists r st',
               match o with
               | Ok text =>
                   list_append hist {| role := Some (u "tool"); content := Some text;
                                       tool_calls := None; tool_call_id := tc_id tc |} ;;
                   ret hist
               | Raise e =>
                   list_append hist {| role := Some (u "tool"); content := Some (py_str res);
                                       tool_calls := None; tool_call_id := tc_id tc |} ;;
                   raise e
               end s = (r, st')
               /\ frame st st' /\ requests st' = requests st
               /\ v_ans st' = v_ans st /\ v_tk_count st' = v_tk_count st
               /\ (forall h, r = Ok h -> h = hist)).
  { intros o s Hf Hr Ha Ht.
    destruct o as [text | e]; run; eexists _, _; (split; [reflexivity|]);
      (split; [eapply frame_trans; [exact Hf|]; unfold frame; simpl;
               rewrite length_insert; tauto|]); simpl;
      (repeat split; try assumption); intros h Hh; congruence. }
  erewrite bind_ok by reflexivity.
  set (s1 := set_heap _ st).
  assert (Hf1 : frame st s1) by (subst s1; unfold frame; simpl; rewrite length_insert; tauto).
  destruct res; try (erewrite bind_ok by reflexivity; apply Hdone; auto).
  destruct (unserializable (PyDict d)); (erewrite bind_ok by reflexivity; apply Hdone; auto).
Qed.

(** Running one tool call never raises, sends nothing, and leaves the
    frame as it is. *)
Lemma run_tool_call_frame (tc : ToolCall) (st : state) :
  exists st', run_tool_call tc st = (Ok tt, st')
              /\ frame st st' /\ requests st' = requests st
              /\ v_tk_count st' = v_tk_count st.
Proof.
  unfold run_tool_call.
  assert (Hbody : exists r s1,
             (args <- lift (json_repair_loads (tc_arguments tc)) ;;
              tool_response <- session_tool_call (tc_name tc) args ;;
              history <- gets v_history ;;
              history <- _append_history history tc tool_response ;;
              modify (set_history history) ;;
              v <- _verbose_tool_use (tc_name tc) args tool_response ;;
              modify (fun s => set_ans (v_ans s ++ v) s)) st = (r, s1)
             /\ frame st s1 /\ requests s1 = requests st
             /\ v_tk_count s1 = v_tk_count st).
  { destruct (json_repair_loads (tc_arguments tc)) as [e | args].
    { eexists _, _. split; [reflexivity|]. split; [apply frame_refl | tauto]. }
    erewrite bind_ok by reflexivity.
    destruct (session_tool_call_frame (tc_name tc) args st)
      as (r0 & s0 & E0 & Hf0 & Hr0 & Ht0).
    destruct r0 as [tool_response | e].
    2:{ erewrite bind_raise by exact E0. eexists _, _. split; [reflexivity|]. tauto. }
    erewrite bind_ok by exact E0. erewrite bind_ok by reflexivity.
    destruct (_append_history_frame (v_history s0) tc tool_response s0)
      as (r & s1 & E & Hf & Hr & Ha & Ht & Hh).
    destruct r as [h | e].
    2:{ erewrite bind_raise by exact E. eexists _, _. split; [reflexivity|].
        split; [eapply frame_trans; eassumption | split; congruence]. }
    erewrite bind_ok by exact E. erewrite bind_ok by reflexivity.
    rewrite (Hh h eq_refl).
    set (s2 := set_history (v_history s0) s1).
    assert (Hf2 : frame st s2 /\ requests s2 = requests st
                  /\ v_tk_count s2 = v_tk_count st).
    { subst s2. unfold frame in *. simpl. intuition congruence. }
    destruct Hf2 as (Hf2 & Hr2 & Ht2).
    destruct (_verbose_tool_use_state (tc_name tc) args tool_response s2) as (r & Ev).
    destruct r as [v | e].
    - erewrite bind_ok by exact Ev. eexists _, _. split; [reflexivity|].
      unfold frame in *. simpl. intuition congruence.
    - erewrite bind_raise by exact Ev. eexists _, _. split; [reflexivity|]. tauto. }
  destruct Hbody as (r & s1 & E & Hf & Hr & Ht).
  erewrite bind_ok by (apply try_except_eq; exact E).
  destruct r as [[] | e].
  - eexists. split; [reflexivity|]. tauto.
  - erewrite bind_ok by reflexivity.
    destruct (list_append_frame (v_history s1) (tool_error_message tc e) s1)
      as (s2 & E2 & Hf2 & Hr2 & Ha2 & Ht2).
    erewrite bind_ok by exact E2.
    destruct (_verbose_tool_use_error (tc_name tc) (exn_str e) s2) as (v & Ev).
    erewrite bind_ok by exact Ev.
    eexists. split; [reflexivity|].
    unfold frame in *. simpl. intuition congruence.
Qed.

Lemma for_each_tool_calls_frame (tcs : list ToolCall) :
  forall st, exists st',
    for_each tcs run_tool_call st = (Ok tt, st')
    /\ frame st st' /\ requests st' = requests st
    /\ v_tk_count st' = v_tk_count st.
Proof.
  induction tcs as [|tc tcs IH]; intros st; cbn [for_each].
  - eexists. split; [reflexivity|]. split; [apply frame_refl | tauto].
  - destruct (run_tool_call_frame tc st) as (s1 & E & Hf & Hr & Ht).
    erewrite bind_ok by exact E.
    destruct (IH s1) as (s2 & E2 & Hf2 & Hr2 & Ht2).
    exists s2. split; [exact E2|]. split; [eapply frame_trans; eassumption|].
    split; congruence.
Qed.

Lemma create_ok (r : request) (resp : response) (st : state) :
  completions_create (length (requests st)) r = inr resp ->
  create r st = (Ok resp, set_requests (requests st ++ [r]) st).
Proof. intros H. unfold create. now rewrite H. Qed.

(** After the statements that precede the retry loop, [hist] is a list
    object of its own and nothing has been sent. *)
Lemma tools_prologue_effect (system : str) (history : nat) (st : state) :
  exists st1,
    tools_prologue system history st = (Ok tt, st1)
    /\ requests st1 = requests st /\ sleeps st1 = sleeps st
    /\ v_hist st1 < length (heap st1)
    /\ heap st1 !! v_hist st1 = Some (default [] (heap st1 !! history))
    /\ v_ans st1 = [] /\ v_tk_count st1 = 0%Z.
Proof.
  unfold tools_prologue.
  erewrite bind_ok by reflexivity.
  erewrite bind_ok by apply insert_system_cases.
  set (s0 := match system with
             | [] => set_history history st
             | _ :: _ => _
             end).
  assert (H0 : requests s0 = requests st /\ sleeps s0 = sleeps st).
  { subst s0. destruct system as [|c system]; [split; reflexivity|]. simpl.
    destruct (default [] (heap st !! history)) as [|m h]; [split; reflexivity|].
    destruct (bool_decide (role m = Some (u "system"))); split; reflexivity. }
  destruct H0 as [Hr Hs].
  eexists. split; [reflexivity|]. simpl.
  rewrite length_app. simpl.
  split; [exact Hr|]. split; [exact Hs|]. split; [lia|].
  split; [|split; reflexivity].
  rewrite lookup_app_r by lia. rewrite Nat.sub_diag. simpl.
  destruct (heap s0 !! history) as [h|] eqn:E.
  - rewrite lookup_app_l by (eapply lookup_lt_Some, E). now rewrite E.
  - simpl. apply lookup_ge_None in E.
    destruct (decide (history = length (heap s0))) as [Heq | Hne].
    + rewrite lookup_app_r by lia. rewrite Heq, Nat.sub_diag. reflexivity.
    + rewrite lookup_ge_None_2 by (rewrite length_app; simpl; lia). reflexivity.
Qed.

Section AlwaysTools.

(** The provider answers every request that has the tools attached with a
    response that carries tool calls, and no plain request fails. *)
Hypothesis Htools : forall n req, r_tools req = true ->
  exists resp, completions_create n req = inr resp /\ carries_tool_calls resp.
Hypothesis Hplain : forall n req, r_tools req = false ->
  (exists resp, completions_create n req = inr resp)
  /\ (exists s, completions_create_stream n req = inr s /\ stream_error s = None).

Lemma tool_round_continues (gen_conf : gmap str pyobj) (st : state) :
  exists req st',
    tool_round gen_conf st = (Ok None, st')
    /\ requests st' = requests st ++ [req] /\ r_tools req = true
    /\ frame st st'.
Proof.
  unfold tool_round.
  erewrite bind_ok by reflexivity. erewrite bind_ok by reflexivity.
  match goal with |- context [create ?r] => set (req := r) end.
  destruct (Htools (length (requests st)) req eq_refl)
    as (resp & E & c & cs & m & Hc & Hm & Htc).
  erewrite bind_ok by (apply create_ok; exact E).
  erewrite bind_ok by reflexivity.
  rewrite Hc, Hm.
  destruct (msg_tool_calls m) as [|tc tcs]; [congruence|].
  match goal with
  | |- context [bind (for_each ?l run_tool_call) _ ?s] =>
      destruct (for_each_tool_calls_frame l s) as (s2 & E2 & Hf2 & Hr2 & _)
  end.
  erewrite bind_ok by exact E2.
  exists req, s2. split; [reflexivity|]. split; [exact Hr2|]. split; [reflexivity|].
  unfold frame in *. simpl in *. exact Hf2.
Qed.

Lemma for_range_tool_rounds (gen_conf : gmap str pyobj) (n : nat) :
  forall st, exists reqs st',
    for_range n (tool_round gen_conf) st = (Ok None, st')
    /\ requests st' = requests st ++ reqs
    /\ length reqs = n /\ Forall (fun r => r_tools r = true) reqs
    /\ frame st st'.
Proof.
  induction n as [|n IH]; intros st; cbn [for_range].
  - exists [], st. rewrite app_nil_r. repeat split; try constructor.
  - destruct (tool_round_continues gen_conf st) as (req & s1 & E & Hr & Ht & Hf).
    erewrite bind_ok by exact E.
    destruct (IH s1) as (reqs & s2 & E2 & Hr2 & Hl & Hall & Hf2).
    exists (req :: reqs), s2. split; [exact E2|].
    split; [rewrite Hr2, Hr, <- app_assoc; reflexivity|].
    split; [simpl; lia|]. split; [constructor; assumption|].
    eapply frame_trans; eassumption.
Qed.

Lemma _chat_plain_ok (history : nat) (gen_conf : gmap str pyobj) (st : state) :
  exists req v,
    _chat history gen_conf st = (Ok v, set_requests (requests st ++ [req]) st)
    /\ r_messages req = default [] (heap st !! history)
    /\ r_tools req = false.
Proof.
  unfold _chat. destruct (contains (u "qwq") (lower model_name)).
  - unfold _chat_streamly, create_stream. run.
    match goal with
    | |- context [completions_create_stream ?n ?r] =>
        destruct (Hplain n r eq_refl) as (_ & s & E & Hs); rewrite E
    end.
    simpl. rewrite Hs. eexists _, _. split; [reflexivity | split; reflexivity].
  - unfold create. run.
    match goal with
    | |- context [completions_create ?n ?r] =>
        destruct (Hplain n r eq_refl) as ((resp & E) & _); rewrite E
    end.
    simpl. destruct (choices resp) as [|c cs]; simpl.
    { eexists _, _. split; [reflexivity | split; reflexivity]. }
    destruct (choice_message c) as [m|]; simpl.
    2:{ eexists _, _. split; [reflexivity | split; reflexivity]. }
    destruct (negb (truthy (msg_content m))); eexists _, _;
      (split; [reflexivity | split; reflexivity]).
Qed.

Lemma tool_rounds_exceed (gen_conf : gmap str pyobj) (st : state) :
  v_history st < length (heap st) ->
  exists tool_reqs final_req st' reply tokens before,
    tool_rounds gen_conf st = (Ok (before ++ reply, tokens), st')
    /\ requests st' = requests st ++ tool_reqs ++ [final_req]
    /\ length tool_reqs = max_rounds + 1
    /\ Forall (fun r => r_tools r = true) tool_reqs
    /\ r_tools final_req = false
    /\ last (r_messages final_req) = Some exceed_message
    /\ (exists s tk, requests s = requests st ++ tool_reqs
                     /\ fst (_chat (v_history st) gen_conf s) = Ok (reply, tk)
                     /\ v_ans s = before /\ tokens = (v_tk_count s + tk)%Z)
    /\ sleeps st' = sleeps st /\ v_history st' = v_history st
    /\ before ++ reply = v_ans st' /\ tokens = v_tk_count st'.
Proof.
  intros Hvalid. unfold tool_rounds.
  destruct (for_range_tool_rounds gen_conf (max_rounds + 1) st)
    as (reqs & s1 & E & Hr & Hl & Hall & Hf).
  erewrite bind_ok by exact E. cbv beta iota.
  erewrite bind_ok by reflexivity. erewrite bind_ok by reflexivity.
  set (s2 := set_heap _ s1).
  destruct (_chat_plain_ok (v_history s1) gen_conf s2) as (req & [reply tk] & Ec & Hm & Ht).
  erewrite bind_ok by exact Ec. cbn [fst snd].
  destruct Hf as (Hsl & Hy & Hh & Hhi & Hlen).
  exists reqs, req. eexists _, reply, _, (v_ans s1).
  split; [reflexivity|]. simpl.
  split; [rewrite Hr, <- app_assoc; reflexivity|].
  split; [exact Hl|]. split; [exact Hall|]. split; [exact Ht|].
  split.
  { rewrite Hm. subst s2. simpl.
    rewrite list_lookup_insert_eq by lia. simpl. apply last_snoc. }
  split.
  { exists s2, tk. rewrite <- Hh, Ec. repeat split. exact Hr. }
  split; [exact Hsl|]. split; [exact Hh|]. split; reflexivity.
Qed.

(** A provider of this kind gets [max_rounds + 1] requests with the tools
    attached and then one without, which carries the message
    "Exceed max rounds: ..." last, and [chat_with_tools] returns what it
    has accumulated, without a sleep or a retry. *)
Lemma chat_with_tools_exceed (system : str) (history : nat) (gen_conf : gmap str pyobj)
  (st : state) :
  exists tool_reqs final_req st' before reply tokens,
    chat_with_tools system history gen_conf st = (Ok (before ++ reply, tokens), st')
    /\ requests st' = requests st ++ tool_reqs ++ [final_req]
    /\ length tool_reqs = max_rounds + 1
    /\ Forall (fun r => r_tools r = true) tool_reqs
    /\ r_tools final_req = false
    /\ last (r_messages final_req) = Some exceed_message
    /\ (exists s tk, requests s = requests st ++ tool_reqs
                     /\ fst (_chat (v_history st') (_clean_conf gen_conf) s) = Ok (reply, tk)
                     /\ v_ans s = before /\ tokens = (v_tk_count s + tk)%Z)
    /\ sleeps st' = sleeps st
    /\ before ++ reply = v_ans st' /\ tokens = v_tk_count st'.
Proof.
  unfold chat_with_tools.
  destruct (tools_prologue_effect system history st)
    as (st1 & E1 & Hr1 & Hs1 & Hv1 & _).
  erewrite bind_ok by exact E1.
  replace (max_retries + 1) with (S max_retries) by lia. cbn [seq tool_attempts].
  erewrite bind_ok by reflexivity.
  set (s2 := set_history (v_hist st1) st1).
  destruct (tool_rounds_exceed (_clean_conf gen_conf) s2 Hv1)
    as (tool_reqs & final_req & st' & reply & tokens & before
        & E & Hr & Hl & Hall & Ht & Hlast & Hchat & Hsl & Hh & Ha & Htk).
  erewrite bind_ok by (apply try_except_eq; exact E).
  exists tool_reqs, final_req, st', before, reply, tokens.
  split; [reflexivity|].
  split; [rewrite Hr; subst s2; simpl; rewrite Hr1; reflexivity|].
  split; [exact Hl|]. split; [exact Hall|]. split; [exact Ht|]. split; [exact Hlast|].
  split.
  { destruct Hchat as (s & tk & Hrs & Hc). exists s, tk. rewrite Hh.
    split; [rewrite Hrs; subst s2; simpl; rewrite Hr1; reflexivity | exact Hc]. }
  split; [rewrite Hsl; subst s2; simpl; exact Hs1|].
  split; [exact Ha | exact Htk].
Qed.

End AlwaysTools.

End ToolLoop.

Section ToolLoopBound.

Context {lib : Imports} {self : Self}.

(** A round sends one request, whatever the reply. *)
Lemma tool_round_sends (gen_conf : gmap str pyobj) (st : state) :
  exists r req st',
    tool_round gen_conf st = (r, st') /\ requests st' = requests st ++ [req].
Proof.
  unfold tool_round.
  erewrite bind_ok by reflexivity. erewrite bind_ok by reflexivity.
  match goal with |- context [create ?r] => set (req := r) end.
  destruct (completions_create (length (requests st)) req) as [e | resp] eqn:E.
  { erewrite bind_raise by (unfold create; rewrite E; reflexivity).
    eexists _, req, _. split; reflexivity. }
  erewrite bind_ok by (apply create_ok; exact E).
  erewrite bind_ok by reflexivity.
  destruct (choices resp) as [|c cs].
  { eexists _, req, _. split; reflexivity. }
  destruct (choice_message c) as [m|].
  2:{ eexists _, req, _. split; reflexivity. }
  destruct (msg_tool_calls m) as [|tc tcs].
  - destruct (truthy (msg_reasoning_content m)); destruct (msg_content m);
      destruct (bool_decide (finish_reason c = Some (u "length")));
      eexists _, req, _; (split; [reflexivity|]); reflexivity.
  - match goal with
    | |- context [bind (for_each ?l run_tool_call) _ ?s] =>
        destruct (for_each_tool_calls_frame l s) as (s2 & E2 & _ & Hr2 & _)
    end.
    erewrite bind_ok by exact E2.
    eexists _, req, _. split; [reflexivity|]. exact Hr2.
Qed.

Lemma for_range_sends (gen_conf : gmap str pyobj) (n : nat) :
  forall st, exists r st',
    for_range n (tool_round gen_conf) st = (r, st')
    /\ length (requests st') <= length (requests st) + n.
Proof.
  induction n as [|n IH]; intros st; cbn [for_range].
  - eexists _, _. split; [reflexivity|]. lia.
  - destruct (tool_round_sends gen_conf st) as (r & req & s1 & E & Hr).
    assert (Hl : length (requests s1) = length (requests st) + 1)
      by (rewrite Hr, length_app; reflexivity).
    destruct r as [[v|] | e].
    + erewrite bind_ok by exact E. eexists _, _. split; [reflexivity|]. lia.
    + erewrite bind_ok by exact E.
      destruct (IH s1) as (r2 & s2 & E2 & Hl2).
      eexists _, _. split; [exact E2|]. lia.
    + erewrite bind_raise by exact E. eexists _, _. split; [reflexivity|]. lia.
Qed.

Lemma tool_rounds_sends (gen_conf : gmap str pyobj) (st : state) :
  exists r st',
    tool_rounds gen_conf st = (r, st')
    /\ length (requests st') <= length (requests st) + (max_rounds + 2).
Proof.
  unfold tool_rounds.
  destruct (for_range_sends gen_conf (max_rounds + 1) st) as (r & s1 & E & Hl).
  destruct r as [[v|] | e].
  - erewrite bind_ok by exact E. eexists _, _. split; [reflexivity|]. lia.
  - erewrite bind_ok by exact E. cbv beta iota.
    erewrite bind_ok by reflexivity. erewrite bind_ok by reflexivity.
    match goal with
    | |- context [bind (_chat ?h ?c) _ ?s] =>
        destruct (_chat_effect h c s) as (req & res & Ec & _)
    end.
    destruct res as [p | e].
    + erewrite bind_ok by exact Ec. eexists _, _. split; [reflexivity|].
      simpl. rewrite length_app. simpl. lia.
    + erewrite bind_raise by exact Ec. eexists _, _. split; [reflexivity|].
      simpl. rewrite length_app. simpl. lia.
  - erewrite bind_raise by exact E. eexists _, _. split; [reflexivity|]. lia.
Qed.

(** Whatever the provider and the tools do, [chat_with_tools] returns a
    value, and it has sent at most [max_rounds + 2] requests in each of at
    most [max_retries + 1] attempts. *)
Lemma chat_with_tools_returns (system : str) (history : nat) (gen_conf : gmap str pyobj)
  (st : state) :
  exists v st',
    chat_with_tools system history gen_conf st = (Ok v, st')
    /\ length (requests st')
       <= length (requests st) + (max_retries + 1) * (max_rounds + 2).
Proof.
  unfold chat_with_tools.
  destruct (tools_prologue_effect system history st) as (st1 & E1 & Hr1 & _).
  erewrite bind_ok by exact E1. rewrite <- Hr1.
  replace (max_retries + 1) with (S max_retries) by lia.
  generalize st1. clear E1 Hr1 st1.
  assert (H : forall k a s, a + k = max_retries ->
             exists v st',
               tool_attempts history_is_hist (_clean_conf gen_conf) (seq a (S k)) s
               = (Ok v, st')
               /\ length (requests st') <= length (requests s) + S k * (max_rounds + 2)).
  { induction k as [|k IH]; intros a s Ha; cbn [seq tool_attempts];
      erewrite bind_ok by reflexivity;
      match goal with
      | |- context [bind (try_except (tool_rounds ?c)) _ ?s0] =>
          destruct (tool_rounds_sends c s0) as (r & s1 & E & Hl)
      end;
      erewrite bind_ok by (apply try_except_eq; exact E);
      simpl in Hl;
      (destruct r as [v | e]; [eexists _, _; split; [reflexivity | lia]|]);
      (destruct (_exceptions_cases e a s1) as [[Hre He] | [Hre He]];
       erewrite bind_ok by exact He).
    - replace a with max_retries in Hre by lia. rewrite Nat.eqb_refl in Hre. discriminate.
    - rewrite error_string_truthy. eexists _, _. split; [reflexivity|]. lia.
    - cbn [truthy]. destruct (IH (S a) (set_sleeps (S (sleeps s1)) s1)) as (v & st' & E' & Hl');
        [lia|]. exists v, st'. split; [exact E'|]. simpl in Hl'. lia.
    - rewrite error_string_truthy. eexists _, _. split; [reflexivity|]. lia. }
  intros s. apply H. reflexivity.
Qed.

(** *** C1: the tool loop is bounded *)


End ToolLoopBound.



(** *** C4: the history of a retried attempt *)

(** C4 does not hold of [chat_with_tools] and [chat_streamly_with_tools]:
    [history = hist] makes the two names one list object, so what a failed
    attempt appended is still there when the next attempt starts. With
    the provider [flaky] the first request of the second attempt, which is
    the third request, carries the caller's message followed by the
    assistant and tool entries of the failed attempt.
    [async_chat_with_tools], which rebinds [history] to a copy of [hist],
    sends the caller's message alone. *)
Lemma retry_history_polluted :
  let original := [user_says (u "Hi")] in
  map r_messages (requests (snd (@chat_with_tools ascii_lib flaky [] 0 ∅ (initial hi))))
  = [original; original ++ [asked; answered]; original ++ [asked; answered]]
  /\ map r_messages
       (requests (snd (@chat_streamly_with_tools ascii_lib flaky [] 0 ∅ (initial hi))))
     = [original; original ++ [asked; answered]; original ++ [asked; answered]]
  /\ map r_messages
       (requests (snd (@async_chat_with_tools ascii_lib flaky [] 0 ∅ (initial hi))))
     = [original; original ++ [asked; answered]; original].
Proof.
  repeat split; vm_compute; reflexivity.
Qed.

(** ** Further properties of the chat client *)

Section MoreClassification.

Context {lib : Imports} {self : Self}.

Lemma first_matching_group_cases (mapping : list (list str * LLMErrorCode)) (s : str) :
  (first_matching_group mapping s = ERROR_GENERIC
   /\ Forall (fun g => ~ has_word (fst g) s) mapping)
  \/ (exists words, In (words, first_matching_group mapping s) mapping
                    /\ has_word words s).
Proof.
  induction mapping as [|[words code] mapping IH]; simpl.
  - left. split; [reflexivity | constructor].
  - destruct (re_search words s) eqn:E.
    + right. exists words. split; [left; reflexivity | now apply re_search_spec].
    + destruct IH as [[Hg Hall] | (ws & Hin & Hw)].
      * left. split; [exact Hg|]. constructor; [now apply re_search_false | exact Hall].
      * right. exists ws. split; [right; exact Hin | exact Hw].
Qed.

(** X1. [_classify_error] returns [GENERIC_ERROR] exactly when the
    lower-cased text of the error contains no keyword of any group, and
    it never returns [MAX_RETRIES_EXCEEDED] or [ERROR_MAX_ROUNDS]: a text
    with "max rounds" is a [MODEL_ERROR] at best. *)
Theorem classify_error_range (error : exn) :
  (_classify_error error = ERROR_GENERIC <->
   forall words code, In (words, code) keywords_mapping ->
                      ~ has_word words (lower (exn_str error)))
  /\ _classify_error error <> ERROR_MAX_RETRIES
  /\ _classify_error error <> ERROR_MAX_ROUNDS.
Proof.
  unfold _classify_error.
  destruct (first_matching_group_cases keywords_mapping (lower (exn_str error)))
    as [[Hg Hall] | (ws & Hin & Hw)].
  - rewrite Hg. split; [|split; discriminate].
    split; [|reflexivity]. intros _ words code Hin.
    rewrite Forall_forall in Hall. apply (Hall (words, code)).
    apply list_elem_of_In, Hin.
  - remember (first_matching_group keywords_mapping (lower (exn_str error))) as code.
    assert (Hcode : In code (map snd keywords_mapping)).
    { apply (in_map snd) in Hin. exact Hin. }
    simpl in Hcode.
    split; [split|].
    + intros Hg. rewrite Hg in Hcode.
      repeat (destruct Hcode as [Hcode | Hcode]; [discriminate Hcode|]). destruct Hcode.
    + intros Hno. exfalso. exact (Hno _ _ Hin Hw).
    + split; intros Hg; rewrite Hg in Hcode;
        repeat (destruct Hcode as [Hcode | Hcode]; [discriminate Hcode|]); destruct Hcode.
Qed.

End MoreClassification.

Section MoreCleanConf.

Context {lib : Imports} {self : Self}.

(** X2. [_clean_conf] only removes options: what it returns is a part of
    what it was given, and cleaning a second time changes nothing. *)
Theorem clean_conf_idempotent (gen_conf : gmap str pyobj) :
  _clean_conf gen_conf ⊆ gen_conf
  /\ _clean_conf (_clean_conf gen_conf) = _clean_conf gen_conf.
Proof.
  unfold _clean_conf.
  destruct (contains (u "gpt-5") (lower model_name)).
  - split; [apply map_empty_subseteq|]. reflexivity.
  - split.
    + etransitivity; [apply map_filter_subseteq | apply delete_subseteq].
    + apply map_eq. intros k.
      destruct (filter (fun kv : str * pyobj => kv.1 ∈ allowed_conf)
                  (delete (u "max_tokens") gen_conf) !! k) as [v|] eqn:E.
      * pose proof E as E'. apply map_lookup_filter_Some in E'. destruct E' as [Hd Hk].
        apply map_lookup_filter_Some. split; [|exact Hk].
        rewrite lookup_delete_ne; [exact E|].
        intros <-. simpl in Hk. exact (max_tokens_not_allowed Hk).
      * apply map_lookup_filter_None. left.
        destruct (decide (u "max_tokens" = k)) as [<- | Hne].
        -- apply lookup_delete_eq.
        -- rewrite lookup_delete_ne by exact Hne. exact E.
Qed.

End MoreCleanConf.

Section MoreChat.

Context {lib : Imports} {self : Self}.

Lemma insert_system_frame (system : str) (history : nat) (st : state) :
  exists s0,
    insert_system system history st = (Ok tt, s0)
    /\ requests s0 = requests st /\ sleeps s0 = sleeps st
    /\ yielded s0 = yielded st /\ tool_runs s0 = tool_runs st
    /\ length (heap s0) = length (heap st).
Proof.
  rewrite insert_system_cases. eexists. split; [reflexivity|].
  destruct system as [|c system]; [tauto|].
  destruct (default [] (heap st !! history)) as [|m h]; [tauto|].
  destruct (bool_decide (role m = Some (u "system"))); [tauto|].
  simpl. rewrite length_insert. tauto.
Qed.

(** When the provider fails the next request with [e], so does [_chat]. *)
Lemma _chat_raises (history : nat) (gen_conf : gmap str pyobj) (st : state) (e : exn) :
  (forall req, completions_create (length (requests st)) req = inl e) ->
  (forall req, completions_create_stream (length (requests st)) req = inl e) ->
  exists req,
    _chat history gen_conf st = (Raise e, set_requests (requests st ++ [req]) st).
Proof.
  intros Hc Hs. unfold _chat. destruct (contains (u "qwq") (lower model_name)).
  - unfold _chat_streamly, create_stream. run. rewrite Hs. eexists. reflexivity.
  - unfold create. run. rewrite Hc. eexists. reflexivity.
Qed.

(** X3. An error that is not classified as retryable ends [chat] at once:
    one request, no sleep, and the error string is returned with the code
    of the classification, or with [MAX_RETRIES_EXCEEDED] when
    [max_retries] is zero, because the first attempt is then the last. *)
Theorem chat_terminal_error (system : str) (history : nat) (gen_conf : gmap str pyobj)
  (st : state) (e : exn) :
  (forall req, completions_create (length (requests st)) req = inl e) ->
  (forall req, completions_create_stream (length (requests st)) req = inl e) ->
  _should_retry (_classify_error e) = false ->
  exists st',
    chat system history gen_conf st
    = (Ok (error_string (if Nat.eqb 0 max_retries then ERROR_MAX_RETRIES
                         else _classify_error e) e, 0%Z), st')
    /\ length (requests st') = length (requests st) + 1
    /\ sleeps st' = sleeps st.
Proof.
  intros Hc Hs Hterm. unfold chat.
  destruct (insert_system_frame system history st) as (s0 & E0 & Hr0 & Hs0 & _).
  erewrite bind_ok by exact E0.
  replace (max_retries + 1) with (S max_retries) by lia. cbn [seq].
  rewrite chat_attempts_cons.
  rewrite <- Hr0 in Hc, Hs.
  destruct (_chat_raises history (_clean_conf gen_conf) s0 e Hc Hs) as (req & E).
  rewrite E.
  assert (Hno : _should_retry (if Nat.eqb 0 max_retries then ERROR_MAX_RETRIES
                               else _classify_error e) = false).
  { destruct (Nat.eqb 0 max_retries); [reflexivity | exact Hterm]. }
  destruct (_exceptions_cases e 0 (set_requests (requests s0 ++ [req]) s0))
    as [[Hr He] | [Hr He]]; [congruence|].
  rewrite He, error_string_truthy.
  eexists. split; [reflexivity|]. simpl. rewrite length_app, Hr0, Hs0. simpl. lia.
Qed.

Lemma _chat_answers (history : nat) (gen_conf : gmap str pyobj) (st : state)
  (resp : response) (c : choice) (cs : list choice) (m : completion_message) (text : str) :
  ~ occurs (u "qwq") (lower model_name) ->
  (forall req, completions_create (length (requests st)) req = inr resp) ->
  choices resp = c :: cs -> choice_message c = Some m ->
  msg_content m = Some text -> text <> [] ->
  exists req,
    _chat history gen_conf st
    = (Ok (plain_answer c text, total_token_count_from_response resp),
       set_requests (requests st ++ [req]) st).
Proof.
  intros Hq Hresp Hc Hm Ht Hne. unfold _chat.
  destruct (contains (u "qwq") (lower model_name)) eqn:E.
  { exfalso. apply Hq, contains_spec, E. }
  unfold create. run. rewrite Hresp. simpl. rewrite Hc, Hm, Ht. simpl.
  destruct text as [|ch text]; [congruence|]. simpl.
  eexists. unfold plain_answer.
  destruct (bool_decide (finish_reason c = Some (u "length"))); reflexivity.
Qed.

Lemma chat_attempts_recover (history : nat) (gen_conf : gmap str pyobj)
  (resp : response) (c : choice) (cs : list choice) (m : completion_message) (text : str) :
  ~ occurs (u "qwq") (lower model_name) ->
  choices resp = c :: cs -> choice_message c = Some m ->
  msg_content m = Some text -> text <> [] ->
  forall k a n st,
    a + k <= max_retries ->
    (forall i req, i < k -> exists e,
        completions_create (length (requests st) + i) req = inl e
        /\ _should_retry (_classify_error e) = true) ->
    (forall req, completions_create (length (requests st) + k) req = inr resp) ->
    exists st',
      chat_attempts history gen_conf (seq a (S (k + n))) st
      = (Ok (plain_answer c text, total_token_count_from_response resp), st')
      /\ length (requests st') = length (requests st) + k + 1
      /\ sleeps st' = sleeps st + k.
Proof.
  intros Hq Hc Hm Ht Hne.
  induction k as [|k IH]; intros a n st Ha Hfail Hresp; cbn [seq Nat.add];
    rewrite chat_attempts_cons.
  - rewrite Nat.add_0_r in Hresp.
    destruct (_chat_answers history gen_conf st resp c cs m text Hq Hresp Hc Hm Ht Hne)
      as (req & E).
    rewrite E. eexists. split; [reflexivity|]. simpl. rewrite length_app. simpl. lia.
  - assert (Hq' : contains (u "qwq") (lower model_name) = false).
    { destruct (contains (u "qwq") (lower model_name)) eqn:E; [|reflexivity].
      exfalso. apply Hq, contains_spec, E. }
    unfold _chat at 1. rewrite Hq'.
    erewrite bind_ok by reflexivity.
    match goal with |- context [create ?r] => set (req := r) end.
    destruct (Hfail 0 req ltac:(lia)) as (e & Ee & Hre).
    rewrite Nat.add_0_r in Ee.
    erewrite bind_raise by (unfold create; rewrite Ee; reflexivity).
    unfold _exceptions.
    replace (Nat.eqb a max_retries) with false by (symmetry; apply Nat.eqb_neq; lia).
    rewrite Hre. run.
    set (s1 := set_sleeps (S (sleeps st)) (set_requests (requests st ++ [req]) st)).
    assert (Hlen : length (requests s1) = length (requests st) + 1).
    { subst s1. simpl. rewrite length_app. reflexivity. }
    destruct (IH (S a) n s1) as (st' & E' & Hn & Hsl).
    + lia.
    + intros i r Hi. rewrite Hlen.
      replace (length (requests st) + 1 + i) with (length (requests st) + S i) by lia.
      apply Hfail. lia.
    + intros r. rewrite Hlen.
      replace (length (requests st) + 1 + k) with (length (requests st) + S k) by lia.
      apply Hresp.
    + exists st'. split; [exact E'|]. rewrite Hn, Hsl, Hlen. subst s1. simpl. lia.
Qed.

(** X4. When the model is not a "qwq" one, the first [k] requests fail
    with retryable errors, [k] being at most [max_retries], and the next
    one is answered with a content that is not empty, [chat] returns that
    content, stripped, followed by the truncation notice when the finish
    reason is [length], together with the token count of that response.
    It has sent [k + 1] requests and slept [k] times. *)
Theorem chat_answers_after_retries (system : str) (history : nat)
  (gen_conf : gmap str pyobj) (st : state) (k : nat)
  (resp : response) (c : choice) (cs : list choice) (m : completion_message) (text : str) :
  ~ occurs (u "qwq") (lower model_name) ->
  k <= max_retries ->
  (forall i req, i < k -> exists e,
      completions_create (length (requests st) + i) req = inl e
      /\ _should_retry (_classify_error e) = true) ->
  (forall req, completions_create (length (requests st) + k) req = inr resp) ->
  choices resp = c :: cs -> choice_message c = Some m ->
  msg_content m = Some text -> text <> [] ->
  exists st',
    chat system history gen_conf st
    = (Ok (plain_answer c text, total_token_count_from_response resp), st')
    /\ length (requests st') = length (requests st) + k + 1
    /\ sleeps st' = sleeps st + k.
Proof.
  intros Hq Hk Hfail Hresp Hc Hm Ht Hne. unfold chat.
  destruct (insert_system_frame system history st) as (s0 & E0 & Hr0 & Hs0 & _).
  erewrite bind_ok by exact E0.
  replace (max_retries + 1) with (S (k + (max_retries - k))) by lia.
  rewrite <- Hr0 in Hfail, Hresp.
  destruct (chat_attempts_recover history (_clean_conf gen_conf) resp c cs m text
              Hq Hc Hm Ht Hne k 0 (max_retries - k) s0 ltac:(lia) Hfail Hresp)
    as (st' & E & Hn & Hsl).
  exists st'. split; [exact E|]. rewrite Hn, Hsl, Hr0, Hs0. split; reflexivity.
Qed.

End MoreChat.

(** X3, an instance: the provider rejects the key. *)
Lemma chat_terminal_error_witness :
  let e := APIError (u "Error code: 401 - Incorrect API key provided") in
  exists st',
    @chat ascii_lib unauthorized [] 0 ∅ (initial hi)
    = (Ok (error_string (if Nat.eqb 0 (@max_retries unauthorized) then ERROR_MAX_RETRIES
                         else @_classify_error ascii_lib e) e, 0%Z), st')
    /\ length (requests st') = length (requests (initial hi)) + 1
    /\ sleeps st' = sleeps (initial hi).
Proof.
  intros e.
  apply (@chat_terminal_error ascii_lib unauthorized [] 0 ∅ (initial hi) e).
  - intros req. reflexivity.
  - intros req. reflexivity.
  - vm_compute. reflexivity.
Defined.

(** X4, an instance: two rate-limit errors, then an answer. *)
Lemma chat_answers_after_retries_witness :
  let m := {| msg_content := Some (u " Hello! "); msg_reasoning_content := None;
              msg_tool_calls := [] |} in
  let c := {| choice_message := Some m; finish_reason := Some (u "stop") |} in
  exists st',
    @chat ascii_lib recovering [] 0 ∅ (initial hi)
    = (Ok (@plain_answer ascii_lib c (u " Hello! "),
           @total_token_count_from_response ascii_lib (says (u " Hello! "))), st')
    /\ length (requests st') = length (requests (initial hi)) + 2 + 1
    /\ sleeps st' = sleeps (initial hi) + 2.
Proof.
  intros m c.
  apply (@chat_answers_after_retries ascii_lib recovering [] 0 ∅ (initial hi) 2
           (says (u " Hello! ")) c [] m (u " Hello! ")).
  - intros H. apply contains_spec in H. vm_compute in H. discriminate.
  - simpl. lia.
  - intros i req Hi. destruct i as [|[|i]]; [| |lia];
      (eexists; split; [reflexivity | vm_compute; reflexivity]).
  - intros req. reflexivity.
  - reflexivity.
  - reflexivity.
  - reflexivity.
  - discriminate.
Defined.

Section StreamingTools.

Context {lib : Imports} {self : Self}.

Lemma grows_refl (st : state) : grows st st.
Proof. exists []. now rewrite app_nil_r. Qed.

Lemma grows_trans (a b c : state) : grows a b -> grows b c -> grows a c.
Proof.
  intros [x Hx] [y Hy]. exists (x ++ y). now rewrite Hy, Hx, app_assoc.
Qed.

Ltac grow := first [eassumption | solve [eauto 4 using grows_trans]].

Lemma grows_same (a b : state) : yielded b = yielded a -> grows a b.
Proof. intros H. exists []. now rewrite app_nil_r. Qed.

Lemma counted_after (a b c : state) : grows a b -> counted b c -> counted a c.
Proof.
  intros [x Hx] [y Hy]. exists (x ++ y). now rewrite Hy, Hx, <- !app_assoc.
Qed.

Lemma yield_count (st : state) :
  exists st', (total_tokens <- gets v_total_tokens ;; yield (Count total_tokens)) st
              = (Ok tt, st')
              /\ counted st st'.
Proof.
  eexists. split; [reflexivity|]. exists []. reflexivity.
Qed.

Lemma on_chunk_grows (resp : chunk) (L : round_locals) (st : state) :
  exists r st', on_chunk resp L st = (r, st') /\ grows st st'.
Proof.
  unfold on_chunk. destruct (chunk_choices resp) as [|c cs].
  { eexists _, _. split; [reflexivity | apply grows_refl]. }
  destruct (delta_tool_calls (choice_delta c)) as [|tc tcs].
  - destruct (truthy (delta_reasoning_content (choice_delta c)));
      destruct (bool_decide (chunk_finish_reason c = Some (u "length")));
      run; eexists _, _; (split; [reflexivity|]); unfold grows; simpl;
      eexists; rewrite <- ?app_assoc; reflexivity.
  - eexists _, _. split; [reflexivity | apply grows_refl].
Qed.

Lemma consume_grows (chunks : list chunk) :
  forall L st, exists r st', consume chunks L st = (r, st') /\ grows st st'.
Proof.
  induction chunks as [|resp chunks IH]; intros L st; cbn [consume].
  - eexists _, _. split; [reflexivity | apply grows_refl].
  - destruct (on_chunk_grows resp L st) as ([L1 | e] & s1 & E & Hg).
    + erewrite bind_ok by exact E.
      destruct (IH L1 s1) as (r & s2 & E2 & Hg2).
      exists r, s2. split; [exact E2 | grow].
    + erewrite bind_raise by exact E. eexists _, _. split; [reflexivity | exact Hg].
Qed.

Lemma stream_end_state (response : stream) (st : state) :
  exists r, stream_end response st = (r, st).
Proof. unfold stream_end. destruct (stream_error response); eexists; reflexivity. Qed.

(** Running one tool call of a streamed round never raises. *)
Lemma run_tool_call_streamly_grows (tc : ToolCall) (st : state) :
  exists st', run_tool_call_streamly tc st = (Ok tt, st') /\ grows st st'.
Proof.
  unfold run_tool_call_streamly.
  assert (Hbody : exists r s1,
             (args <- lift (json_repair_loads (tc_arguments tc)) ;;
              v <- _verbose_tool_use (tc_name tc) args (PyStr (u "Begin to call...")) ;;
              yield (Text v) ;;
              tool_response <- session_tool_call (tc_name tc) args ;;
              history <- gets v_history ;;
              history <- _append_history history tc tool_response ;;
              modify (set_history history) ;;
              v <- _verbose_tool_use (tc_name tc) args tool_response ;;
              yield (Text v)) st = (r, s1)
             /\ grows st s1).
  { destruct (json_repair_loads (tc_arguments tc)) as [e | args].
    { eexists _, _. split; [reflexivity | apply grows_refl]. }
    erewrite bind_ok by reflexivity.
    destruct (_verbose_tool_use_state (tc_name tc) args (PyStr (u "Begin to call...")) st)
      as ([v | e] & Ev).
    2:{ erewrite bind_raise by exact Ev. eexists _, _. split; [reflexivity | apply grows_refl]. }
    erewrite bind_ok by exact Ev. erewrite bind_ok by reflexivity.
    set (s0 := set_yielded (yielded st ++ [Text v]) st).
    assert (Hg0 : grows st s0) by (exists [Text v]; reflexivity).
    destruct (session_tool_call_frame (tc_name tc) args s0)
      as (r1 & s1 & E1 & Hf1 & _).
    assert (Hg1 : grows st s1).
    { eapply grows_trans; [exact Hg0|]. apply grows_same, Hf1. }
    destruct r1 as [tool_response | e].
    2:{ erewrite bind_raise by exact E1. eexists _, _. split; [reflexivity | exact Hg1]. }
    erewrite bind_ok by exact E1. erewrite bind_ok by reflexivity.
    destruct (_append_history_frame (v_history s1) tc tool_response s1)
      as (r2 & s2 & E2 & Hf2 & _).
    assert (Hg2 : grows st s2).
    { eapply grows_trans; [exact Hg1|]. apply grows_same, Hf2. }
    destruct r2 as [h | e].
    2:{ erewrite bind_raise by exact E2. eexists _, _. split; [reflexivity | exact Hg2]. }
    erewrite bind_ok by exact E2. erewrite bind_ok by reflexivity.
    destruct (_verbose_tool_use_state (tc_name tc) args tool_response (set_history h s2))
      as ([v2 | e] & Ev2).
    - erewrite bind_ok by exact Ev2. eexists _, _. split; [reflexivity|].
      eapply grows_trans; [exact Hg2|]. exists [Text v2]. reflexivity.
    - erewrite bind_raise by exact Ev2. eexists _, _. split; [reflexivity|].
      eapply grows_trans; [exact Hg2|]. apply grows_same. reflexivity. }
  destruct Hbody as (r & s1 & E & Hg).
  erewrite bind_ok by (apply try_except_eq; exact E).
  destruct r as [[] | e].
  - eexists. split; [reflexivity | exact Hg].
  - erewrite bind_ok by reflexivity. erewrite bind_ok by reflexivity.
    match goal with
    | |- context [bind (_verbose_tool_use ?n ?a ?r) _ ?s] =>
        destruct (_verbose_tool_use_error n (exn_str e) s) as (v & Ev)
    end.
    erewrite bind_ok by exact Ev.
    eexists. split; [reflexivity|].
    eapply grows_trans; [exact Hg|]. exists [Text v]. simpl. reflexivity.
Qed.

Lemma for_each_streamly_grows (tcs : list ToolCall) :
  forall st, exists st',
    for_each tcs run_tool_call_streamly st = (Ok tt, st') /\ grows st st'.
Proof.
  induction tcs as [|tc tcs IH]; intros st; cbn [for_each].
  - eexists. split; [reflexivity | apply grows_refl].
  - destruct (run_tool_call_streamly_grows tc st) as (s1 & E & Hg).
    erewrite bind_ok by exact E.
    destruct (IH s1) as (s2 & E2 & Hg2).
    exists s2. split; [exact E2 | grow].
Qed.

Lemma stream_tool_round_counted (gen_conf : gmap str pyobj) (st : state) :
  exists r st',
    stream_tool_round gen_conf st = (r, st')
    /\ grows st st'
    /\ (r = Ok (Some tt) -> counted st st').
Proof.
  unfold stream_tool_round.
  erewrite bind_ok by reflexivity. erewrite bind_ok by reflexivity.
  match goal with |- context [create_stream ?r] => set (req := r) end.
  destruct (completions_create_stream (length (requests st)) req) as [e | response] eqn:E.
  { erewrite bind_raise by (unfold create_stream; rewrite E; reflexivity).
    eexists _, _. split; [reflexivity|]. split; [apply grows_same; reflexivity|].
    discriminate. }
  erewrite bind_ok by (unfold create_stream; rewrite E; reflexivity).
  set (s0 := set_requests (requests st ++ [req]) st).
  assert (Hg0 : grows st s0) by (apply grows_same; reflexivity).
  destruct (consume_grows (stream_chunks response)
              {| final_tool_calls := []; answer := []; reasoning_start := false |} s0)
    as ([L | e] & s1 & E1 & Hg1).
  2:{ erewrite bind_raise by exact E1. eexists _, _. split; [reflexivity|].
      split; [grow | discriminate]. }
  erewrite bind_ok by exact E1.
  assert (Hg01 : grows st s1) by (grow).
  destruct (stream_end_state response s1) as ([[] | e] & Ee).
  2:{ erewrite bind_raise by exact Ee. eexists _, _. split; [reflexivity|].
      split; [exact Hg01 | discriminate]. }
  erewrite bind_ok by exact Ee.
  destruct (answer L) as [|ch rest].
  - destruct (for_each_streamly_grows (map snd (final_tool_calls L)) s1) as (s2 & E2 & Hg2).
    erewrite bind_ok by exact E2.
    eexists _, _. split; [reflexivity|].
    split; [grow | discriminate].
  - erewrite bind_ok by reflexivity. erewrite bind_ok by reflexivity.
    eexists _, _. split; [reflexivity|].
    assert (Hc : counted s1 (set_yielded (yielded s1 ++ [Count (v_total_tokens s1)]) s1))
      by (exists []; reflexivity).
    split; [|intros _; eapply counted_after; eassumption].
    eapply grows_trans; [exact Hg01|]. eexists. reflexivity.
Qed.

Lemma for_range_stream_counted (gen_conf : gmap str pyobj) (n : nat) :
  forall st, exists r st',
    for_range n (stream_tool_round gen_conf) st = (r, st')
    /\ grows st st'
    /\ (r = Ok (Some tt) -> counted st st').
Proof.
  induction n as [|n IH]; intros st; cbn [for_range].
  - eexists _, _. split; [reflexivity|]. split; [apply grows_refl | discriminate].
  - destruct (stream_tool_round_counted gen_conf st) as (r & s1 & E & Hg & Hc).
    destruct r as [[[]|] | e].
    + erewrite bind_ok by exact E. eexists _, _. split; [reflexivity|].
      split; [exact Hg | intros _; apply Hc; reflexivity].
    + erewrite bind_ok by exact E.
      destruct (IH s1) as (r2 & s2 & E2 & Hg2 & Hc2).
      exists r2, s2. split; [exact E2|].
      split; [grow|].
      intros Hr. eapply counted_after; [exact Hg | apply Hc2, Hr].
    + erewrite bind_raise by exact E. eexists _, _. split; [reflexivity|].
      split; [exact Hg | discriminate].
Qed.

Lemma for_each_final_grows (chunks : list chunk) :
  forall st, exists r st',
    for_each chunks on_final_chunk st = (r, st') /\ grows st st'.
Proof.
  induction chunks as [|resp chunks IH]; intros st; cbn [for_each].
  - eexists _, _. split; [reflexivity | apply grows_refl].
  - assert (H1 : exists r s1, on_final_chunk resp st = (r, s1) /\ grows st s1).
    { unfold on_final_chunk. destruct (chunk_choices resp) as [|c cs].
      { eexists _, _. split; [reflexivity | apply grows_refl]. }
      destruct (negb (truthy (delta_content (choice_delta c)))).
      - eexists _, _. split; [reflexivity | apply grows_refl].
      - run. eexists _, _. split; [reflexivity|]. eexists. reflexivity. }
    destruct H1 as ([[] | e] & s1 & E & Hg).
    + erewrite bind_ok by exact E.
      destruct (IH s1) as (r & s2 & E2 & Hg2).
      exists r, s2. split; [exact E2 | grow].
    + erewrite bind_raise by exact E. eexists _, _. split; [reflexivity | exact Hg].
Qed.

Lemma stream_tool_rounds_counted (gen_conf : gmap str pyobj) (st : state) :
  exists r st',
    stream_tool_rounds gen_conf st = (r, st')
    /\ grows st st'
    /\ (r = Ok tt -> counted st st').
Proof.
  unfold stream_tool_rounds.
  destruct (for_range_stream_counted gen_conf (max_rounds + 1) st)
    as (r & s1 & E & Hg & Hc).
  destruct r as [[[]|] | e].
  - erewrite bind_ok by exact E. eexists _, _. split; [reflexivity|].
    split; [exact Hg | intros _; apply Hc; reflexivity].
  - erewrite bind_ok by exact E. cbv beta iota.
    erewrite bind_ok by reflexivity.
    destruct (list_append_frame (v_history s1) exceed_message s1)
      as (s2 & E2 & Hf2 & _).
    erewrite bind_ok by exact E2.
    assert (Hg2 : grows st s2).
    { eapply grows_trans; [exact Hg|]. apply grows_same, Hf2. }
    erewrite bind_ok by reflexivity.
    match goal with |- context [create_stream ?r] => set (req := r) end.
    destruct (completions_create_stream (length (requests s2)) req) as [e | response] eqn:Ec.
    { erewrite bind_raise by (unfold create_stream; rewrite Ec; reflexivity).
      eexists _, _. split; [reflexivity|].
      split; [|discriminate]. eapply grows_trans; [exact Hg2|]. apply grows_same. reflexivity. }
    erewrite bind_ok by (unfold create_stream; rewrite Ec; reflexivity).
    set (s3 := set_requests (requests s2 ++ [req]) s2).
    assert (Hg3 : grows st s3).
    { eapply grows_trans; [exact Hg2|]. apply grows_same. reflexivity. }
    destruct (for_each_final_grows (stream_chunks response) s3) as ([[] | e] & s4 & E4 & Hg4).
    2:{ erewrite bind_raise by exact E4. eexists _, _. split; [reflexivity|].
        split; [grow | discriminate]. }
    erewrite bind_ok by exact E4.
    assert (Hg34 : grows st s4) by (grow).
    destruct (stream_end_state response s4) as ([[] | e] & Ee).
    2:{ erewrite bind_raise by exact Ee. eexists _, _. split; [reflexivity|].
        split; [exact Hg34 | discriminate]. }
    erewrite bind_ok by exact Ee.
    destruct (yield_count s4) as (s5 & E5 & Hc5).
    eexists _, s5. split; [exact E5|].
    assert (Hc' : counted st s5) by (eapply counted_after; eassumption).
    split; [|intros _; exact Hc'].
    destruct Hc' as [items Hi]. eexists. exact Hi.
  - erewrite bind_raise by exact E. eexists _, _. split; [reflexivity|].
    split; [exact Hg | discriminate].
Qed.

(** X5. Whatever the provider and the tools do, the generator
    [chat_streamly_with_tools] ends without raising, keeps what was
    yielded before, and the last item it yields is the token count: after
    an answer, after the forced last request, and after an error string
    alike. *)
Theorem chat_streamly_with_tools_counted (system : str) (history : nat)
  (gen_conf : gmap str pyobj) (st : state) :
  exists st' items,
    chat_streamly_with_tools system history gen_conf st = (Ok tt, st')
    /\ yielded st' = yielded st ++ items ++ [Count (v_total_tokens st')].
Proof.
  unfold chat_streamly_with_tools.
  erewrite bind_ok by reflexivity.
  destruct (insert_system_frame system history (set_history history st))
    as (s0 & E0 & _ & _ & Hy0 & _).
  erewrite bind_ok by exact E0.
  erewrite bind_ok by reflexivity. erewrite bind_ok by reflexivity.
  erewrite bind_ok by reflexivity.
  match goal with
  | |- context [stream_tool_attempts _ _ _ ?s] => set (s1 := s)
  end.
  assert (Hy1 : yielded s1 = yielded st) by (subst s1; simpl; exact Hy0).
  replace (max_retries + 1) with (S max_retries) by lia.
  assert (H : forall k a s, a + k = max_retries ->
             exists st',
               stream_tool_attempts history_is_hist (_clean_conf gen_conf) (seq a (S k)) s
               = (Ok tt, st')
               /\ counted s st').
  { induction k as [|k IH]; intros a s Ha; cbn [seq stream_tool_attempts];
      erewrite bind_ok by reflexivity;
      match goal with
      | |- context [bind (try_except (stream_tool_rounds ?c)) _ ?s0] =>
          destruct (stream_tool_rounds_counted c s0) as (r & s2 & E & Hg & Hc)
      end;
      erewrite bind_ok by (apply try_except_eq; exact E);
      (destruct r as [[] | e];
       [eexists; split; [reflexivity|];
        eapply counted_after; [apply grows_same; reflexivity | apply Hc; reflexivity]|]);
      (destruct (_exceptions_cases e a s2) as [[Hre He] | [Hre He]];
       erewrite bind_ok by exact He).
    - replace a with max_retries in Hre by lia. rewrite Nat.eqb_refl in Hre. discriminate.
    - rewrite error_string_truthy. erewrite bind_ok by reflexivity.
      destruct (yield_count (set_yielded (yielded s2 ++ [Text (default [] (Some (error_string
                   (if Nat.eqb a max_retries then ERROR_MAX_RETRIES else _classify_error e) e)))]) s2))
        as (s3 & E3 & Hc3).
      eexists. split; [exact E3|].
      eapply counted_after; [|exact Hc3].
      eapply grows_trans; [apply grows_same; reflexivity|].
      eapply grows_trans; [exact Hg|]. eexists. reflexivity.
    - cbn [truthy].
      destruct (IH (S a) (set_sleeps (S (sleeps s2)) s2)) as (st' & E' & Hc'); [lia|].
      exists st'. split; [exact E'|].
      eapply counted_after; [|exact Hc'].
      eapply grows_trans; [apply grows_same; reflexivity|].
      eapply grows_trans; [exact Hg|]. apply grows_same. reflexivity.
    - rewrite error_string_truthy. erewrite bind_ok by reflexivity.
      destruct (yield_count (set_yielded (yielded s2 ++ [Text (default [] (Some (error_string
                   (if Nat.eqb a max_retries then ERROR_MAX_RETRIES else _classify_error e) e)))]) s2))
        as (s3 & E3 & Hc3).
      eexists. split; [exact E3|].
      eapply counted_after; [|exact Hc3].
      eapply grows_trans; [apply grows_same; reflexivity|].
      eapply grows_trans; [exact Hg|]. eexists. reflexivity. }
  destruct (H max_retries 0 s1 eq_refl) as (st' & E & items & Hi).
  exists st', items. split; [exact E|]. rewrite Hi, Hy1. reflexivity.
Qed.

End StreamingTools.

Section ToolHistory.

Context {lib : Imports} {self : Self}.

Lemma keeps_refl (st : state) : keeps st st.
Proof. split; [apply frame_refl | reflexivity]. Qed.

Lemma keeps_trans (a b c : state) : keeps a b -> keeps b c -> keeps a c.
Proof.
  intros [Hf1 H1] [Hf2 H2]. split; [eapply frame_trans; eassumption|].
  intros l Hl. rewrite H2, H1; [reflexivity | exact Hl |].
  destruct Hf1 as (_ & _ & Hh & _). congruence.
Qed.

(** A state that differs from [st] in neither the list objects nor the
    frame. *)
Lemma keeps_same (st st' : state) :
  heap st' = heap st -> frame st st' -> keeps st st'.
Proof. intros Hh Hf. split; [exact Hf|]. intros l _. now rewrite Hh. Qed.

Lemma list_append_keeps (m : Message) (st : state) :
  exists st', list_append (v_history st) m st = (Ok tt, st')
              /\ keeps st st' /\ requests st' = requests st.
Proof.
  eexists. split; [reflexivity|]. split; [|reflexivity].
  split.
  - unfold frame. simpl. rewrite length_insert. tauto.
  - intros l Hl. simpl. apply list_lookup_insert_ne. congruence.
Qed.

Lemma _append_history_keeps (tc : ToolCall) (res : pyobj) (st : state) :
  exists r st', _append_history (v_history st) tc res st = (r, st')
                /\ keeps st st' /\ requests st' = requests st
                /\ (forall h, r = Ok h -> h = v_history st).
Proof.
  destruct (_append_history_frame (v_history st) tc res st)
    as (r & st' & E & Hf & Hr & _ & _ & Hh).
  exists r, st'. split; [exact E|]. split; [|split; [exact Hr | exact Hh]].
  split; [exact Hf|]. intros l Hl.
  unfold _append_history, dumps in E.
  erewrite bind_ok in E by reflexivity.
  assert (Hstep : forall (o : result str) (s : state) r0 s0,
             heap s !! l = heap st !! l ->
             match o with
             | Ok text =>
                 list_append (v_history st)
                   {| role := Some (u "tool"); content := Some text;
                      tool_calls := None; tool_call_id := tc_id tc |} ;;
                 ret (v_history st)
             | Raise e =>
                 list_append (v_history st)
                   {| role := Some (u "tool"); content := Some (py_str res);
                      tool_calls := None; tool_call_id := tc_id tc |} ;;
                 raise e
             end s = (r0, s0) ->
             heap s0 !! l = heap st !! l).
  { intros o s r0 s0 Hs H. destruct o; run; unfold raise, ret in H;
      injection H as _ <-; simpl; rewrite list_lookup_insert_ne by congruence; exact Hs. }
  match type of E with
  | bind _ _ ?s = _ =>
      assert (H1 : heap s !! l = heap st !! l)
        by (simpl; apply list_lookup_insert_ne; congruence)
  end.
  destruct res; try (erewrite bind_ok in E by reflexivity; eapply Hstep; eassumption).
  destruct (unserializable (PyDict d));
    (erewrite bind_ok in E by reflexivity; eapply Hstep; eassumption).
Qed.

Lemma run_tool_call_keeps (tc : ToolCall) (st : state) :
  exists st', run_tool_call tc st = (Ok tt, st')
              /\ keeps st st' /\ requests st' = requests st.
Proof.
  unfold run_tool_call.
  assert (Hbody : exists r s1,
             (args <- lift (json_repair_loads (tc_arguments tc)) ;;
              tool_response <- session_tool_call (tc_name tc) args ;;
              history <- gets v_history ;;
              history <- _append_history history tc tool_response ;;
              modify (set_history history) ;;
              v <- _verbose_tool_use (tc_name tc) args tool_response ;;
              modify (fun s => set_ans (v_ans s ++ v) s)) st = (r, s1)
             /\ keeps st s1 /\ requests s1 = requests st).
  { destruct (json_repair_loads (tc_arguments tc)) as [e | args].
    { eexists _, _. split; [reflexivity|]. split; [apply keeps_refl | reflexivity]. }
    erewrite bind_ok by reflexivity.
    destruct (session_tool_call_frame (tc_name tc) args st)
      as (r0 & s0 & E0 & Hf0 & Hr0 & _).
    assert (Hk0 : keeps st s0).
    { apply keeps_same; [|exact Hf0]. unfold session_tool_call in E0.
      destruct (toolcall_session (tool_runs st) (tc_name tc) args);
        injection E0 as _ <-; reflexivity. }
    destruct r0 as [tool_response | e].
    2:{ erewrite bind_raise by exact E0. eexists _, _. split; [reflexivity|].
        split; [exact Hk0 | exact Hr0]. }
    erewrite bind_ok by exact E0. erewrite bind_ok by reflexivity.
    destruct (_append_history_keeps tc tool_response s0)
      as (r & s1 & E & Hk & Hr & Hh).
    assert (Hk1 : keeps st s1) by (eapply keeps_trans; eassumption).
    destruct r as [h | e].
    2:{ erewrite bind_raise by exact E. eexists _, _. split; [reflexivity|].
        split; [exact Hk1 | congruence]. }
    erewrite bind_ok by exact E. erewrite bind_ok by reflexivity.
    rewrite (Hh h eq_refl).
    set (s2 := set_history (v_history s0) s1).
    assert (Hk2 : keeps st s2 /\ requests s2 = requests st).
    { split; [|subst s2; simpl; congruence].
      destruct Hk1 as [Hf1 H1]. destruct Hk0 as [(_ & _ & Hh0 & _) _].
      split; [|intros l Hl; subst s2; simpl; apply H1, Hl].
      unfold frame in *. subst s2. simpl. intuition congruence. }
    destruct Hk2 as [Hk2 Hr2].
    destruct (_verbose_tool_use_state (tc_name tc) args tool_response s2) as (r & Ev).
    destruct r as [v | e].
    - erewrite bind_ok by exact Ev. eexists _, _. split; [reflexivity|].
      split; [|exact Hr2].
      eapply keeps_trans; [exact Hk2|]. apply keeps_same; [reflexivity|].
      unfold frame. simpl. tauto.
    - erewrite bind_raise by exact Ev. eexists _, _. split; [reflexivity|].
      split; [exact Hk2 | exact Hr2]. }
  destruct Hbody as (r & s1 & E & Hk & Hr).
  erewrite bind_ok by (apply try_except_eq; exact E).
  destruct r as [[] | e].
  - eexists. split; [reflexivity|]. split; [exact Hk | exact Hr].
  - erewrite bind_ok by reflexivity.
    destruct (list_append_keeps (tool_error_message tc e) s1) as (s2 & E2 & Hk2 & Hr2).
    erewrite bind_ok by exact E2.
    destruct (_verbose_tool_use_error (tc_name tc) (exn_str e) s2) as (v & Ev).
    erewrite bind_ok by exact Ev.
    eexists. split; [reflexivity|]. split; [|simpl; congruence].
    eapply keeps_trans; [exact Hk|]. eapply keeps_trans; [exact Hk2|].
    apply keeps_same; [reflexivity|]. unfold frame. simpl. tauto.
Qed.

Lemma for_each_tool_calls_keeps (tcs : list ToolCall) :
  forall st, exists st',
    for_each tcs run_tool_call st = (Ok tt, st')
    /\ keeps st st' /\ requests st' = requests st.
Proof.
  induction tcs as [|tc tcs IH]; intros st; cbn [for_each].
  - eexists. split; [reflexivity|]. split; [apply keeps_refl | reflexivity].
  - destruct (run_tool_call_keeps tc st) as (s1 & E & Hk & Hr).
    erewrite bind_ok by exact E.
    destruct (IH s1) as (s2 & E2 & Hk2 & Hr2).
    exists s2. split; [exact E2|]. split; [eapply keeps_trans; eassumption | congruence].
Qed.

(** A round sends one request, which carries the entries of the list
    [history] is bound to, and touches no other list. *)
Lemma tool_round_keeps (gen_conf : gmap str pyobj) (st : state) :
  exists r req st',
    tool_round gen_conf st = (r, st')
    /\ keeps st st'
    /\ requests st' = requests st ++ [req]
    /\ r_messages req = default [] (heap st !! v_history st).
Proof.
  unfold tool_round.
  erewrite bind_ok by reflexivity. erewrite bind_ok by reflexivity.
  match goal with |- context [create ?r] => set (req := r) end.
  assert (Hsame : forall s, heap s = heap st -> frame st s -> keeps st s)
    by (intros s; apply keeps_same).
  destruct (completions_create (length (requests st)) req) as [e | resp] eqn:E.
  { erewrite bind_raise by (unfold create; rewrite E; reflexivity).
    eexists _, req, _. split; [reflexivity|].
    split; [apply Hsame; [reflexivity | unfold frame; simpl; tauto]|].
    split; reflexivity. }
  erewrite bind_ok by (apply create_ok; exact E).
  erewrite bind_ok by reflexivity.
  destruct (choices resp) as [|c cs].
  { eexists _, req, _. split; [reflexivity|].
    split; [apply Hsame; [reflexivity | unfold frame; simpl; tauto]|]. split; reflexivity. }
  destruct (choice_message c) as [m|].
  2:{ eexists _, req, _. split; [reflexivity|].
      split; [apply Hsame; [reflexivity | unfold frame; simpl; tauto]|]. split; reflexivity. }
  destruct (msg_tool_calls m) as [|tc tcs].
  - destruct (truthy (msg_reasoning_content m)); destruct (msg_content m);
      destruct (bool_decide (finish_reason c = Some (u "length")));
      eexists _, req, _; (split; [reflexivity|]);
      (split; [apply Hsame; [reflexivity | unfold frame; simpl; tauto]|]); split; reflexivity.
  - match goal with
    | |- context [bind (for_each ?l run_tool_call) _ ?s] =>
        destruct (for_each_tool_calls_keeps l s) as (s2 & E2 & Hk2 & Hr2)
    end.
    erewrite bind_ok by exact E2.
    eexists _, req, _. split; [reflexivity|].
    split; [|split; [exact Hr2 | reflexivity]].
    eapply keeps_trans; [|exact Hk2].
    apply Hsame; [reflexivity | unfold frame; simpl; tauto].
Qed.

Lemma for_range_keeps (gen_conf : gmap str pyobj) (n : nat) :
  forall st, exists r req rest st',
    for_range (S n) (tool_round gen_conf) st = (r, st')
    /\ keeps st st'
    /\ requests st' = requests st ++ req :: rest
    /\ r_messages req = default [] (heap st !! v_history st).
Proof.
  induction n as [|n IH]; intros st; cbn [for_range];
    destruct (tool_round_keeps gen_conf st) as (r & req & s1 & E & Hk & Hr & Hm).
  - destruct r as [[v|] | e].
    + erewrite bind_ok by exact E. eexists _, req, [], _. split; [reflexivity|]. tauto.
    + erewrite bind_ok by exact E. eexists _, req, [], _. split; [reflexivity|]. tauto.
    + erewrite bind_raise by exact E. eexists _, req, [], _. split; [reflexivity|]. tauto.
  - destruct r as [[v|] | e].
    + erewrite bind_ok by exact E. eexists _, req, [], _. split; [reflexivity|]. tauto.
    + erewrite bind_ok by exact E.
      destruct (IH s1) as (r2 & req2 & rest2 & s2 & E2 & Hk2 & Hr2 & _).
      exists r2, req, (req2 :: rest2), s2. cbn [for_range] in E2.
      split; [exact E2|]. split; [eapply keeps_trans; eassumption|].
      split; [|exact Hm]. rewrite Hr2, Hr, <- app_assoc. reflexivity.
    + erewrite bind_raise by exact E. eexists _, req, [], _. split; [reflexivity|]. tauto.
Qed.

Lemma tool_rounds_keeps (gen_conf : gmap str pyobj) (st : state) :
  exists r req rest st',
    tool_rounds gen_conf st = (r, st')
    /\ keeps st st'
    /\ requests st' = requests st ++ req :: rest
    /\ r_messages req = default [] (heap st !! v_history st).
Proof.
  unfold tool_rounds. replace (max_rounds + 1) with (S max_rounds) by lia.
  destruct (for_range_keeps gen_conf max_rounds st)
    as (r & req & rest & s1 & E & Hk & Hr & Hm).
  destruct r as [[v|] | e].
  - erewrite bind_ok by exact E. eexists _, req, rest, _. split; [reflexivity|]. tauto.
  - erewrite bind_ok by exact E. cbv beta iota.
    erewrite bind_ok by reflexivity.
    destruct (list_append_keeps exceed_message s1) as (s2 & E2 & Hk2 & Hr2).
    erewrite bind_ok by exact E2.
    destruct (_chat_effect (v_history s1) gen_conf s2) as (req2 & res & Ec & _).
    assert (Hk02 : keeps st s2) by (eapply keeps_trans; eassumption).
    assert (Hfin : forall s, heap s = heap s2 -> frame s2 s ->
                             requests s = requests s2 ++ [req2] ->
                             keeps st s /\ requests s = requests st ++ req :: rest ++ [req2]).
    { intros s Hh Hf Hrs. split.
      - eapply keeps_trans; [exact Hk02|]. apply keeps_same; assumption.
      - rewrite Hrs, Hr2, Hr, <- app_assoc. reflexivity. }
    destruct res as [p | e].
    + erewrite bind_ok by exact Ec.
      eexists _, req, (rest ++ [req2]), _. split; [reflexivity|].
      destruct (Hfin (set_tk_count (v_tk_count (set_ans (v_ans (set_requests (requests s2 ++ [req2]) s2) ++ p.1) (set_requests (requests s2 ++ [req2]) s2)) + p.2)
                        (set_ans (v_ans (set_requests (requests s2 ++ [req2]) s2) ++ p.1)
                           (set_requests (requests s2 ++ [req2]) s2))))
        as [Hka Hra]; [reflexivity | unfold frame; simpl; tauto | reflexivity |].
      split; [exact Hka|]. split; [exact Hra | exact Hm].
    + erewrite bind_raise by exact Ec.
      eexists _, req, (rest ++ [req2]), _. split; [reflexivity|].
      destruct (Hfin (set_requests (requests s2 ++ [req2]) s2))
        as [Hka Hra]; [reflexivity | unfold frame; simpl; tauto | reflexivity |].
      split; [exact Hka|]. split; [exact Hra | exact Hm].
  - erewrite bind_raise by exact E. eexists _, req, rest, _. split; [reflexivity|]. tauto.
Qed.

(** [_async_chat] sends one request, without tools, which carries the
    entries of the list it is given. *)
Lemma _async_chat_effect (history : nat) (gen_conf : gmap str pyobj) (st : state) :
  exists req res,
    _async_chat history gen_conf st = (res, set_requests (requests st ++ [req]) st)
    /\ r_messages req = default [] (heap st !! history)
    /\ r_tools req = false.
Proof.
  unfold _async_chat. destruct (contains (u "qwq") (lower model_name)).
  - unfold _async_chat_stream, create_stream. run.
    eexists. destruct (completions_create_stream _ _) as [e | s]; simpl.
    + eexists. split; [reflexivity | split; reflexivity].
    + destruct (stream_error s); eexists; (split; [reflexivity | split; reflexivity]).
  - unfold create. run.
    eexists. destruct (completions_create _ _) as [e | resp]; simpl.
    + eexists. split; [reflexivity | split; reflexivity].
    + destruct (choices resp) as [|c cs]; simpl.
      { eexists. split; [reflexivity | split; reflexivity]. }
      destruct (choice_message c) as [m|]; simpl.
      2:{ eexists. split; [reflexivity | split; reflexivity]. }
      destruct (negb (truthy (msg_content m))); eexists;
        (split; [reflexivity | split; reflexivity]).
Qed.

Lemma async_tool_rounds_keeps (gen_conf : gmap str pyobj) (st : state) :
  exists r req rest st',
    async_tool_rounds gen_conf st = (r, st')
    /\ keeps st st'
    /\ requests st' = requests st ++ req :: rest
    /\ r_messages req = default [] (heap st !! v_history st).
Proof.
  unfold async_tool_rounds. replace (max_rounds + 1) with (S max_rounds) by lia.
  destruct (for_range_keeps gen_conf max_rounds st)
    as (r & req & rest & s1 & E & Hk & Hr & Hm).
  destruct r as [[v|] | e].
  - erewrite bind_ok by exact E. eexists _, req, rest, _. split; [reflexivity|]. tauto.
  - erewrite bind_ok by exact E. cbv beta iota.
    erewrite bind_ok by reflexivity.
    destruct (list_append_keeps exceed_message s1) as (s2 & E2 & Hk2 & Hr2).
    erewrite bind_ok by exact E2.
    destruct (_async_chat_effect (v_history s1) gen_conf s2) as (req2 & res & Ec & _).
    assert (Hk02 : keeps st s2) by (eapply keeps_trans; eassumption).
    assert (Hfin : forall s, heap s = heap s2 -> frame s2 s ->
                             requests s = requests s2 ++ [req2] ->
                             keeps st s /\ requests s = requests st ++ req :: rest ++ [req2]).
    { intros s Hh Hf Hrs. split.
      - eapply keeps_trans; [exact Hk02|]. apply keeps_same; assumption.
      - rewrite Hrs, Hr2, Hr, <- app_assoc. reflexivity. }
    destruct res as [p | e].
    + erewrite bind_ok by exact Ec.
      eexists _, req, (rest ++ [req2]), _. split; [reflexivity|].
      destruct (Hfin (set_tk_count (v_tk_count (set_ans (v_ans (set_requests (requests s2 ++ [req2]) s2) ++ p.1) (set_requests (requests s2 ++ [req2]) s2)) + p.2)
                        (set_ans (v_ans (set_requests (requests s2 ++ [req2]) s2) ++ p.1)
                           (set_requests (requests s2 ++ [req2]) s2))))
        as [Hka Hra]; [reflexivity | unfold frame; simpl; tauto | reflexivity |].
      split; [exact Hka|]. split; [exact Hra | exact Hm].
    + erewrite bind_raise by exact Ec.
      eexists _, req, (rest ++ [req2]), _. split; [reflexivity|].
      destruct (Hfin (set_requests (requests s2 ++ [req2]) s2))
        as [Hka Hra]; [reflexivity | unfold frame; simpl; tauto | reflexivity |].
      split; [exact Hka|]. split; [exact Hra | exact Hm].
  - erewrite bind_raise by exact E. eexists _, req, rest, _. split; [reflexivity|]. tauto.
Qed.

(** The retry loop of [async_chat_with_tools]: while [hist] holds
    [original], every attempt starts from [original]. *)
Lemma async_attempts_restart (gen_conf : gmap str pyobj) (history : nat)
  (original : list Message) :
  forall k a s,
    a + k = max_retries ->
    heap s !! v_hist s = Some original ->
    heap s !! history = Some original ->
    exists v st' blocks,
      async_tool_attempts gen_conf (seq a (S k)) s = (Ok v, st')
      /\ requests st' = requests s ++ concat blocks
      /\ sleeps st' + 1 = sleeps s + length blocks
      /\ Forall (starts_from original) blocks
      /\ heap st' !! history = Some original.
Proof.
  induction k as [|k IH]; intros a s Ha Hhist Hcaller; cbn [seq async_tool_attempts];
    (erewrite bind_ok by reflexivity);
    match goal with
    | |- context [bind (try_except (async_tool_rounds ?c)) _ ?s0] => set (s1 := s0)
    end;
    assert (Hlt : v_hist s < length (heap s)) by (eapply lookup_lt_Some, Hhist);
    assert (Hlc : history < length (heap s)) by (eapply lookup_lt_Some, Hcaller);
    assert (H1 : heap s1 !! v_history s1 = Some original
                 /\ heap s1 !! v_hist s1 = Some original
                 /\ heap s1 !! history = Some original
                 /\ v_history s1 = length (heap s)
                 /\ requests s1 = requests s /\ sleeps s1 = sleeps s
                 /\ v_hist s1 = v_hist s)
      by (subst s1; simpl; rewrite Hhist; simpl;
          rewrite lookup_app_r by lia; rewrite Nat.sub_diag;
          rewrite !lookup_app_l by lia; tauto);
    destruct H1 as (Hh1 & Hhist1 & Hcaller1 & Hloc & Hr1 & Hs1 & Hvh1);
    destruct (async_tool_rounds_keeps gen_conf s1)
      as (r & req & rest & s2 & E & [Hf Hother] & Hr & Hm);
    rewrite Hh1 in Hm; simpl in Hm;
    (erewrite bind_ok by (apply try_except_eq; exact E));
    assert (Hblock : starts_from original (req :: rest)) by (exists req, rest; tauto);
    assert (H2 : heap s2 !! v_hist s2 = Some original
                 /\ heap s2 !! history = Some original
                 /\ sleeps s2 = sleeps s)
      by (destruct Hf as (Hsl & _ & _ & Hvh & _);
          rewrite Hvh, !Hother by lia; rewrite Hsl; tauto);
    destruct H2 as (Hhist2 & Hcaller2 & Hs2);
    (destruct r as [v | e];
     [exists v, s2, [req :: rest]; split; [reflexivity|];
      simpl; rewrite app_nil_r; rewrite Hr, Hr1;
      split; [reflexivity|]; split; [lia|]; split; [repeat constructor; exact Hblock|];
      exact Hcaller2 |]);
    (destruct (_exceptions_cases e a s2) as [[Hre He] | [Hre He]];
     erewrite bind_ok by exact He).
  - replace a with max_retries in Hre by lia. rewrite Nat.eqb_refl in Hre. discriminate.
  - rewrite error_string_truthy. erewrite bind_ok by reflexivity.
    eexists _, s2, [req :: rest]. split; [reflexivity|].
    simpl. rewrite app_nil_r. rewrite Hr, Hr1.
    split; [reflexivity|]. split; [lia|]. split; [repeat constructor; exact Hblock|].
    exact Hcaller2.
  - cbn [truthy].
    destruct (IH (S a) (set_sleeps (S (sleeps s2)) s2)) as (v & st' & blocks & E' & Hr' & Hs' & Hall & Hc');
      [lia | exact Hhist2 | exact Hcaller2 |].
    exists v, st', ((req :: rest) :: blocks). split; [exact E'|].
    simpl in Hr', Hs'. simpl.
    split; [rewrite Hr', Hr, Hr1, <- app_assoc; reflexivity|].
    split; [lia|]. split; [constructor; [exact Hblock | exact Hall] | exact Hc'].
  - rewrite error_string_truthy. erewrite bind_ok by reflexivity.
    eexists _, s2, [req :: rest]. split; [reflexivity|].
    simpl. rewrite app_nil_r. rewrite Hr, Hr1.
    split; [reflexivity|]. split; [lia|]. split; [repeat constructor; exact Hblock|].
    exact Hcaller2.
Qed.

(** The statements before the retry loop leave the caller's list with
    the system message in front, and [hist] is a copy of it in a list
    object of its own. *)
Lemma tools_prologue_caller (system : str) (history : nat) (st : state)
  (h : list Message) :
  heap st !! history = Some h ->
  exists st1,
    tools_prologue system history st = (Ok tt, st1)
    /\ requests st1 = requests st /\ sleeps st1 = sleeps st
    /\ heap st1 !! history = Some (with_system system h)
    /\ heap st1 !! v_hist st1 = Some (with_system system h)
    /\ v_hist st1 <> history.
Proof.
  intros H. assert (Hl : history < length (heap st)) by (eapply lookup_lt_Some, H).
  unfold tools_prologue.
  erewrite bind_ok by reflexivity.
  erewrite bind_ok by apply insert_system_cases.
  cbn [heap set_history]. rewrite H. cbn [default from_option id].
  assert (Hgen : forall s0 : state,
             heap s0 !! history = Some (with_system system h) ->
             requests s0 = requests st -> sleeps s0 = sleeps st ->
             exists st1,
               (modify (set_ans []) ;; modify (set_tk_count 0) ;;
                hist <- deepcopy history ;; modify (set_hist hist)) s0 = (Ok tt, st1)
               /\ requests st1 = requests st /\ sleeps st1 = sleeps st
               /\ heap st1 !! history = Some (with_system system h)
               /\ heap st1 !! v_hist st1 = Some (with_system system h)
               /\ v_hist st1 <> history).
  { intros s0 H0 Hr0 Hs0.
    assert (Hl0 : history < length (heap s0)) by (eapply lookup_lt_Some, H0).
    eexists. split; [reflexivity|]. simpl. rewrite H0. simpl.
    rewrite lookup_app_l by exact Hl0.
    rewrite lookup_app_r by lia. rewrite Nat.sub_diag. simpl.
    repeat split; auto. lia. }
  unfold with_system in *.
  destruct system as [|ch system]; [apply Hgen; auto|].
  destruct h as [|m h]; [apply Hgen; auto|].
  destruct (bool_decide (role m = Some (u "system"))); [apply Hgen; auto|].
  apply Hgen; [|reflexivity|reflexivity].
  simpl. apply list_lookup_insert_eq. exact Hl.
Qed.

(** X6. [async_chat_with_tools] restarts every attempt from the caller's
    conversation: the requests it sends fall into one block per attempt,
    as many as sleeps plus one, and the first request of each block
    carries the caller's list with the system message in front and with
    nothing that an earlier attempt appended. The caller's list is left
    the same way, and the method never raises. *)
Theorem async_chat_with_tools_restarts (system : str) (history : nat)
  (gen_conf : gmap str pyobj) (st : state) (h : list Message) :
  heap st !! history = Some h ->
  exists v st' blocks,
    async_chat_with_tools system history gen_conf st = (Ok v, st')
    /\ heap st' !! history = Some (with_system system h)
    /\ requests st' = requests st ++ concat blocks
    /\ sleeps st' + 1 = sleeps st + length blocks
    /\ Forall (starts_from (with_system system h)) blocks.
Proof.
  intros H. unfold async_chat_with_tools.
  destruct (tools_prologue_caller system history st h H)
    as (st1 & E1 & Hr1 & Hs1 & Hc1 & Hh1 & _).
  erewrite bind_ok by exact E1.
  replace (max_retries + 1) with (S max_retries) by lia.
  destruct (async_attempts_restart (_clean_conf gen_conf) history (with_system system h)
              max_retries 0 st1 eq_refl Hh1 Hc1)
    as (v & st' & blocks & E & Hr & Hs & Hall & Hc).
  exists v, st', blocks. split; [exact E|]. split; [exact Hc|].
  split; [rewrite Hr, Hr1; reflexivity|]. split; [lia | exact Hall].
Qed.

Lemma list_append_adds (l : nat) (m : Message) (st : state) (h : list Message) :
  heap st !! l = Some h ->
  exists st', list_append l m st = (Ok tt, st') /\ heap st' !! l = Some (h ++ [m])
              /\ frame st st' /\ requests st' = requests st.
Proof.
  intros H. eexists. split; [reflexivity|]. simpl. rewrite H. simpl.
  split; [apply list_lookup_insert_eq; eapply lookup_lt_Some, H|].
  unfold frame. simpl. rewrite length_insert. tauto.
Qed.

Lemma _append_history_adds (hist : nat) (tc : ToolCall) (res : pyobj) (st : state)
  (h : list Message) :
  heap st !! hist = Some h ->
  exists r st' block,
    _append_history hist tc res st = (r, st')
    /\ heap st' !! hist = Some (h ++ block) /\ answers tc block
    /\ frame st st' /\ (forall h', r = Ok h' -> h' = hist).
Proof.
  intros H.
  assert (Hblock : forall text,
             answers tc [ {| role := Some (u "assistant"); content := None;
                             tool_calls := Some [tc]; tool_call_id := None |};
                          {| role := Some (u "tool"); content := Some text;
                             tool_calls := None; tool_call_id := tc_id tc |} ]).
  { intros text. split.
    - constructor; [left; simpl; tauto|]. constructor; [right; simpl; tauto|]. constructor.
    - eexists. split; [reflexivity|]. simpl. tauto. }
  assert (Hl : hist < length (heap st)) by (eapply lookup_lt_Some, H).
  unfold _append_history, dumps.
  destruct res; try destruct (unserializable (PyDict d)); run; rewrite H; simpl.
  all: rewrite ?list_lookup_insert_eq by exact Hl; simpl.
  all: eexists _, _, _; (split; [reflexivity|]); simpl;
    (split; [rewrite list_lookup_insert_eq by (rewrite length_insert; exact Hl);
             rewrite <- app_assoc; reflexivity|]);
    (split; [apply Hblock|]);
    (split; [unfold frame; simpl; rewrite !length_insert; tauto|]);
    intros l0; congruence.
Qed.

(** One pass of the loop over the tool calls of a response: it does not
    raise, and what it appends to the history ends with a tool entry for
    the call, whether the call succeeded or not. *)
Lemma run_tool_call_answers (tc : ToolCall) (st : state) (h : list Message) :
  heap st !! v_history st = Some h ->
  exists st' block,
    run_tool_call tc st = (Ok tt, st')
    /\ heap st' !! v_history st' = Some (h ++ block) /\ answers tc block
    /\ frame st st' /\ requests st' = requests st.
Proof.
  intros H.
  destruct (run_tool_call_frame tc st) as (st' & E & Hf & Hr & _).
  exists st'.
  assert (Hheap : exists block, heap st' !! v_history st = Some (h ++ block)
                                /\ answers tc block).
  2:{ destruct Hheap as (block & Hb & Ha). exists block.
      pose proof Hf as (_ & _ & Hv & _). rewrite Hv. tauto. }
  clear Hf Hr. revert E. unfold run_tool_call.
  assert (Hbody : exists r s1 pre,
             (args <- lift (json_repair_loads (tc_arguments tc)) ;;
              tool_response <- session_tool_call (tc_name tc) args ;;
              history <- gets v_history ;;
              history <- _append_history history tc tool_response ;;
              modify (set_history history) ;;
              v <- _verbose_tool_use (tc_name tc) args tool_response ;;
              modify (fun s => set_ans (v_ans s ++ v) s)) st = (r, s1)
             /\ heap s1 !! v_history st = Some (h ++ pre)
             /\ v_history s1 = v_history st
             /\ match r with
                | Ok _ => answers tc pre
                | Raise _ => Forall (entry_of tc) pre
                end).
  { destruct (json_repair_loads (tc_arguments tc)) as [e | args].
    { eexists _, _, []. split; [reflexivity|]. rewrite app_nil_r. repeat split; auto. }
    erewrite bind_ok by reflexivity.
    destruct (toolcall_session (tool_runs st) (tc_name tc) args)
      as [e | tool_response] eqn:Es.
    { erewrite bind_raise by (unfold session_tool_call; rewrite Es; reflexivity).
      eexists _, _, []. split; [reflexivity|]. rewrite app_nil_r. repeat split; auto. }
    erewrite bind_ok by (unfold session_tool_call; rewrite Es; reflexivity).
    erewrite bind_ok by reflexivity.
    set (s0 := set_tool_runs (S (tool_runs st)) st).
    change (v_history s0) with (v_history st).
    destruct (_append_history_adds (v_history st) tc tool_response s0 h H)
      as (r & s1 & block & E & Hb & Ha & (_ & _ & Hv & _) & Hl).
    destruct r as [l | e].
    2:{ erewrite bind_raise by exact E. eexists _, _, block. split; [reflexivity|].
        split; [exact Hb|]. split; [exact Hv | apply Ha]. }
    erewrite bind_ok by exact E. erewrite bind_ok by reflexivity.
    rewrite (Hl l eq_refl).
    destruct (_verbose_tool_use_state (tc_name tc) args tool_response
                (set_history (v_history st) s1)) as (r & Ev).
    destruct r as [v | e].
    - erewrite bind_ok by exact Ev. eexists _, _, block. split; [reflexivity|].
      simpl. split; [exact Hb|]. split; [reflexivity | exact Ha].
    - erewrite bind_raise by exact Ev. eexists _, _, block. split; [reflexivity|].
      simpl. split; [exact Hb|]. split; [reflexivity | apply Ha]. }
  destruct Hbody as (r & s1 & pre & Eb & Hb & Hv & Hpre).
  erewrite bind_ok by (apply try_except_eq; exact Eb).
  destruct r as [[] | e].
  - intros E. injection E as <-. exists pre. tauto.
  - erewrite bind_ok by reflexivity. rewrite Hv.
    destruct (list_append_adds (v_history st) (tool_error_message tc e) s1 (h ++ pre) Hb)
      as (s2 & E2 & Hb2 & _).
    erewrite bind_ok by exact E2.
    destruct (_verbose_tool_use_error (tc_name tc) (exn_str e) s2) as (v & Ev).
    erewrite bind_ok by exact Ev.
    intros E. injection E as <-. exists (pre ++ [tool_error_message tc e]).
    simpl. rewrite app_assoc. split; [exact Hb2|]. split.
    + apply Forall_app. split; [exact Hpre|]. constructor; [|constructor].
      right. simpl. tauto.
    + exists (tool_error_message tc e). rewrite last_snoc. simpl. tauto.
Qed.

(** The loop over the tool calls of a response: one block of entries per
    call, in the order of the calls. *)
Lemma for_each_tool_calls_answers (tcs : list ToolCall) :
  forall (st : state) (h : list Message),
    heap st !! v_history st = Some h ->
    exists st' blocks,
      for_each tcs run_tool_call st = (Ok tt, st')
      /\ heap st' !! v_history st' = Some (h ++ concat blocks)
      /\ Forall2 answers tcs blocks
      /\ frame st st' /\ requests st' = requests st.
Proof.
  induction tcs as [|tc tcs IH]; intros st h H; cbn [for_each].
  - exists st, []. split; [reflexivity|]. simpl. rewrite app_nil_r.
    split; [exact H|]. split; [constructor|]. split; [apply frame_refl | reflexivity].
  - destruct (run_tool_call_answers tc st h H) as (s1 & block & E & Hb & Ha & Hf & Hr).
    erewrite bind_ok by exact E.
    destruct (IH s1 (h ++ block) Hb) as (s2 & blocks & E2 & Hb2 & Ha2 & Hf2 & Hr2).
    exists s2, (block :: blocks). split; [exact E2|].
    simpl. rewrite app_assoc. split; [exact Hb2|].
    split; [constructor; assumption|].
    split; [eapply frame_trans; eassumption | congruence].
Qed.

(** A round whose reply carries tool calls: one request with the history
    as it stands, then one block of entries per call. *)
Lemma tool_round_with_calls (gen_conf : gmap str pyobj) (st : state) (hs : list Message)
  (resp : response) (c : choice) (cs : list choice) (m : completion_message)
  (tc : ToolCall) (tcs : list ToolCall) :
  heap st !! v_history st = Some hs ->
  (forall req, completions_create (length (requests st)) req = inr resp) ->
  choices resp = c :: cs -> choice_message c = Some m -> msg_tool_calls m = tc :: tcs ->
  exists first st' blocks,
    tool_round gen_conf st = (Ok None, st')
    /\ requests st' = requests st ++ [first]
    /\ r_messages first = hs /\ r_tools first = true
    /\ heap st' !! v_history st' = Some (hs ++ concat blocks)
    /\ Forall2 answers (tc :: tcs) blocks.
Proof.
  intros H Hresp Hc Hm Htc. unfold tool_round.
  erewrite bind_ok by reflexivity. erewrite bind_ok by reflexivity.
  match goal with |- context [create ?r] => set (req := r) end.
  erewrite bind_ok by (apply create_ok, Hresp).
  erewrite bind_ok by reflexivity.
  rewrite Hc, Hm, Htc.
  match goal with
  | |- context [bind (for_each ?l run_tool_call) _ ?s] =>
      destruct (for_each_tool_calls_answers l s hs H) as (s2 & blocks & E & Hb & Ha & _ & Hr)
  end.
  erewrite bind_ok by exact E.
  exists req, s2, blocks. split; [reflexivity|].
  split; [exact Hr|]. subst req. simpl. rewrite H. simpl. tauto.
Qed.

(** The rounds of one attempt when the first reply carries tool calls: a
    second request follows, and it carries the history, the blocks of the
    calls and, when no round is left, the notice that the rounds are used
    up. *)
Lemma tool_rounds_with_calls (gen_conf : gmap str pyobj) (st : state) (hs : list Message)
  (resp : response) (c : choice) (cs : list choice) (m : completion_message)
  (tc : ToolCall) (tcs : list ToolCall) :
  heap st !! v_history st = Some hs ->
  (forall req, completions_create (length (requests st)) req = inr resp) ->
  choices resp = c :: cs -> choice_message c = Some m -> msg_tool_calls m = tc :: tcs ->
  exists r st' first second rest blocks,
    tool_rounds gen_conf st = (r, st')
    /\ keeps st st'
    /\ requests st' = requests st ++ first :: second :: rest
    /\ r_messages first = hs /\ r_tools first = true
    /\ Forall2 answers (tc :: tcs) blocks
    /\ r_messages second
       = hs ++ concat blocks ++ (if Nat.eqb max_rounds 0 then [exceed_message] else []).
Proof.
  intros H Hresp Hc Hm Htc.
  destruct (tool_rounds_keeps gen_conf st) as (r & req0 & rest0 & st' & E & Hk & _).
  exists r, st'.
  destruct (tool_round_with_calls gen_conf st hs resp c cs m tc tcs H Hresp Hc Hm Htc)
    as (first & s1 & blocks & E1 & Hr1 & Hm1 & Ht1 & Hb1 & Ha1).
  assert (Hreq : exists second rest,
             requests st' = requests st ++ first :: second :: rest
             /\ r_messages second
                = hs ++ concat blocks
                  ++ (if Nat.eqb max_rounds 0 then [exceed_message] else [])).
  2:{ destruct Hreq as (second & rest & Hr & Hs). exists first, second, rest, blocks.
      split; [exact E|]. tauto. }
  clear Hk. revert E. unfold tool_rounds.
  replace (max_rounds + 1) with (S max_rounds) by lia.
  assert (Hrest : exists r2 s2 sent,
             for_range (S max_rounds) (tool_round gen_conf) st = (r2, s2)
             /\ requests s2 = requests s1 ++ sent
             /\ match sent with
                | [] => max_rounds = 0 /\ r2 = Ok None /\ s2 = s1
                | second :: _ => max_rounds <> 0 /\ r_messages second = hs ++ concat blocks
                end).
  { cbn [for_range]. erewrite bind_ok by exact E1. cbv beta iota.
    destruct max_rounds as [|n].
    - exists (Ok None), s1, []. rewrite app_nil_r. tauto.
    - destruct (for_range_keeps gen_conf n s1)
        as (r2 & second & rest & s2 & E2 & _ & Hr2 & Hm2).
      rewrite Hb1 in Hm2. exists r2, s2, (second :: rest). split; [exact E2|].
      split; [exact Hr2|]. split; [discriminate | exact Hm2]. }
  destruct Hrest as (r2 & s2 & sent & E2 & Hr2 & Hsent).
  assert (Hsecond : forall more req,
             (sent = [] -> r_messages req = (hs ++ concat blocks) ++ [exceed_message]) ->
             (r2 = Ok None -> more = [req]) ->
             exists second rest,
               requests s2 ++ more = requests st ++ first :: second :: rest
               /\ r_messages second
                  = hs ++ concat blocks
                    ++ (if Nat.eqb max_rounds 0 then [exceed_message] else [])).
  { intros more req Hm2 Hnone. rewrite Hr2, Hr1, <- !app_assoc. simpl.
    destruct sent as [|second rest].
    - destruct Hsent as (-> & -> & ->). rewrite (Hnone eq_refl).
      exists req, []. split; [reflexivity|]. rewrite (Hm2 eq_refl).
      rewrite <- app_assoc. reflexivity.
    - destruct Hsent as (Hn & Hs). exists second, (rest ++ more). split; [reflexivity|].
      rewrite Hs. destruct max_rounds; [congruence|]. simpl. rewrite app_nil_r.
      reflexivity. }
  destruct r2 as [[v|] | e].
  - erewrite bind_ok by exact E2. intros E. injection E as _ <-.
    destruct sent as [|second rest]; [destruct Hsent as (_ & ? & _); discriminate|].
    destruct Hsent as (Hn & Hs). exists second, rest.
    split; [rewrite Hr2, Hr1, <- app_assoc; reflexivity|].
    rewrite Hs. destruct max_rounds; [congruence|]. simpl. rewrite app_nil_r. reflexivity.
  - erewrite bind_ok by exact E2. cbv beta iota.
    erewrite bind_ok by reflexivity.
    destruct (list_append_keeps exceed_message s2) as (s3 & E3 & _ & Hr3).
    erewrite bind_ok by exact E3.
    destruct (_chat_effect (v_history s2) gen_conf s3) as (req3 & res & Ec & Hm3 & _).
    destruct (Hsecond [req3] req3) as (second & rest & Hrq & Hms); [|reflexivity|].
    { intros ->. destruct Hsent as (_ & _ & ->).
      destruct (list_append_adds (v_history s1) exceed_message s1 _ Hb1)
        as (s3' & E3' & Hb3 & _).
      rewrite E3 in E3'. injection E3' as <-. rewrite Hm3, Hb3. reflexivity. }
    rewrite <- Hr3 in Hrq.
    destruct res as [p | e].
    + erewrite bind_ok by exact Ec. intros E. injection E as _ <-.
      exists second, rest. simpl. split; [exact Hrq | exact Hms].
    + erewrite bind_raise by exact Ec. intros E. injection E as _ <-.
      exists second, rest. simpl. split; [exact Hrq | exact Hms].
  - erewrite bind_raise by exact E2. intros E. injection E as _ <-.
    destruct sent as [|second rest]; [destruct Hsent as (_ & ? & _); discriminate|].
    destruct Hsent as (Hn & Hs). exists second, rest.
    split; [rewrite Hr2, Hr1, <- app_assoc; reflexivity|].
    rewrite Hs. destruct max_rounds; [congruence|]. simpl. rewrite app_nil_r. reflexivity.
Qed.

(** The retry loop of [chat_with_tools] only adds requests, and it leaves
    every list object other than the copy it works on as it was. *)
Lemma sync_attempts_effect (gen_conf : gmap str pyobj) (history : nat)
  (attempts : list nat) :
  forall s, v_hist s <> history ->
    exists r st' more,
      tool_attempts history_is_hist gen_conf attempts s = (r, st')
      /\ requests st' = requests s ++ more
      /\ heap st' !! history = heap s !! history.
Proof.
  induction attempts as [|a attempts IH]; intros s Hne; cbn [tool_attempts].
  - eexists _, _, []. split; [reflexivity|]. rewrite app_nil_r. tauto.
  - erewrite bind_ok by reflexivity.
    match goal with
    | |- context [bind (try_except (tool_rounds ?c)) _ ?s0] =>
        destruct (tool_rounds_keeps c s0)
          as (r & req & rest & s2 & E & [Hf Hother] & Hr & _)
    end.
    erewrite bind_ok by (apply try_except_eq; exact E).
    simpl in Hr, Hother. specialize (Hother history ltac:(congruence)). simpl in Hother.
    destruct r as [v | e].
    { eexists _, _, _. split; [reflexivity|]. split; [exact Hr | exact Hother]. }
    destruct (_exceptions_cases e a s2) as [[_ He] | [_ He]];
      erewrite bind_ok by exact He.
    + cbn [truthy].
      destruct (IH (set_sleeps (S (sleeps s2)) s2)) as (r & st' & more & E' & Hr' & Hh').
      { simpl. destruct Hf as (_ & _ & _ & Hvh & _). simpl in Hvh. congruence. }
      exists r, st', (req :: rest ++ more). split; [exact E'|].
      simpl in Hr', Hh'. split; [|congruence].
      rewrite Hr', Hr, <- app_assoc. reflexivity.
    + rewrite error_string_truthy. erewrite bind_ok by reflexivity.
      eexists _, _, _. split; [reflexivity|]. split; [exact Hr | exact Hother].
Qed.

(** X7. When the first reply to [chat_with_tools] carries tool calls, the
    next request carries the conversation followed by one block of entries
    per call, in the order of the calls. Every block ends with a tool
    entry that answers its call, also when the arguments could not be
    parsed or the tool failed. When [max_rounds] is zero the notice that
    the rounds are used up follows the blocks. *)
Theorem chat_with_tools_feeds_results (system : str) (history : nat)
  (gen_conf : gmap str pyobj) (st : state) (h : list Message)
  (resp : response) (c : choice) (cs : list choice) (m : completion_message)
  (tc : ToolCall) (tcs : list ToolCall) :
  heap st !! history = Some h ->
  (forall req, completions_create (length (requests st)) req = inr resp) ->
  choices resp = c :: cs -> choice_message c = Some m -> msg_tool_calls m = tc :: tcs ->
  exists v st' first second rest blocks,
    chat_with_tools system history gen_conf st = (Ok v, st')
    /\ requests st' = requests st ++ first :: second :: rest
    /\ r_messages first = with_system system h /\ r_tools first = true
    /\ Forall2 answers (tc :: tcs) blocks
    /\ r_messages second
       = with_system system h ++ concat blocks
         ++ (if Nat.eqb max_rounds 0 then [exceed_message] else []).
Proof.
  intros H Hresp Hc Hm Htc.
  destruct (chat_with_tools_returns system history gen_conf st) as (v & st' & E & _).
  exists v, st'.
  assert (Hgoal : exists first second rest blocks,
             requests st' = requests st ++ first :: second :: rest
             /\ r_messages first = with_system system h /\ r_tools first = true
             /\ Forall2 answers (tc :: tcs) blocks
             /\ r_messages second
                = with_system system h ++ concat blocks
                  ++ (if Nat.eqb max_rounds 0 then [exceed_message] else []));
    [|destruct Hgoal as (first & second & rest & blocks & Hg);
      exists first, second, rest, blocks; tauto].
  revert E. unfold chat_with_tools.
  destruct (tools_prologue_caller system history st h H)
    as (st1 & E1 & Hr1 & _ & _ & Hh1 & Hne).
  erewrite bind_ok by exact E1.
  replace (max_retries + 1) with (S max_retries) by lia. cbn [seq tool_attempts].
  erewrite bind_ok by reflexivity.
  match goal with
  | |- context [bind (try_except (tool_rounds ?conf)) _ ?s0] =>
      destruct (tool_rounds_with_calls conf s0 (with_system system h) resp c cs m tc tcs)
        as (r & s2 & first & second & rest & blocks & E2 & [Hf _] & Hr2 & Hm1 & Ht1 & Ha & Hm2)
  end; try assumption.
  { simpl. rewrite Hr1. exact Hresp. }
  erewrite bind_ok by (apply try_except_eq; exact E2).
  simpl in Hr2. rewrite Hr1 in Hr2.
  destruct r as [v2 | e].
  { intros E. injection E as _ <-. exists first, second, rest, blocks. tauto. }
  destruct (_exceptions_cases e 0 s2) as [[_ He] | [_ He]];
    erewrite bind_ok by exact He.
  - cbn [truthy].
    destruct (sync_attempts_effect (_clean_conf gen_conf) history (seq 1 max_retries)
                (set_sleeps (S (sleeps s2)) s2)) as (r & s3 & more & E3 & Hr3 & _).
    { simpl. destruct Hf as (_ & _ & _ & Hvh & _). simpl in Hvh. congruence. }
    rewrite E3. intros E. injection E as _ <-.
    exists first, second, (rest ++ more), blocks.
    simpl in Hr3.
    split; [rewrite Hr3, Hr2, <- app_assoc; reflexivity|]. tauto.
  - rewrite error_string_truthy. erewrite bind_ok by reflexivity.
    intros E. injection E as _ <-. exists first, second, rest, blocks. tauto.
Qed.

(** X8. [chat_with_tools] works on a copy: whatever the provider and the
    tools do, the caller's list is afterwards what it was, with the system
    message put in front when the method's first statement does so. The
    entries of the tool exchange are not written to it. *)
Theorem chat_with_tools_caller_history (system : str) (history : nat)
  (gen_conf : gmap str pyobj) (st : state) (h : list Message) :
  heap st !! history = Some h ->
  exists v st',
    chat_with_tools system history gen_conf st = (Ok v, st')
    /\ heap st' !! history = Some (with_system system h).
Proof.
  intros H.
  destruct (chat_with_tools_returns system history gen_conf st) as (v & st' & E & _).
  exists v, st'. split; [exact E|]. revert E. unfold chat_with_tools.
  destruct (tools_prologue_caller system history st h H)
    as (st1 & E1 & _ & _ & Hc1 & _ & Hne).
  erewrite bind_ok by exact E1.
  destruct (sync_attempts_effect (_clean_conf gen_conf) history (seq 0 (max_retries + 1))
              st1 Hne) as (r & s2 & more & E2 & _ & Hh).
  rewrite E2. intros E. injection E as _ <-. rewrite Hh. exact Hc1.
Qed.

End ToolHistory.

(** X6, an instance: the provider asks for a tool, fails the second
    request, and answers the third. *)
Lemma async_chat_with_tools_restarts_witness :
  let h := [user_says (u "Hi")] in
  exists v st' blocks,
    @async_chat_with_tools ascii_lib flaky (u "Be brief.") 0 ∅ (initial hi) = (Ok v, st')
    /\ heap st' !! 0 = Some (with_system (u "Be brief.") h)
    /\ requests st' = requests (initial hi) ++ concat blocks
    /\ sleeps st' + 1 = sleeps (initial hi) + length blocks
    /\ Forall (starts_from (with_system (u "Be brief.") h)) blocks.
Proof.
  intros h.
  apply (@async_chat_with_tools_restarts ascii_lib flaky (u "Be brief.") 0 ∅ (initial hi) h).
  reflexivity.
Defined.

(** X7, an instance: the first reply asks for the tool [search]. *)
Lemma chat_with_tools_feeds_results_witness :
  let h := [user_says (u "Hi")] in
  exists v st' first second rest blocks,
    @chat_with_tools ascii_lib flaky (u "Be brief.") 0 ∅ (initial hi) = (Ok v, st')
    /\ requests st' = requests (initial hi) ++ first :: second :: rest
    /\ r_messages first = with_system (u "Be brief.") h /\ r_tools first = true
    /\ Forall2 answers [call_search] blocks
    /\ r_messages second
       = with_system (u "Be brief.") h ++ concat blocks
         ++ (if Nat.eqb (@max_rounds flaky) 0 then [@exceed_message flaky] else []).
Proof.
  intros h.
  eapply (@chat_with_tools_feeds_results ascii_lib flaky (u "Be brief.") 0 ∅ (initial hi) h
            asks_tool).
  - reflexivity.
  - intros req. reflexivity.
  - reflexivity.
  - reflexivity.
  - reflexivity.
Defined.

(** X8, an instance: after a tool round and a retry the caller's list
    holds the system message and the user's entry, nothing else. *)
Lemma chat_with_tools_caller_history_witness :
  exists v st',
    @chat_with_tools ascii_lib flaky (u "Be brief.") 0 ∅ (initial hi) = (Ok v, st')
    /\ heap st' !! 0 = Some (with_system (u "Be brief.") [user_says (u "Hi")]).
Proof.
  apply (@chat_with_tools_caller_history ascii_lib flaky (u "Be brief.") 0 ∅ (initial hi)).
  reflexivity.
Defined.

Section ReasoningModel.

Context {lib : Imports} {self : Self}.

Lemma fold_kept (items : list (str * Z)) :
  forall acc : str * Z,
    fold_left
      (fun (acc : str * Z) (it : str * Z) =>
         if startswith (u "<think>") (fst it) || endswith (u "</think>") (fst it)
         then acc else (fst acc ++ fst it, snd it))
      items acc
    = (fst acc ++ concat (map fst (kept items)),
       default (snd acc) (last (map snd (kept items)))).
Proof.
  induction items as [|it items IH]; intros [a t].
  - simpl. now rewrite app_nil_r.
  - cbn [fold_left fst snd]. rewrite IH. unfold kept. cbn [List.filter]. unfold thinking.
    destruct (startswith (u "<think>") (fst it) || endswith (u "</think>") (fst it));
      cbn [negb fst snd map concat].
    + reflexivity.
    + rewrite <- app_assoc. f_equal.
      destruct (map snd (List.filter _ items)) as [|x l] eqn:E; [reflexivity|].
      rewrite last_cons_cons. destruct (last (x :: l)) eqn:El; [reflexivity|].
      apply last_None in El. discriminate.
Qed.

(** X9. For a model whose name contains "qwq", [_chat] streams the reply
    and keeps the deltas that neither start with [<think>] nor end with
    [</think>]. It returns their texts joined and stripped, and when that
    is empty the text [**ERROR**: Empty response from reasoning model]
    instead, never the empty string. The token count it returns is the
    count of the last delta it kept, zero when it kept none; it is not a
    sum. *)
Theorem chat_reasoning_model (history : nat) (gen_conf : gmap str pyobj) (st : state)
  (s : stream) :
  occurs (u "qwq") (lower model_name) ->
  (forall req, completions_create_stream (length (requests st)) req = inr s) ->
  stream_error s = None ->
  let deltas := kept (stream_items false false (stream_chunks s)) in
  let text := strip (concat (map fst deltas)) in
  let ans := if Nat.eqb (length text) 0
             then u "**ERROR**: Empty response from reasoning model" else text in
  exists req,
    _chat history gen_conf st
    = (Ok (ans, default 0%Z (last (map snd deltas))),
       set_requests (requests st ++ [req]) st)
    /\ r_stream req = true
    /\ ans <> [].
Proof.
  intros Hq Hs Hend deltas text ans. unfold _chat.
  apply contains_spec in Hq. rewrite Hq.
  unfold _chat_streamly, create_stream. run.
  eexists. rewrite Hs. cbn [fst snd]. rewrite Hend, fold_kept. cbn [fst snd app].
  fold deltas. fold text.
  split; [|split].
  - subst ans. destruct (Nat.eqb (length text) 0) eqn:E; reflexivity.
  - reflexivity.
  - subst ans. destruct (Nat.eqb (length text) 0) eqn:E.
    + vm_compute. discriminate.
    + intros H. rewrite H in E. discriminate.
Qed.

End ReasoningModel.

Section SystemPrompt.

Context {lib : Imports} {self : Self}.

(** X10. With an empty history or an empty [system], [chat] leaves the
    caller's list as it is and sends it as it is: a system prompt that
    comes with an empty history is not sent to the provider at all. *)
Theorem chat_system_dropped (system : str) (history : nat) (gen_conf : gmap str pyobj)
  (st : state) (h : list Message) :
  heap st !! history = Some h ->
  system = [] \/ h = [] ->
  exists v st',
    chat system history gen_conf st = (Ok v, st')
    /\ heap st' !! history = Some h
    /\ sent_with h st st'
    /\ length (requests st) < length (requests st').
Proof.
  intros Hh Hcase. unfold chat.
  erewrite bind_ok by apply insert_system_cases.
  rewrite Hh. cbn [default from_option id].
  assert (Hsame : match system with
                  | [] => st
                  | _ :: _ =>
                      match h with
                      | [] => st
                      | m :: _ =>
                          if bool_decide (role m = Some (u "system")) then st
                          else set_heap (<[history:=system_says system :: h]> (heap st)) st
                      end
                  end = st).
  { destruct Hcase as [-> | ->]; [reflexivity|]. destruct system; reflexivity. }
  rewrite Hsame.
  replace (max_retries + 1) with (S max_retries) by lia.
  destruct (chat_attempts_returns history (_clean_conf gen_conf) max_retries 0 st eq_refl)
    as (v & st' & E & _).
  exists v, st'. split; [exact E|].
  destruct (chat_attempts_frame history (_clean_conf gen_conf) _ _ _ _ E) as [Hheap Hsent].
  rewrite Hh in Hsent. rewrite Hheap. split; [exact Hh|]. split; [exact Hsent|].
  cbn [seq] in E. rewrite chat_attempts_cons in E.
  destruct (_chat_effect history (_clean_conf gen_conf) st) as (req & res & Ec & _).
  rewrite Ec in E.
  assert (Hmono : forall attempts s r s',
             chat_attempts history (_clean_conf gen_conf) attempts s = (r, s') ->
             length (requests s) <= length (requests s')).
  { intros attempts s r s' Ha.
    destruct (chat_attempts_frame history (_clean_conf gen_conf) _ _ _ _ Ha)
      as [_ (new & Hn & _)].
    rewrite Hn, length_app. lia. }
  destruct res as [p | e].
  - injection E as _ <-. simpl. rewrite length_app. simpl. lia.
  - destruct (_exceptions_cases e 0 (set_requests (requests st ++ [req]) st))
      as [[_ He] | [_ He]]; rewrite He in E.
    + cbn [truthy] in E. apply Hmono in E. simpl in E. rewrite length_app in E.
      simpl in E. lia.
    + rewrite error_string_truthy in E. injection E as _ <-. simpl.
      rewrite length_app. simpl. lia.
Qed.

End SystemPrompt.

(** X10, an instance: a system prompt with an empty history. *)
Lemma chat_system_dropped_witness :
  exists v st',
    @chat ascii_lib silent (u "You are helpful.") 0 ∅ (initial [[]]) = (Ok v, st')
    /\ heap st' !! 0 = Some []
    /\ sent_with [] (initial [[]]) st'
    /\ length (requests (initial [[]])) < length (requests st').
Proof.
  apply (@chat_system_dropped ascii_lib silent (u "You are helpful.") 0 ∅ (initial [[]]) []).
  - reflexivity.
  - right. reflexivity.
Defined.

(** X9, an instance: the stream of a reasoning model that delivers
    nothing. *)
Lemma chat_reasoning_model_witness :
  exists req,
    @_chat ascii_lib silent_qwq 0 ∅ (initial hi)
    = (Ok (u "**ERROR**: Empty response from reasoning model", 0%Z),
       set_requests (requests (initial hi) ++ [req]) (initial hi))
    /\ r_stream req = true
    /\ u "**ERROR**: Empty response from reasoning model" <> [].
Proof.
  apply (@chat_reasoning_model ascii_lib silent_qwq 0 ∅ (initial hi)
           {| stream_chunks := [a_chunk []]; stream_error := None |}).
  - apply contains_spec. vm_compute. reflexivity.
  - intros req. reflexivity.
  - reflexivity.
Defined.

Section AsyncStreamly.

Context {lib : Imports} {self : Self}.

(** The loop of [async_chat_streamly] over the pairs of the stream. *)
Lemma for_each_async_yields (items : list (str * Z)) :
  forall st,
    for_each items (fun it =>
        modify (set_ans (fst it)) ;;
        modify (fun s => set_total_tokens (v_total_tokens s + snd it) s) ;;
        yield (Text (fst it))) st
    = (Ok tt,
       set_yielded (yielded st ++ map (fun it : str * Z => Text (fst it)) items)
         (set_total_tokens (v_total_tokens st + sum_tols items)
            (set_ans (default (v_ans st) (last (map fst items))) st))).
Proof.
  induction items as [|it items IH]; intros st.
  - destruct st as [hp rq tr yl sl vh vhi va vt vtt]. unfold ret, set_total_tokens, set_yielded, set_ans, sum_tols. simpl.
    rewrite app_nil_r, Z.add_0_r. reflexivity.
  - cbn [for_each]. erewrite bind_ok by reflexivity. rewrite IH.
    destruct st as [hp rq tr yl sl vh vhi va vt vtt]. unfold set_total_tokens, set_yielded, set_ans, sum_tols. simpl.
    rewrite <- app_assoc. simpl. rewrite Z.add_assoc.
    replace (default va (last (fst it :: map fst items)))
      with (default (fst it) (last (map fst items))); [reflexivity|].
    destruct (map fst items) as [|x l] eqn:E; [reflexivity|].
    rewrite last_cons_cons. destruct (last (x :: l)) eqn:El; [reflexivity|].
    apply last_None in El. discriminate.
Qed.

(** X11. [async_chat_streamly] sends one request, in which an option
    [stop] of [gen_conf] is not repeated as a keyword. It yields the texts
    of the stream and, when the stream is not broken off, ends with the
    sum of their token counts. After an API error of the provider it
    yields one more text, the last text of the stream once again followed
    by a newline, [**ERROR**: ] and the message of the error, and then the
    sum; any other exception leaves the generator as a raised
    exception. *)
Theorem async_chat_streamly_outcome (system : str) (history : nat)
  (gen_conf : gmap str pyobj) (st : state) :
  exists req,
    let out := async_chat_streamly system history gen_conf st in
    requests (snd out) = requests st ++ [req]
    /\ r_stop req = false /\ r_conf req = _clean_conf gen_conf
    /\ match completions_create_stream (length (requests st)) req with
       | inl e => async_streamly_outcome st [] (Some e) out
       | inr s =>
           async_streamly_outcome st (stream_items true false (stream_chunks s))
             (stream_error s) out
       end.
Proof.
  unfold async_chat_streamly.
  erewrite bind_ok by apply insert_system_cases.
  set (st0 := match system with
              | [] => st
              | _ :: _ => _
              end).
  assert (Hreq : requests st0 = requests st /\ yielded st0 = yielded st).
  { subst st0. destruct system as [|c system]; [split; reflexivity|].
    destruct (default [] (heap st !! history)) as [|m h]; [split; reflexivity|].
    destruct (bool_decide (role m = Some (u "system"))); split; reflexivity. }
  destruct Hreq as [Hreq Hy].
  erewrite bind_ok by reflexivity. erewrite bind_ok by reflexivity.
  set (s1 := set_total_tokens 0 (set_ans [] st0)).
  set (req := {| r_messages := default [] (heap s1 !! history);
                 r_stream := true; r_tools := false; r_stop := false;
                 r_extra_body := false; r_conf := _clean_conf gen_conf |}).
  exists req. cbv zeta.
  set (st1 := set_requests (requests st ++ [req]) s1).
  assert (Hcs : _async_chat_stream history (_clean_conf gen_conf) true s1
                = match completions_create_stream (length (requests st)) req with
                  | inl e => (Raise e, st1)
                  | inr s => (Ok (stream_items true false (stream_chunks s), stream_error s),
                              st1)
                  end).
  { unfold _async_chat_stream. erewrite bind_ok by reflexivity.
    unfold bind, create_stream.
    change (requests s1) with (requests st0). rewrite Hreq.
    fold req. subst st1.
    destruct (completions_create_stream (length (requests st)) req); reflexivity. }
  destruct (completions_create_stream (length (requests st)) req) as [e | s].
  + erewrite bind_ok
      by (apply try_except_eq; erewrite bind_raise by exact Hcs; reflexivity).
    unfold async_streamly_outcome. subst st1 s1. cbv beta iota.
    destruct (exn_api e); run; rewrite Hy; (split; [reflexivity|]);
      (split; [reflexivity|]); (split; [reflexivity|]);
      (split; [reflexivity | rewrite ?app_nil_r, <- ?app_assoc; reflexivity]).
  + unfold async_streamly_outcome. destruct (stream_error s) as [e|].
    * erewrite bind_ok
        by (apply try_except_eq; erewrite bind_ok by exact Hcs; cbn [fst snd];
            erewrite bind_ok by apply for_each_async_yields; reflexivity).
      subst st1 s1. cbv beta iota.
      destruct (exn_api e); run; rewrite Hy; (split; [reflexivity|]);
        (split; [reflexivity|]); (split; [reflexivity|]);
        (split; [reflexivity | rewrite ?app_nil_r, <- ?app_assoc; reflexivity]).
    * erewrite bind_ok
        by (apply try_except_eq; erewrite bind_ok by exact Hcs; cbn [fst snd];
            erewrite bind_ok by apply for_each_async_yields; reflexivity).
      subst st1 s1. run. rewrite Hy. split; [reflexivity|].
      split; [reflexivity|]. split; [reflexivity|].
      split; [reflexivity|]. rewrite <- !app_assoc. reflexivity.
Qed.

End AsyncStreamly.

Section WrapToolCalls.

Lemma wrapped_snoc (index : Z) (frs : list ToolCall) (tc : ToolCall) :
  wrapped index (frs ++ [tc]) =
  if Z.eqb (tc_index tc) index then
    match wrapped index frs with
    | None => Some (with_arguments tc (Some (fragment_text tc ++ fragment_text tc)))
    | Some a => Some (with_arguments a (Some (fragment_text a ++ fragment_text tc)))
    end
  else wrapped index frs.
Proof.
  unfold wrapped. rewrite filter_app, filter_cons, filter_nil.
  destruct (Z.eqb_spec (tc_index tc) index) as [He | Hne].
  - rewrite decide_True by exact He.
    destruct (filter (fun f => tc_index f = index) frs) as [|f fs]; simpl.
    + unfold with_arguments. now rewrite app_nil_r.
    + unfold with_arguments, fragment_text at 4. simpl.
      rewrite map_app, concat_app. simpl. now rewrite app_nil_r, !app_assoc.
  - rewrite decide_False by exact Hne. now rewrite app_nil_r.
Qed.

Lemma wrapped_arguments (index : Z) (frs : list ToolCall) (a : ToolCall) :
  wrapped index frs = Some a -> tc_arguments a = Some (fragment_text a).
Proof.
  unfold wrapped. destruct (filter _ frs); [discriminate|].
  intros H. injection H as <-. reflexivity.
Qed.

(** One fragment: it is taken in when it has arguments, and it raises
    [TypeError] when it has none. *)
Lemma wrap_fragment_spec (d : list (Z * ToolCall)) (frs : list ToolCall) (tc : ToolCall) :
  (forall i, dict_get i d = wrapped i frs) ->
  match wrap_fragment d tc with
  | inr d' => is_Some (tc_arguments tc) /\ forall i, dict_get i d' = wrapped i (frs ++ [tc])
  | inl _ => tc_arguments tc = None
  end.
Proof.
  intros H. unfold wrap_fragment.
  destruct (dict_get (tc_index tc) d) as [stored|] eqn:E.
  - rewrite H in E. rewrite (wrapped_arguments _ _ _ E).
    destruct (tc_arguments tc) as [b|] eqn:Eb; simpl; [|reflexivity].
    split; [eauto|]. intros i. rewrite dict_get_update, wrapped_snoc.
    destruct (Z.eqb_spec (tc_index tc) i) as [<- | Hne]; [|apply H].
    rewrite H, E. simpl. unfold fragment_text at 3. rewrite Eb. reflexivity.
  - destruct (tc_arguments tc) as [b|] eqn:Eb; simpl; [|reflexivity].
    split; [eauto|]. intros i. rewrite dict_get_update, wrapped_snoc.
    rewrite dict_get_app by exact E.
    destruct (Z.eqb_spec (tc_index tc) i) as [<- | Hne]; [|apply H].
    rewrite <- H, E. simpl. unfold fragment_text. rewrite Eb. reflexivity.
Qed.

Lemma wrap_fragments_spec (tcs : list ToolCall) :
  forall (d : list (Z * ToolCall)) (frs : list ToolCall),
    (forall i, dict_get i d = wrapped i frs) ->
    match wrap_fragments d tcs with
    | inr d' => Forall (fun f => is_Some (tc_arguments f)) tcs
                /\ forall i, dict_get i d' = wrapped i (frs ++ tcs)
    | inl _ => Exists (fun f => tc_arguments f = None) tcs
    end.
Proof.
  induction tcs as [|tc tcs IH]; intros d frs H; cbn [wrap_fragments].
  - rewrite app_nil_r. split; [constructor | exact H].
  - pose proof (wrap_fragment_spec d frs tc H) as Hf.
    destruct (wrap_fragment d tc) as [e | d1]; [left; exact Hf|].
    destruct Hf as [Hs H1]. specialize (IH d1 (frs ++ [tc]) H1).
    destruct (wrap_fragments d1 tcs) as [e | d2]; [right; exact IH|].
    destruct IH as [Hall H2]. split; [constructor; assumption|].
    intros i. rewrite H2, <- app_assoc. reflexivity.
Qed.

Lemma wrap_chunks_spec (chunks : list chunk) :
  forall (d : list (Z * ToolCall)) (frs : list ToolCall),
    (forall i, dict_get i d = wrapped i frs) ->
    match wrap_chunks d chunks with
    | inr d' => Forall (fun ch => chunk_choices ch <> []) chunks
                /\ Forall (fun f => is_Some (tc_arguments f)) (fragments chunks)
                /\ forall i, dict_get i d' = wrapped i (frs ++ fragments chunks)
    | inl _ => Exists (fun ch => chunk_choices ch = []) chunks
               \/ Exists (fun f => tc_arguments f = None) (fragments chunks)
    end.
Proof.
  induction chunks as [|ch chunks IH]; intros d frs H; cbn [wrap_chunks].
  - unfold fragments. simpl. rewrite app_nil_r.
    split; [constructor|]. split; [constructor | exact H].
  - unfold fragments. cbn [flat_map]. fold (fragments chunks).
    unfold chunk_fragments at 1 2 3.
    destruct (chunk_choices ch) as [|c cs] eqn:Ec.
    { left. left. exact Ec. }
    pose proof (wrap_fragments_spec (delta_tool_calls (choice_delta c)) d frs H) as Hf.
    destruct (wrap_fragments d (delta_tool_calls (choice_delta c))) as [e | d1].
    { right. apply Exists_app. left. exact Hf. }
    destruct Hf as [Hall H1]. specialize (IH d1 _ H1).
    destruct (wrap_chunks d1 chunks) as [e | d2].
    + destruct IH as [IH | IH]; [left; right; exact IH|].
      right. apply Exists_app. right. exact IH.
    + destruct IH as (Hc & Hfr & H2).
      split; [constructor; [congruence | exact Hc]|].
      split; [apply Forall_app; split; assumption|].
      intros i. rewrite H2, <- app_assoc. reflexivity.
Qed.

(** X12. [_wrap_toolcall_message] returns a dict exactly when the stream
    ends without an exception, every chunk has a choice and every fragment
    has arguments; a chunk without choices raises [IndexError] and a
    fragment whose arguments are [None] raises [TypeError]. The dict then
    holds at every index the first fragment that arrived with that index,
    and its arguments are the text of that first fragment followed by the
    texts of all fragments of the index, the first included: the first
    text is there twice. *)
Theorem wrap_toolcall_message_spec (s : stream) :
  let frs := fragments (stream_chunks s) in
  match _wrap_toolcall_message s with
  | inr d =>
      stream_error s = None
      /\ Forall (fun ch => chunk_choices ch <> []) (stream_chunks s)
      /\ Forall (fun f => is_Some (tc_arguments f)) frs
      /\ (forall index, dict_get index d = wrapped index frs)
      /\ (forall index a, assembled index frs = Some a ->
            exists first,
              head (filter (fun f => tc_index f = index) frs) = Some first
              /\ dict_get index d
                 = Some (with_arguments a
                           (Some (fragment_text first ++ fragment_text a))))
  | inl _ =>
      stream_error s <> None
      \/ Exists (fun ch => chunk_choices ch = []) (stream_chunks s)
      \/ Exists (fun f => tc_arguments f = None) frs
  end.
Proof.
  intros frs. unfold _wrap_toolcall_message.
  pose proof (wrap_chunks_spec (stream_chunks s) [] [] (fun i => eq_refl)) as H.
  destruct (wrap_chunks [] (stream_chunks s)) as [e | d]; [right; exact H|].
  destruct (stream_error s) as [e|]; [left; discriminate|].
  destruct H as (Hc & Hf & Hd). simpl in Hd. fold frs in Hf, Hd.
  split; [reflexivity|]. split; [exact Hc|]. split; [exact Hf|]. split; [exact Hd|].
  intros index a Ha. rewrite Hd. unfold assembled in Ha. unfold wrapped.
  destruct (filter (fun f => tc_index f = index) frs) as [|f fs]; [discriminate|].
  injection Ha as <-. exists f. split; reflexivity.
Qed.

End WrapToolCalls.

Section DirectAnswer.

Context {lib : Imports} {self : Self}.

(** X13. When the first reply to [chat_with_tools] has a content and no
    tool calls, [chat_with_tools] returns after that one request: the
    answer is the content as it is, not stripped, after the reasoning
    between [<think>] and [</think>] when the reply has one, and followed
    by the truncation notice when the finish reason is [length]; the count
    is the token count of the reply. *)
Theorem chat_with_tools_direct_answer (system : str) (history : nat)
  (gen_conf : gmap str pyobj) (st : state)
  (resp : response) (c : choice) (cs : list choice) (m : completion_message) (text : str) :
  (forall req, completions_create (length (requests st)) req = inr resp) ->
  choices resp = c :: cs -> choice_message c = Some m ->
  msg_tool_calls m = [] -> msg_content m = Some text ->
  let thought :=
    if truthy (msg_reasoning_content m)
    then u "<think>" ++ default [] (msg_reasoning_content m) ++ u "</think>" else [] in
  let ans := thought ++ text in
  exists req st',
    chat_with_tools system history gen_conf st
    = (Ok (if bool_decide (finish_reason c = Some (u "length")) then _length_stop ans
           else ans,
           total_token_count_from_response resp), st')
    /\ requests st' = requests st ++ [req]
    /\ r_tools req = true
    /\ sleeps st' = sleeps st.
Proof.
  intros Hresp Hc Hm Htc Ht thought ans. unfold chat_with_tools.
  destruct (tools_prologue_effect system history st)
    as (st1 & E1 & Hr1 & Hs1 & _ & _ & Ha1 & Hk1).
  erewrite bind_ok by exact E1.
  replace (max_retries + 1) with (S max_retries) by lia. cbn [seq tool_attempts].
  erewrite bind_ok by reflexivity.
  set (s1 := set_history (v_hist st1) st1).
  set (req := {| r_messages := default [] (heap s1 !! v_history s1);
                 r_stream := false; r_tools := true; r_stop := false;
                 r_extra_body := false; r_conf := _clean_conf gen_conf |}).
  assert (Hround : exists s2,
             tool_round (_clean_conf gen_conf) s1
             = (Ok (Some (if bool_decide (finish_reason c = Some (u "length"))
                          then _length_stop ans else ans,
                          total_token_count_from_response resp)), s2)
             /\ requests s2 = requests st ++ [req] /\ sleeps s2 = sleeps st).
  { unfold tool_round.
    erewrite bind_ok by reflexivity. erewrite bind_ok by reflexivity. fold req.
    erewrite bind_ok
      by (apply create_ok; change (requests s1) with (requests st1); rewrite Hr1;
          apply Hresp).
    erewrite bind_ok by reflexivity.
    rewrite Hc, Hm, Htc, Ht. subst ans thought.
    destruct (truthy (msg_reasoning_content m));
      destruct (bool_decide (finish_reason c = Some (u "length")));
      unfold bind, ret, modify, gets; cbn; eexists;
      (split; [rewrite Ha1, Hk1, ?app_nil_l, <- ?app_assoc; reflexivity|]);
      cbn; rewrite Hr1; (split; [reflexivity | exact Hs1]). }
  destruct Hround as (s2 & E2 & Hr2 & Hs2).
  assert (Hrounds : tool_rounds (_clean_conf gen_conf) s1
                    = (Ok (if bool_decide (finish_reason c = Some (u "length"))
                           then _length_stop ans else ans,
                           total_token_count_from_response resp), s2)).
  { unfold tool_rounds. replace (max_rounds + 1) with (S max_rounds) by lia.
    cbn [for_range].
    erewrite bind_ok by (erewrite bind_ok by exact E2; reflexivity). reflexivity. }
  erewrite bind_ok by (apply try_except_eq; exact Hrounds).
  exists req, s2. split; [reflexivity|]. split; [exact Hr2|]. split; [reflexivity | exact Hs2].
Qed.

End DirectAnswer.

(** X13, an instance: the provider answers at once. *)
Lemma chat_with_tools_direct_answer_witness :
  let m := {| msg_content := Some (u " Hello! "); msg_reasoning_content := None;
              msg_tool_calls := [] |} in
  let c := {| choice_message := Some m; finish_reason := Some (u "stop") |} in
  let self := client (u "gpt-4o") 5 5 (fun _ _ => inr (says (u " Hello! ")))
                (fun _ _ => inl (Exception (u "unused"))) in
  exists req st',
    @chat_with_tools ascii_lib self [] 0 ∅ (initial hi)
    = (Ok (if bool_decide (finish_reason c = Some (u "length"))
           then @_length_stop ascii_lib ([] ++ u " Hello! ") else [] ++ u " Hello! ",
           @total_token_count_from_response ascii_lib (says (u " Hello! "))), st')
    /\ requests st' = requests (initial hi) ++ [req]
    /\ r_tools req = true
    /\ sleeps st' = sleeps (initial hi).
Proof.
  intros m c self.
  apply (@chat_with_tools_direct_answer ascii_lib self [] 0 ∅ (initial hi)
           (says (u " Hello! ")) c [] m (u " Hello! ")); reflexivity.
Defined.

Section MissingContent.

Context {lib : Imports} {self : Self}.

(** X14. When the first reply to [chat_with_tools] has no tool calls and
    its [content] is [None], adding [None] to the answer raises
    [TypeError], which is not retryable: [chat_with_tools] returns the
    error string made from it after that one request, together with the
    token count of the reply. *)
Theorem chat_with_tools_no_content (system : str) (history : nat)
  (gen_conf : gmap str pyobj) (st : state)
  (resp : response) (c : choice) (cs : list choice) (m : completion_message) :
  (forall req, completions_create (length (requests st)) req = inr resp) ->
  choices resp = c :: cs -> choice_message c = Some m ->
  msg_tool_calls m = [] -> msg_content m = None ->
  lower (exn_str TypeError_concat_None) = ascii_lower (exn_str TypeError_concat_None) ->
  exists req st',
    chat_with_tools system history gen_conf st
    = (Ok (error_string (if Nat.eqb 0 max_retries then ERROR_MAX_RETRIES
                         else ERROR_GENERIC) TypeError_concat_None,
           total_token_count_from_response resp), st')
    /\ requests st' = requests st ++ [req]
    /\ sleeps st' = sleeps st.
Proof.
  intros Hresp Hc Hm Htc Ht Hlower. unfold chat_with_tools.
  destruct (tools_prologue_effect system history st)
    as (st1 & E1 & Hr1 & Hs1 & _ & _ & Ha1 & Hk1).
  erewrite bind_ok by exact E1.
  replace (max_retries + 1) with (S max_retries) by lia. cbn [seq tool_attempts].
  erewrite bind_ok by reflexivity.
  set (s1 := set_history (v_hist st1) st1).
  set (req := {| r_messages := default [] (heap s1 !! v_history s1);
                 r_stream := false; r_tools := true; r_stop := false;
                 r_extra_body := false; r_conf := _clean_conf gen_conf |}).
  assert (Hround : exists s2,
             tool_round (_clean_conf gen_conf) s1 = (Raise TypeError_concat_None, s2)
             /\ requests s2 = requests st ++ [req] /\ sleeps s2 = sleeps st
             /\ v_tk_count s2 = total_token_count_from_response resp).
  { unfold tool_round.
    erewrite bind_ok by reflexivity. erewrite bind_ok by reflexivity. fold req.
    erewrite bind_ok
      by (apply create_ok; change (requests s1) with (requests st1); rewrite Hr1;
          apply Hresp).
    erewrite bind_ok by reflexivity.
    rewrite Hc, Hm, Htc, Ht.
    destruct (truthy (msg_reasoning_content m));
      unfold bind, ret, modify, gets, raise; cbn; eexists;
      (split; [reflexivity|]); cbn; rewrite Hr1, Hk1;
      (split; [reflexivity | split; [exact Hs1 | lia]]). }
  destruct Hround as (s2 & E2 & Hr2 & Hs2 & Hk2).
  assert (Hrounds : tool_rounds (_clean_conf gen_conf) s1
                    = (Raise TypeError_concat_None, s2)).
  { unfold tool_rounds. replace (max_rounds + 1) with (S max_rounds) by lia.
    cbn [for_range].
    erewrite bind_raise by (erewrite bind_raise by exact E2; reflexivity). reflexivity. }
  erewrite bind_ok by (apply try_except_eq; exact Hrounds).
  assert (Hcode : _classify_error TypeError_concat_None = ERROR_GENERIC).
  { unfold _classify_error. rewrite Hlower. vm_compute. reflexivity. }
  destruct (_exceptions_cases TypeError_concat_None 0 s2) as [[Hre He] | [Hre He]];
    rewrite Hcode in *.
  - destruct (Nat.eqb 0 max_retries); discriminate.
  - erewrite bind_ok by exact He. rewrite error_string_truthy.
    erewrite bind_ok by reflexivity.
    exists req, s2. rewrite Hk2. split; [reflexivity|]. split; [exact Hr2 | exact Hs2].
Qed.

End MissingContent.

(** X14, an instance: a reply whose message has nothing in it. *)
Lemma chat_with_tools_no_content_witness :
  let m := {| msg_content := None; msg_reasoning_content := None; msg_tool_calls := [] |} in
  let c := {| choice_message := Some m; finish_reason := Some (u "stop") |} in
  let resp := {| choices := [c]; usage_total_tokens := Some 3%Z |} in
  let self := client (u "gpt-4o") 5 5 (fun _ _ => inr resp)
                (fun _ _ => inl (Exception (u "unused"))) in
  exists req st',
    @chat_with_tools ascii_lib self [] 0 ∅ (initial hi)
    = (Ok (error_string (if Nat.eqb 0 (@max_retries self) then ERROR_MAX_RETRIES
                         else ERROR_GENERIC) TypeError_concat_None,
           @total_token_count_from_response ascii_lib resp), st')
    /\ requests st' = requests (initial hi) ++ [req]
    /\ sleeps st' = sleeps (initial hi).
Proof.
  intros m c resp self.
  apply (@chat_with_tools_no_content ascii_lib self [] 0 ∅ (initial hi) resp c [] m);
    reflexivity.
Defined.

Section MoreDynamicCtx.

Lemma history_units_app (a b : list content_value) :
  history_units (a ++ b) = (history_units a + history_units b)%Z.
Proof.
  unfold history_units. induction a as [|m a IH]; simpl; [reflexivity|].
  rewrite IH. lia.
Qed.

Lemma history_units_nonneg (a : list content_value) : (0 <= history_units a)%Z.
Proof.
  unfold history_units. induction a as [|m a IH]; simpl; [lia|].
  unfold message_units at 1, text_units. destruct m; lia.
Qed.

(** X15. The context window never shrinks when messages are added to the
    conversation, wherever they are put in, as long as no message has
    [None] as its content: [_calculate_dynamic_ctx] is monotone in such a
    history. Adding a message whose content is [None] makes it raise
    [TypeError]. *)
Theorem dynamic_ctx_monotone (before more after : list content_value) :
  (~ In ContentNone (before ++ more ++ after) ->
   exists small large,
     _calculate_dynamic_ctx (before ++ after) = inr small
     /\ _calculate_dynamic_ctx (before ++ more ++ after) = inr large
     /\ (small <= large)%Z)
  /\ (In ContentNone more ->
      _calculate_dynamic_ctx (before ++ more ++ after) = inl TypeError_not_iterable).
Proof.
  split.
  - intros Hall.
    assert (Hsub : ~ In ContentNone (before ++ after)).
    { intros H. apply Hall. rewrite !in_app_iff in *. tauto. }
    rewrite (proj2 (dynamic_ctx_cases _) Hsub), (proj2 (dynamic_ctx_cases _) Hall).
    eexists _, _. split; [reflexivity|]. split; [reflexivity|].
    rewrite !history_units_app.
    pose proof (history_units_nonneg before). pose proof (history_units_nonneg more).
    pose proof (history_units_nonneg after).
    set (x := (history_units before + history_units after)%Z).
    set (y := (history_units before + (history_units more + history_units after))%Z).
    assert (Hxy : (x * 6 / 5 <= y * 6 / 5)%Z) by (apply Z.div_le_mono; lia).
    assert (Hpos : (0 <= x * 6 / 5)%Z) by (apply Z.div_pos; lia).
    destruct (Z.leb_spec (x * 6 / 5) 8192) as [Hx | Hx];
      destruct (Z.leb_spec (y * 6 / 5) 8192) as [Hy | Hy]; try lia.
    + assert (1 <= y * 6 / 5 / 8192)%Z by (apply Z.div_le_lower_bound; lia). lia.
    + assert (x * 6 / 5 / 8192 <= y * 6 / 5 / 8192)%Z by (apply Z.div_le_mono; lia). lia.
  - intros H. apply (proj1 (dynamic_ctx_cases _)). rewrite !in_app_iff. tauto.
Qed.

End MoreDynamicCtx.

(** X15, an instance: a long message put between two short ones. *)
Lemma dynamic_ctx_monotone_witness :
  let before := [content_of (user_says (u "Hi"))] in
  let more := [ContentText (repeat 97%N (N.to_nat 13650))] in
  let after := [ContentMissing] in
  exists small large,
    _calculate_dynamic_ctx (before ++ after) = inr small
    /\ _calculate_dynamic_ctx (before ++ more ++ after) = inr large
    /\ (small <= large)%Z.
Proof.
  intros before more after.
  apply (proj1 (dynamic_ctx_monotone before more after)).
  intros [H | [H | [H | []]]]; discriminate H.
Defined.

(** ** Properties of [LiteLLMBase] *)

Section LiteLLMChat.

Context {lib : Imports} {self : Self} {lite : LiteLLM}.

(** No option of [gen_conf] has the name of a parameter of
    [_construct_completion_args]. *)
Lemma construct_completion_args_ok (history : list Message) (stream tools : bool)
  (gen_conf : gmap str pyobj) (st : state) :
  gen_conf !! u "history" = None -> gen_conf !! u "stream" = None ->
  gen_conf !! u "tools" = None ->
  LiteLLMBase.construct_completion_args history stream tools gen_conf st
  = (Ok (LiteLLMBase._construct_completion_args history stream tools gen_conf), st).
Proof.
  intros H1 H2 H3. unfold LiteLLMBase.construct_completion_args. cbn [List.find].
  rewrite H1, H2, H3. reflexivity.
Qed.

(** X16. When the provider answers [LiteLLMBase.chat] with a response that
    has no choices, the test of [_chat] raises [IndexError] before it can
    return the empty answer; the error is not retryable, so [chat] returns
    the error string made from it after one request, with a count of
    zero. *)
Theorem lite_chat_no_choices (system : str) (history : nat) (gen_conf : gmap str pyobj)
  (st : state) (resp : response) :
  gen_conf !! u "history" = None -> gen_conf !! u "stream" = None ->
  gen_conf !! u "tools" = None ->
  (forall args, completion (length (requests st)) args = inr resp) ->
  choices resp = [] ->
  lower (exn_str IndexError) = exn_str IndexError ->
  exists st',
    LiteLLMBase.chat system history gen_conf st
    = (Ok (error_string (if Nat.eqb 0 max_retries then ERROR_MAX_RETRIES
                         else ERROR_GENERIC) IndexError, 0%Z), st')
    /\ length (requests st') = length (requests st) + 1
    /\ sleeps st' = sleeps st.
Proof.
  intros H1 H2 H3 Hresp Hc Hlower. unfold LiteLLMBase.chat.
  destruct (insert_system_frame system history st) as (s0 & E0 & Hr0 & Hs0 & _).
  erewrite bind_ok by exact E0.
  replace (max_retries + 1) with (S max_retries) by lia. cbn [seq LiteLLMBase.chat_attempts].
  assert (Hchat : exists req,
             LiteLLMBase._chat history (LiteLLMBase_clean_conf gen_conf) s0
             = (Raise IndexError, set_requests (requests s0 ++ [req]) s0)).
  { unfold LiteLLMBase._chat. erewrite bind_ok by reflexivity.
    erewrite bind_ok
      by (apply construct_completion_args_ok; unfold LiteLLMBase_clean_conf;
          rewrite lookup_delete_ne by (intros H; vm_compute in H; discriminate);
          assumption).
    eexists. unfold LiteLLMBase.litellm_completion.
    unfold bind at 1. rewrite Hr0, Hresp.
    unfold LiteLLMBase.answer_of. rewrite Hc. reflexivity. }
  destruct Hchat as (req & Ec).
  erewrite bind_ok by (apply try_except_eq; exact Ec).
  assert (Hcode : _classify_error IndexError = ERROR_GENERIC).
  { unfold _classify_error. rewrite Hlower. vm_compute. reflexivity. }
  destruct (_exceptions_cases IndexError 0 (set_requests (requests s0 ++ [req]) s0))
    as [[Hre He] | [Hre He]]; rewrite Hcode in *.
  - destruct (Nat.eqb 0 max_retries); discriminate.
  - erewrite bind_ok by exact He. rewrite error_string_truthy.
    eexists. split; [reflexivity|]. simpl. rewrite length_app, Hr0, Hs0. simpl.
    split; [lia | reflexivity].
Qed.

End LiteLLMChat.

(** X16, an instance: a response without choices. *)
Lemma lite_chat_no_choices_witness :
  exists st',
    LiteLLMBase.chat (lib := ascii_lib) (self := silent) (lite := no_choices)
      [] 0 ∅ (initial hi)
    = (Ok (error_string (if Nat.eqb 0 (@max_retries silent) then ERROR_MAX_RETRIES
                         else ERROR_GENERIC) IndexError, 0%Z), st')
    /\ length (requests st') = length (requests (initial hi)) + 1
    /\ sleeps st' = sleeps (initial hi).
Proof.
  apply (@lite_chat_no_choices ascii_lib silent no_choices [] 0 ∅ (initial hi)
           {| choices := []; usage_total_tokens := None |});
    reflexivity.
Defined.

Section LiteLLMAsyncChat.

Context {lib : Imports} {self : Self} {lite : LiteLLM}.

(** What the log keeps of the arguments [_construct_completion_args]
    builds. *)
Lemma request_of_construct (history : list Message) (stream tools : bool)
  (kwargs : gmap str pyobj) :
  let r := request_of (LiteLLMBase._construct_completion_args history stream tools kwargs) in
  (kwargs !! u "messages" = None -> r_messages r = history)
  /\ (forall k, k ∉ set_after_options -> r_conf r !! k = kwargs !! k).
Proof.
  intros r. subst r. unfold request_of, LiteLLMBase._construct_completion_args.
  cbn [r_messages r_conf].
  set (base := (ArgOption <$> kwargs)
               ∪ <[u "model" := ArgStr model_name]>
                   (<[u "messages" := ArgMessages history]>
                      (<[u "api_key" := ArgStr api_key]>
                         (<[u "num_retries" := ArgInt max_retries]> ∅)))).
  assert (Hbase : forall k,
             (base !! k) ≫= (fun a => match a with ArgOption v => Some v | _ => None end)
             = kwargs !! k).
  { intros k. subst base. rewrite lookup_union, lookup_fmap.
    destruct (kwargs !! k) as [v|] eqn:E; simpl.
    - match goal with |- context [Some ?x ∪ ?y] => destruct y end; reflexivity.
    - rewrite left_id by apply _.
      destruct (decide (k = u "model")) as [-> | ?];
        [rewrite lookup_insert_eq; reflexivity | rewrite lookup_insert_ne by congruence].
      destruct (decide (k = u "messages")) as [-> | ?];
        [rewrite lookup_insert_eq; reflexivity | rewrite lookup_insert_ne by congruence].
      destruct (decide (k = u "api_key")) as [-> | ?];
        [rewrite lookup_insert_eq; reflexivity | rewrite lookup_insert_ne by congruence].
      destruct (decide (k = u "num_retries")) as [-> | ?];
        [rewrite lookup_insert_eq; reflexivity | rewrite lookup_insert_ne by congruence].
      reflexivity. }
  assert (Hmsg : kwargs !! u "messages" = None ->
                 base !! u "messages" = Some (ArgMessages history)).
  { intros Hm. subst base. rewrite lookup_union, lookup_fmap, Hm. simpl.
    rewrite left_id by apply _.
    rewrite lookup_insert_ne by (intros H; vm_compute in H; discriminate).
    rewrite lookup_insert_eq. reflexivity. }
  split.
  - intros Hm. specialize (Hmsg Hm).
    repeat match goal with
           | |- context [if ?b then _ else _] => destruct b
           end;
      rewrite ?lookup_insert_ne by (intros H; vm_compute in H; discriminate);
      rewrite Hmsg; reflexivity.
  - intros k Hk. rewrite lookup_omap.
    assert (Hne : k <> u "stream" /\ k <> u "tools" /\ k <> u "tool_choice"
                  /\ k <> u "api_base" /\ k <> u "extra_body").
    { unfold set_after_options in Hk. rewrite !not_elem_of_cons in Hk. tauto. }
    destruct Hne as (? & ? & ? & ? & ?).
    repeat match goal with
           | |- context [if ?b then _ else _] => destruct b
           end;
      rewrite ?lookup_insert_ne by congruence; apply Hbase.
Qed.

(** The retry loop of [async_chat] returns, touches no list object, and
    sends the same arguments at every attempt. *)
Lemma async_chat_attempts_effect (completion_args : gmap str arg) :
  forall k a st, a + k = max_retries ->
    exists v st' n,
      LiteLLMBase.async_chat_attempts completion_args (seq a (S k)) st = (Ok v, st')
      /\ heap st' = heap st
      /\ requests st' = requests st ++ repeat (request_of completion_args) (S n).
Proof.
  assert (Hbody : forall st, exists r,
             (response <- LiteLLMBase.litellm_completion completion_args ;;
              LiteLLMBase.answer_of response) st
             = (r, set_requests (requests st ++ [request_of completion_args]) st)).
  { intros st. unfold bind, LiteLLMBase.litellm_completion.
    destruct (completion (length (requests st)) completion_args) as [e | resp];
      [eexists; reflexivity|].
    unfold LiteLLMBase.answer_of.
    destruct (choices resp) as [|c cs]; [eexists; reflexivity|].
    destruct (choice_message c) as [m|]; [|eexists; reflexivity].
    destruct (negb (truthy (msg_content m))); eexists; reflexivity. }
  induction k as [|k IH]; intros a st Ha; cbn [seq LiteLLMBase.async_chat_attempts];
    destruct (Hbody st) as (r & E);
    (erewrite bind_ok by (apply try_except_eq; exact E));
    (destruct r as [v | e];
     [exists v; eexists; exists 0; split; [reflexivity|]; split; reflexivity|]);
    (destruct (_exceptions_cases e a
                 (set_requests (requests st ++ [request_of completion_args]) st))
      as [[Hre He] | [Hre He]]; erewrite bind_ok by exact He).
  - replace a with max_retries in Hre by lia. rewrite Nat.eqb_refl in Hre. discriminate.
  - rewrite error_string_truthy. eexists _, _, 0. split; [reflexivity|].
    split; reflexivity.
  - cbn [truthy].
    destruct (IH (S a) (set_sleeps
                          (S (sleeps (set_requests
                                        (requests st ++ [request_of completion_args]) st)))
                          (set_requests (requests st ++ [request_of completion_args]) st)))
      as (v & st' & n & E' & Hh & Hr); [lia|].
    exists v, st', (S n). split; [exact E'|]. split; [exact Hh|].
    rewrite Hr. simpl. rewrite <- app_assoc. reflexivity.
  - rewrite error_string_truthy. eexists _, _, 0. split; [reflexivity|].
    split; reflexivity.
Qed.


End LiteLLMAsyncChat.


Section LiteLLMStreamly.

Context {lib : Imports} {self : Self} {lite : LiteLLM}.

(** The loop of [async_chat_streamly] over the pairs of a stream. *)
Lemma for_each_counts_yields (items : list (str * Z)) :
  forall st,
    for_each items (fun it =>
        modify (fun s => set_total_tokens (v_total_tokens s + snd it) s) ;;
        yield (Text (fst it))) st
    = (Ok tt,
       set_yielded (yielded st ++ map (fun it : str * Z => Text (fst it)) items)
         (set_total_tokens (v_total_tokens st + sum_tols items) st)).
Proof.
  induction items as [|it items IH]; intros st.
  - destruct st as [hp rq tr yl sl vh vhi va vt vtt].
    unfold ret, set_total_tokens, set_yielded, sum_tols. simpl.
    rewrite app_nil_r, Z.add_0_r. reflexivity.
  - cbn [for_each]. erewrite bind_ok by reflexivity. rewrite IH.
    destruct st as [hp rq tr yl sl vh vhi va vt vtt].
    unfold set_total_tokens, set_yielded, sum_tols. simpl.
    rewrite <- app_assoc, Z.add_assoc. reflexivity.
Qed.

(** X18. A retry of [LiteLLMBase.async_chat_streamly] replays the stream
    on top of what it has yielded. When the first stream breaks off with a
    retryable error and the second one ends, the generator has yielded the
    texts of the broken stream, then the texts of the second one, and the
    count it ends with is the sum over both; whether the second stream
    opens with [<think>] depends on where the first one broke off. *)
Theorem lite_streamly_replays (system : str) (history : nat) (gen_conf : gmap str pyobj)
  (st : state) (s1 s2 : stream) (e : exn) :
  gen_conf !! u "history" = None -> gen_conf !! u "stream" = None ->
  gen_conf !! u "tools" = None ->
  1 <= max_retries ->
  (forall args, completion_stream (length (requests st)) args = inr s1) ->
  stream_error s1 = Some e ->
  _should_retry (_classify_error e) = true ->
  (forall args, completion_stream (length (requests st) + 1) args = inr s2) ->
  stream_error s2 = None ->
  let items1 := stream_items true false (stream_chunks s1) in
  let items2 :=
    stream_items true (LiteLLMBase.reasoning_after true false (stream_chunks s1))
      (stream_chunks s2) in
  exists st',
    LiteLLMBase.async_chat_streamly system history gen_conf st = (Ok tt, st')
    /\ yielded st'
       = yielded st
         ++ map (fun it : str * Z => Text (fst it)) (items1 ++ items2)
         ++ [Count (sum_tols items1 + sum_tols items2)]
    /\ length (requests st') = length (requests st) + 2
    /\ sleeps st' = sleeps st + 1.
Proof.
  intros H1 H2 H3 Hmax Hs1 He1 Hretry Hs2 He2 items1 items2.
  unfold LiteLLMBase.async_chat_streamly.
  destruct (insert_system_frame system history st) as (s0 & E0 & Hr0 & Hsl0 & Hy0 & _).
  erewrite bind_ok by exact E0.
  erewrite bind_ok by reflexivity. erewrite bind_ok by reflexivity.
  erewrite bind_ok
    by (apply construct_completion_args_ok; unfold LiteLLMBase_clean_conf;
        rewrite lookup_delete_ne by (intros H; vm_compute in H; discriminate);
        assumption).
  destruct max_retries as [|n] eqn:En; [lia|].
  replace (S n + 1) with (S (S n)) by lia.
  cbn [seq LiteLLMBase.stream_attempts].
  (* the first attempt *)
  match goal with
  | |- context [LiteLLMBase.litellm_completion_stream ?a] => set (args := a)
  end.
  set (sa := set_total_tokens 0 s0).
  assert (Ec1 : LiteLLMBase.litellm_completion_stream args sa
                = (Ok s1, set_requests (requests sa ++ [request_of args]) sa)).
  { unfold LiteLLMBase.litellm_completion_stream.
    change (requests sa) with (requests s0). rewrite Hr0, Hs1. reflexivity. }
  erewrite bind_ok by (apply try_except_eq; exact Ec1). cbv beta iota zeta.
  erewrite bind_ok by apply for_each_counts_yields.
  rewrite He1. fold items1.
  match goal with
  | |- context [bind (_exceptions e 0) _ ?s] =>
      destruct (_exceptions_cases e 0 s) as [[_ Hx] | [Hno _]]; [set (sb := s) in *|]
  end.
  2:{ rewrite En in Hno. cbn [Nat.eqb] in Hno. congruence. }
  erewrite bind_ok by exact Hx. cbn [truthy].
  (* the second attempt *)
  set (sc := set_sleeps (S (sleeps sb)) sb).
  assert (Ec2 : LiteLLMBase.litellm_completion_stream args sc
                = (Ok s2, set_requests (requests sc ++ [request_of args]) sc)).
  { unfold LiteLLMBase.litellm_completion_stream.
    replace (length (requests sc)) with (length (requests st) + 1)
      by (subst sc sb sa; simpl; rewrite length_app, Hr0; reflexivity).
    rewrite Hs2. reflexivity. }
  erewrite bind_ok by (apply try_except_eq; exact Ec2). cbv beta iota zeta.
  erewrite bind_ok by apply for_each_counts_yields.
  rewrite He2. fold items2.
  eexists. split; [reflexivity|].
  subst sc sb sa. simpl. rewrite Hy0, Hr0, Hsl0, !length_app. simpl.
  split; [|split; lia].
  rewrite map_app, <- !app_assoc. do 3 f_equal; lia.
Qed.

End LiteLLMStreamly.

(** X18, an instance: the stream breaks off after [Hel] and is replayed. *)
Lemma lite_streamly_replays_witness :
  let s1 := {| stream_chunks := [text_chunk (u "Hel")];
               stream_error := Some (APIError (u "Error code: 429 - Rate limit reached")) |} in
  let s2 := streams [text_chunk (u "Hello")] in
  let items1 := @stream_items ascii_lib true false (stream_chunks s1) in
  let items2 :=
    @stream_items ascii_lib true (LiteLLMBase.reasoning_after true false (stream_chunks s1))
      (stream_chunks s2) in
  exists st',
    LiteLLMBase.async_chat_streamly (lib := ascii_lib) (self := silent) (lite := stuttering)
      [] 0 ∅ (initial hi) = (Ok tt, st')
    /\ yielded st'
       = yielded (initial hi)
         ++ map (fun it : str * Z => Text (fst it)) (items1 ++ items2)
         ++ [Count (sum_tols items1 + sum_tols items2)]
    /\ length (requests st') = length (requests (initial hi)) + 2
    /\ sleeps st' = sleeps (initial hi) + 1.
Proof.
  intros s1 s2 items1 items2.
  apply (@lite_streamly_replays ascii_lib silent stuttering [] 0 ∅ (initial hi) s1 s2
           (APIError (u "Error code: 429 - Rate limit reached")));
    try reflexivity.
  simpl. lia.
Defined.

Section LiteLLMTools.

Context {lib : Imports} {self : Self} {lite : LiteLLM}.

Variable gen_conf : gmap str pyobj.
Hypothesis no_history : gen_conf !! u "history" = None.
Hypothesis no_stream : gen_conf !! u "stream" = None.
Hypothesis no_tools : gen_conf !! u "tools" = None.
Hypothesis no_messages : gen_conf !! u "messages" = None.

(** [_chat] sends one request. *)
Lemma lite_chat_effect (history : nat) (st : state) :
  exists req res,
    LiteLLMBase._chat history gen_conf st
    = (res, set_requests (requests st ++ [req]) st).
Proof.
  unfold LiteLLMBase._chat. erewrite bind_ok by reflexivity.
  erewrite bind_ok by (apply construct_completion_args_ok; assumption).
  eexists. unfold bind, LiteLLMBase.litellm_completion.
  destruct (completion (length (requests st)) _) as [e | resp]; [eexists; reflexivity|].
  unfold LiteLLMBase.answer_of.
  destruct (choices resp) as [|c cs]; [eexists; reflexivity|].
  destruct (choice_message c) as [m|]; [|eexists; reflexivity].
  destruct (negb (truthy (msg_content m))); eexists; reflexivity.
Qed.

(** A round sends one request, which carries the entries of the list
    [history] is bound to, and touches no other list. *)
Lemma lite_tool_round_keeps (st : state) :
  exists r req st',
    LiteLLMBase.tool_round gen_conf st = (r, st')
    /\ keeps st st'
    /\ requests st' = requests st ++ [req]
    /\ r_messages req = default [] (heap st !! v_history st).
Proof.
  unfold LiteLLMBase.tool_round.
  erewrite bind_ok by reflexivity. erewrite bind_ok by reflexivity.
  erewrite bind_ok by (apply construct_completion_args_ok; assumption).
  match goal with
  | |- context [LiteLLMBase.litellm_completion ?a] => set (args := a)
  end.
  assert (Hm : r_messages (request_of args) = default [] (heap st !! v_history st)).
  { subst args. cbn [gets]. apply (request_of_construct _ false true gen_conf), no_messages. }
  assert (Hsame : forall s, heap s = heap st -> frame st s -> keeps st s)
    by (intros s; apply keeps_same).
  destruct (completion (length (requests st)) args) as [e | resp] eqn:E.
  { erewrite bind_raise
      by (unfold LiteLLMBase.litellm_completion; rewrite E; reflexivity).
    eexists _, (request_of args), _. split; [reflexivity|].
    split; [apply Hsame; [reflexivity | unfold frame; simpl; tauto]|].
    split; [reflexivity | exact Hm]. }
  erewrite bind_ok by (unfold LiteLLMBase.litellm_completion; rewrite E; reflexivity).
  erewrite bind_ok by reflexivity. cbv zeta.
  destruct (choices resp) as [|c cs].
  { eexists _, (request_of args), _. split; [reflexivity|].
    split; [apply Hsame; [reflexivity | unfold frame; simpl; tauto]|].
    split; [reflexivity | exact Hm]. }
  destruct (choice_message c) as [m|].
  2:{ eexists _, (request_of args), _. split; [reflexivity|].
      split; [apply Hsame; [reflexivity | unfold frame; simpl; tauto]|].
      split; [reflexivity | exact Hm]. }
  destruct (msg_tool_calls m) as [|tc tcs].
  - destruct (truthy (msg_reasoning_content m));
      destruct (bool_decide (finish_reason c = Some (u "length")));
      eexists _, (request_of args), _; (split; [reflexivity|]);
      (split; [apply Hsame; [reflexivity | unfold frame; simpl; tauto]|]);
      (split; [reflexivity | exact Hm]).
  - match goal with
    | |- context [bind (for_each ?l run_tool_call) _ ?s] =>
        destruct (for_each_tool_calls_keeps l s) as (s2 & E2 & Hk2 & Hr2)
    end.
    erewrite bind_ok by exact E2.
    eexists _, (request_of args), _. split; [reflexivity|].
    split; [|split; [exact Hr2 | exact Hm]].
    eapply keeps_trans; [|exact Hk2].
    apply Hsame; [reflexivity | unfold frame; simpl; tauto].
Qed.

Lemma lite_for_range_keeps (n : nat) :
  forall st, exists r req rest st',
    for_range (S n) (LiteLLMBase.tool_round gen_conf) st = (r, st')
    /\ keeps st st'
    /\ requests st' = requests st ++ req :: rest
    /\ r_messages req = default [] (heap st !! v_history st).
Proof.
  induction n as [|n IH]; intros st; cbn [for_range];
    destruct (lite_tool_round_keeps st) as (r & req & s1 & E & Hk & Hr & Hm).
  - destruct r as [[v|] | e].
    + erewrite bind_ok by exact E. eexists _, req, [], _. split; [reflexivity|]. tauto.
    + erewrite bind_ok by exact E. eexists _, req, [], _. split; [reflexivity|]. tauto.
    + erewrite bind_raise by exact E. eexists _, req, [], _. split; [reflexivity|]. tauto.
  - destruct r as [[v|] | e].
    + erewrite bind_ok by exact E. eexists _, req, [], _. split; [reflexivity|]. tauto.
    + erewrite bind_ok by exact E.
      destruct (IH s1) as (r2 & req2 & rest2 & s2 & E2 & Hk2 & Hr2 & _).
      exists r2, req, (req2 :: rest2), s2. cbn [for_range] in E2.
      split; [exact E2|]. split; [eapply keeps_trans; eassumption|].
      split; [|exact Hm]. rewrite Hr2, Hr, <- app_assoc. reflexivity.
    + erewrite bind_raise by exact E. eexists _, req, [], _. split; [reflexivity|]. tauto.
Qed.

Lemma lite_tool_rounds_keeps (st : state) :
  exists r req rest st',
    LiteLLMBase.tool_rounds gen_conf st = (r, st')
    /\ keeps st st'
    /\ requests st' = requests st ++ req :: rest
    /\ r_messages req = default [] (heap st !! v_history st).
Proof.
  unfold LiteLLMBase.tool_rounds. replace (max_rounds + 1) with (S max_rounds) by lia.
  destruct (lite_for_range_keeps max_rounds st)
    as (r & req & rest & s1 & E & Hk & Hr & Hm).
  destruct r as [[v|] | e].
  - erewrite bind_ok by exact E. eexists _, req, rest, _. split; [reflexivity|]. tauto.
  - erewrite bind_ok by exact E. cbv beta iota.
    erewrite bind_ok by reflexivity.
    destruct (list_append_keeps exceed_message s1) as (s2 & E2 & Hk2 & Hr2).
    erewrite bind_ok by exact E2.
    destruct (lite_chat_effect (v_history s1) s2) as (req2 & res & Ec).
    assert (Hk02 : keeps st s2) by (eapply keeps_trans; eassumption).
    assert (Hfin : forall s, heap s = heap s2 -> frame s2 s ->
                             requests s = requests s2 ++ [req2] ->
                             keeps st s /\ requests s = requests st ++ req :: rest ++ [req2]).
    { intros s Hh Hf Hrs. split.
      - eapply keeps_trans; [exact Hk02|]. apply keeps_same; assumption.
      - rewrite Hrs, Hr2, Hr, <- app_assoc. reflexivity. }
    destruct res as [p | e].
    + erewrite bind_ok by exact Ec.
      eexists _, req, (rest ++ [req2]), _. split; [reflexivity|].
      match goal with
      | |- keeps st ?s /\ _ =>
          destruct (Hfin s) as [Hka Hra];
            [reflexivity | unfold frame; simpl; tauto | reflexivity |]
      end.
      split; [exact Hka|]. split; [exact Hra | exact Hm].
    + erewrite bind_raise by exact Ec.
      eexists _, req, (rest ++ [req2]), _. split; [reflexivity|].
      destruct (Hfin (set_requests (requests s2 ++ [req2]) s2))
        as [Hka Hra]; [reflexivity | unfold frame; simpl; tauto | reflexivity |].
      split; [exact Hka|]. split; [exact Hra | exact Hm].
  - erewrite bind_raise by exact E. eexists _, req, rest, _. split; [reflexivity|]. tauto.
Qed.

(** The retry loop of [chat_with_tools]: while [hist] holds [original],
    every attempt starts from [original]. *)
Lemma lite_attempts_restart (history : nat) (original : list Message) :
  forall k a s,
    a + k = max_retries ->
    heap s !! v_hist s = Some original ->
    heap s !! history = Some original ->
    exists v st' blocks,
      LiteLLMBase.tool_attempts gen_conf (seq a (S k)) s = (Ok v, st')
      /\ requests st' = requests s ++ concat blocks
      /\ sleeps st' + 1 = sleeps s + length blocks
      /\ Forall (starts_from original) blocks
      /\ heap st' !! history = Some original.
Proof.
  induction k as [|k IH]; intros a s Ha Hhist Hcaller;
    cbn [seq LiteLLMBase.tool_attempts];
    (erewrite bind_ok by reflexivity);
    match goal with
    | |- context [bind (try_except (LiteLLMBase.tool_rounds ?c)) _ ?s0] => set (s1 := s0)
    end;
    assert (Hlt : v_hist s < length (heap s)) by (eapply lookup_lt_Some, Hhist);
    assert (Hlc : history < length (heap s)) by (eapply lookup_lt_Some, Hcaller);
    assert (H1 : heap s1 !! v_history s1 = Some original
                 /\ heap s1 !! v_hist s1 = Some original
                 /\ heap s1 !! history = Some original
                 /\ v_history s1 = length (heap s)
                 /\ requests s1 = requests s /\ sleeps s1 = sleeps s
                 /\ v_hist s1 = v_hist s)
      by (subst s1; simpl; rewrite Hhist; simpl;
          rewrite lookup_app_r by lia; rewrite Nat.sub_diag;
          rewrite !lookup_app_l by lia; tauto);
    destruct H1 as (Hh1 & Hhist1 & Hcaller1 & Hloc & Hr1 & Hs1 & Hvh1);
    destruct (lite_tool_rounds_keeps s1)
      as (r & req & rest & s2 & E & [Hf Hother] & Hr & Hm);
    rewrite Hh1 in Hm; simpl in Hm;
    (erewrite bind_ok by (apply try_except_eq; exact E));
    assert (Hblock : starts_from original (req :: rest)) by (exists req, rest; tauto);
    assert (H2 : heap s2 !! v_hist s2 = Some original
                 /\ heap s2 !! history = Some original
                 /\ sleeps s2 = sleeps s)
      by (destruct Hf as (Hsl & _ & _ & Hvh & _);
          rewrite Hvh, !Hother by lia; rewrite Hsl; tauto);
    destruct H2 as (Hhist2 & Hcaller2 & Hs2);
    (destruct r as [v | e];
     [exists v, s2, [req :: rest]; split; [reflexivity|];
      simpl; rewrite app_nil_r; rewrite Hr, Hr1;
      split; [reflexivity|]; split; [lia|]; split; [repeat constructor; exact Hblock|];
      exact Hcaller2 |]);
    (destruct (_exceptions_cases e a s2) as [[Hre He] | [Hre He]];
     erewrite bind_ok by exact He).
  - replace a with max_retries in Hre by lia. rewrite Nat.eqb_refl in Hre. discriminate.
  - rewrite error_string_truthy. erewrite bind_ok by reflexivity.
    eexists _, s2, [req :: rest]. split; [reflexivity|].
    simpl. rewrite app_nil_r. rewrite Hr, Hr1.
    split; [reflexivity|]. split; [lia|]. split; [repeat constructor; exact Hblock|].
    exact Hcaller2.
  - cbn [truthy].
    destruct (IH (S a) (set_sleeps (S (sleeps s2)) s2))
      as (v & st' & blocks & E' & Hr' & Hs' & Hall & Hc');
      [lia | exact Hhist2 | exact Hcaller2 |].
    exists v, st', ((req :: rest) :: blocks). split; [exact E'|].
    simpl in Hr', Hs'. simpl.
    split; [rewrite Hr', Hr, Hr1, <- app_assoc; reflexivity|].
    split; [lia|]. split; [constructor; [exact Hblock | exact Hall] | exact Hc'].
  - rewrite error_string_truthy. erewrite bind_ok by reflexivity.
    eexists _, s2, [req :: rest]. split; [reflexivity|].
    simpl. rewrite app_nil_r. rewrite Hr, Hr1.
    split; [reflexivity|]. split; [lia|]. split; [repeat constructor; exact Hblock|].
    exact Hcaller2.
Qed.

End LiteLLMTools.

Section LiteLLMRetry.

Context {lib : Imports} {self : Self} {lite : LiteLLM}.


End LiteLLMRetry.


Section OrderList.

Context {lib : Imports}.

(** [lstrip] takes white space off the front. *)
Lemma lstrip_split (s : str) :
  exists sp, s = sp ++ lstrip s /\ Forall (fun c => isspace c = true) sp.
Proof.
  induction s as [|c s (sp & Hs & Hsp)]; simpl.
  - exists []. split; [reflexivity | constructor].
  - destruct (isspace c) eqn:E.
    + exists (c :: sp). split; [simpl; congruence | constructor; assumption].
    + exists []. split; [reflexivity | constructor].
Qed.

Lemma lstrip_head (s : str) (c : N) (t : str) :
  lstrip s = c :: t -> isspace c = false.
Proof.
  induction s as [|d s IH]; simpl; [discriminate|].
  destruct (isspace d) eqn:E; [exact IH|].
  intros H. injection H as <- _. exact E.
Qed.

Lemma lstrip_fixed (s : str) :
  match s with c :: _ => isspace c = false | [] => True end -> lstrip s = s.
Proof. destruct s as [|c s]; simpl; [reflexivity|]. intros ->. reflexivity. Qed.

(** [strip] is idempotent: its result has no white space at either end. *)
Lemma strip_idempotent (s : str) : strip (strip s) = strip s.
Proof.
  unfold strip. set (a := lstrip s). set (b := lstrip (rev a)).
  assert (Hb : lstrip b = b).
  { apply lstrip_fixed. destruct b as [|c t] eqn:E; [exact I|].
    eapply lstrip_head. exact E. }
  assert (Ha : lstrip (rev b) = rev b).
  { apply lstrip_fixed. destruct (rev b) as [|c t] eqn:E; [exact I|].
    destruct (lstrip_split (rev a)) as (sp & Hs & _). fold b in Hs.
    apply (f_equal (@rev N)) in Hs. rewrite rev_involutive, rev_app_distr, E in Hs.
    simpl in Hs. eapply (lstrip_head s c). fold a. exact Hs. }
  rewrite Ha, rev_involutive, Hb. reflexivity.
Qed.

Lemma lstrip_elem (c : N) (s : str) : c ∈ lstrip s -> c ∈ s.
Proof.
  destruct (lstrip_split s) as (sp & Hs & _). intros H. rewrite Hs.
  apply elem_of_app. right. exact H.
Qed.

Lemma strip_elem (c : N) (s : str) : c ∈ strip s -> c ∈ s.
Proof.
  unfold strip. intros H. apply list_elem_of_In, in_rev, list_elem_of_In in H.
  apply lstrip_elem in H. apply list_elem_of_In, in_rev, list_elem_of_In in H.
  apply lstrip_elem, H.
Qed.

Lemma str_split_free (sep : N) (s : str) :
  Forall (fun w => sep ∉ w) (str_split sep s).
Proof.
  induction s as [|c s IH]; simpl.
  - repeat constructor. apply not_elem_of_nil.
  - destruct (N.eqb_spec c sep) as [-> | Hne].
    + constructor; [apply not_elem_of_nil | exact IH].
    + destruct (str_split sep s) as [|w ws].
      * repeat constructor. rewrite not_elem_of_cons. split; [congruence|].
        apply not_elem_of_nil.
      * inversion IH as [|? ? Hw Hws]; subst. constructor; [|exact Hws].
        rewrite not_elem_of_cons. split; [congruence | exact Hw].
Qed.

Lemma str_split_app (sep : N) (x r : str) :
  sep ∉ x ->
  str_split sep (x ++ r)
  = match str_split sep r with
    | w :: ws => (x ++ w) :: ws
    | [] => [x]
    end.
Proof.
  induction x as [|c x IH]; intros Hx; simpl.
  - destruct (str_split sep r) eqn:E; [|reflexivity].
    destruct r as [|d r]; simpl in E; [discriminate|].
    destruct (N.eqb d sep); [discriminate|]. destruct (str_split sep r); discriminate.
  - apply not_elem_of_cons in Hx as [Hc Hx].
    destruct (N.eqb_spec c sep) as [-> | _]; [congruence|].
    rewrite (IH Hx). destruct (str_split sep r); reflexivity.
Qed.

(** Splitting what [join] has put together gives the parts back. *)
Lemma str_split_join (sep : N) (xs : list str) :
  xs <> [] -> Forall (fun w => sep ∉ w) xs ->
  str_split sep (str_join sep xs) = xs.
Proof.
  induction xs as [|x xs IH]; intros Hne Hall; [congruence|].
  inversion Hall as [|? ? Hx Hxs]; subst. unfold str_join.
  rewrite (str_split_app _ _ _ Hx).
  destruct xs as [|y ys]; simpl.
  - rewrite app_nil_r. reflexivity.
  - rewrite N.eqb_refl. rewrite app_nil_r. f_equal.
    apply (IH ltac:(discriminate) Hxs).
Qed.

(** X20. The provider names [_to_order_list] returns are not empty and
    have no white space around them, whatever value it is given. The
    names it reads from a string hold no comma, and they survive the round
    trip: joined with commas and parsed again they are the same list. *)
Theorem to_order_list_round_trip (x : pyobj) (s : str) :
  let order := LiteLLMBase._to_order_list (PyStr s) in
  Forall (fun name => name <> [] /\ strip name = name) (LiteLLMBase._to_order_list x)
  /\ Forall (fun name => 44%N ∉ name) order
  /\ LiteLLMBase._to_order_list (PyStr (str_join 44 order)) = order.
Proof.
  intros order.
  assert (Hnames : forall {A} (f : A -> str) (l : list A),
             Forall (fun name => name <> [] /\ strip name = name)
               (map (fun a => strip (f a))
                  (List.filter (fun a => negb (bool_decide (strip (f a) = []))) l))).
  { intros A f l. apply Forall_map, Forall_forall. intros a Ha.
    apply list_elem_of_In, filter_In in Ha as [_ Ha].
    apply negb_true_iff, bool_decide_eq_false in Ha.
    split; [exact Ha | apply strip_idempotent]. }
  assert (Hany : forall y, Forall (fun name => name <> [] /\ strip name = name)
                             (LiteLLMBase._to_order_list y)).
  { intros y. destruct y; try constructor.
    - apply (Hnames str (fun s => s)).
    - apply (Hnames pyobj py_str). }
  split; [apply Hany|].
  pose proof (Hany (PyStr s)) as Hfirst. fold order in Hfirst.
  subst order. cbn [LiteLLMBase._to_order_list] in *.
  set (order := map strip _) in *.
  assert (Hfree : Forall (fun name => 44%N ∉ name) order).
  { subst order. apply Forall_map, Forall_forall. intros w Hw.
    apply list_elem_of_In, filter_In in Hw as [Hw _].
    pose proof (str_split_free 44 s) as Hs. rewrite Forall_forall in Hs.
    intros Hin. apply strip_elem in Hin. apply list_elem_of_In in Hw.
    exact (Hs w Hw Hin). }
  split; [exact Hfree|].
  destruct order as [|n ns] eqn:E; [reflexivity|].
  rewrite str_split_join by (try discriminate; exact Hfree).
  rewrite <- E in *. clear E Hfree.
  induction Hfirst as [|name names [Hne Hs] _ IH]; [reflexivity|].
  cbn [List.filter]. rewrite Hs.
  rewrite bool_decide_false by exact Hne. cbn [negb map]. rewrite Hs, IH. reflexivity.
Qed.

End OrderList.

(** ** Properties of [HuggingFaceChat] *)

Section HuggingFace.

Lemma split_first_spec (sep s : str) :
  sep <> [] ->
  ~ occurs sep (split_first sep s)
  /\ exists rest, s = split_first sep s ++ rest
                  /\ (rest = [] \/ startswith sep rest = true).
Proof.
  intros Hsep.
  assert (Hnil : ~ occurs sep []).
  { intros (a & b & H). symmetry in H. apply app_eq_nil in H as [_ H].
    apply app_eq_nil in H as [H _]. contradiction. }
  induction s as [|c s [IHn (rest & IHs & IHr)]]; cbn [split_first].
  - destruct (startswith sep []); (split; [exact Hnil|]); exists []; split; auto.
  - destruct (startswith sep (c :: s)) eqn:E.
    + split; [exact Hnil|]. exists (c :: s). split; [reflexivity | right; exact E].
    + split.
      * intros Hocc. apply contains_spec in Hocc. cbn [contains] in Hocc.
        apply orb_true_iff in Hocc as [Hs | Hc].
        -- apply startswith_spec in Hs as [b Hb].
           assert (Hst : startswith sep (c :: s) = true).
           { apply startswith_spec. exists (b ++ rest).
             rewrite IHs at 1. rewrite app_comm_cons, Hb, <- app_assoc. reflexivity. }
           congruence.
        -- apply IHn, contains_spec, Hc.
      * exists rest. split; [|exact IHr]. simpl. congruence.
Qed.

(** X21. [HuggingFaceChat] refuses an empty [base_url] with
    [ValueError]. Else the model name it keeps is the given name up to
    the first [___]: it holds no [___], the given name continues it with
    nothing or with [___], and a name without [___] is kept whole. *)
Theorem huggingface_model_name (urljoin : str -> str -> str) (model_name base_url : str) :
  match HuggingFaceChat_init urljoin model_name base_url with
  | inl e => base_url = [] /\ exn_str e = u "Local llm url cannot be None"
  | inr (name, url) =>
      base_url <> [] /\ url = urljoin base_url (u "v1")
      /\ ~ occurs (u "___") name
      /\ (exists rest, model_name = name ++ rest
                       /\ (rest = [] \/ startswith (u "___") rest = true))
      /\ (~ occurs (u "___") model_name -> name = model_name)
  end.
Proof.
  unfold HuggingFaceChat_init. destruct base_url as [|c base_url].
  - split; reflexivity.
  - destruct (split_first_spec (u "___") model_name ltac:(discriminate))
      as (Hn & rest & Hs & Hr).
    split; [discriminate|]. split; [reflexivity|]. split; [exact Hn|].
    split; [exists rest; tauto|].
    intros Hno. destruct Hr as [-> | Hr]; [rewrite app_nil_r in Hs; congruence|].
    exfalso. apply Hno. apply startswith_spec in Hr as [b ->].
    exists (split_first (u "___") model_name), b. exact Hs.
Qed.

End HuggingFace.
